(** * delong-datasets: a shallow embedding of the client library

    The definitions follow the package, file by file:
    - [errors.py]      the exception classes                 ([exn])
    - [config.py]      the environment-driven settings       ([config])
    - [downloader.py]  page conversion and the paging loop   (Section [Paging])
    - [attestation.py] the cipher resolver and its cache     ([world])
    - [metadata.py]    the decrypt request                   ([_request])
    - [policy.py], [api.py]   the export ceiling             (Section [ExportData])
    - [resumable.py]   the Range-resume downloader           ([machine])
    The facts come after the definitions, in the same order.

    Python exceptions are modelled by the [result] type, module globals and
    the file system by explicit state passing, and the generator of
    [fetch_all_pages] by a frame that [next] resumes. *)

From Stdlib Require Import ZArith String Ascii List Lia Bool.
From stdpp Require Import base option list gmap strings pretty.

Open Scope string_scope.
Open Scope list_scope.
Open Scope Z_scope.

(** ** errors.py and the exceptions of foreign code *)

Inductive exn :=
| AuthError (msg : string)
| NotFoundError (msg : string)
| RateLimitError (msg : string)
| RemoteServerError (msg : string)
| NetworkError (msg : string)
| ParseError (msg : string)
| PolicyViolationError (msg : string)
| ValueError (msg : string)
| IndexError (msg : string)
| TypeError (msg : string)
| AttributeError (msg : string)
| JSONDecodeError (msg : string)
(* urllib.error.HTTPError: the status code, what [e.read().decode()] gives
   ([None] when reading raises) and [str(e)] *)
| HTTPError (code : Z) (body : option string) (msg : string)
(* any other exception raised by the transport or a foreign library
   (URLError, socket.timeout, ConnectionRefusedError, ImportError ...) *)
| ForeignError (cls msg : string).

(** [str(e)] *)
Definition str_exn (e : exn) : string :=
  match e with
  | AuthError m | NotFoundError m | RateLimitError m | RemoteServerError m
  | NetworkError m | ParseError m | PolicyViolationError m | ValueError m
  | IndexError m | TypeError m | AttributeError m | JSONDecodeError m => m
  | HTTPError _ _ m => m
  | ForeignError _ m => m
  end.

(** The taxonomy of section 7 of the design, to compare classes only. *)
Inductive error_class :=
| Auth | NotFound | RateLimit | RemoteServer | Network | Parse | PolicyViolation
| Unclassified.

Definition class_of (e : exn) : error_class :=
  match e with
  | AuthError _ => Auth
  | NotFoundError _ => NotFound
  | RateLimitError _ => RateLimit
  | RemoteServerError _ => RemoteServer
  | NetworkError _ => Network
  | ParseError _ => Parse
  | PolicyViolationError _ => PolicyViolation
  | _ => Unclassified
  end.

Inductive result (A : Type) :=
| Ok (a : A)
| Raise (e : exn).
Arguments Ok {A} a.
Arguments Raise {A} e.

Definition raised {A} (r : result A) : option error_class :=
  match r with Ok _ => None | Raise e => Some (class_of e) end.

(** A call into a foreign library (datasets, pandas): it returns, or raises
    an exception of its own, never one of this package's. *)
Inductive outcome (A : Type) :=
| Returned (a : A)
| Failed (cls msg : string).
Arguments Returned {A} a.
Arguments Failed {A} cls msg.

Definition foreign {A} (o : outcome A) : result A :=
  match o with
  | Returned a => Ok a
  | Failed cls msg => Raise (ForeignError cls msg)
  end.

(** ** Python values as far as the package looks at them

    What [json.loads] returns (numbers restricted to integers).  An object is
    the [dict] it loads to, kept as an association list in key order. *)

#[local] Unset Elimination Schemes.
Inductive json :=
| JNull
| JBool (b : bool)
| JNum (z : Z)
| JStr (s : string)
| JArr (items : list json)
| JObj (fields : list (string * json)).
#[local] Set Elimination Schemes.

(** Truth value of a Python object ([if x], [x or y], [not x]). *)
Definition truthy (v : json) : bool :=
  match v with
  | JNull => false
  | JBool b => b
  | JNum z => negb (z =? 0)
  | JStr s => negb (String.eqb s "")
  | JArr l => match l with [] => false | _ => true end
  | JObj l => match l with [] => false | _ => true end
  end.

(** [a or b] *)
Definition py_or (a b : json) : json := if truthy a then a else b.

(** A [dict] with string keys: insertion-ordered, a key set twice keeps its
    first position and takes the new value. *)
Definition pydict (V : Type) := list (string * V).

Fixpoint dict_get {V} (k : string) (d : pydict V) : option V :=
  match d with
  | [] => None
  | (k', v) :: d' => if String.eqb k k' then Some v else dict_get k d'
  end.

Fixpoint dict_set {V} (k : string) (v : V) (d : pydict V) : pydict V :=
  match d with
  | [] => [(k, v)]
  | (k', v') :: d' =>
      if String.eqb k k' then (k', v) :: d' else (k', v') :: dict_set k v d'
  end.

(** ** config.py *)

Record config := {
  DS_DECRYPT_ENDPOINT : string;
  DS_TIMEOUT : Z;
  DS_MAX_RETRIES : Z;
  DS_DEFAULT_LIMIT : Z;
  DS_MAX_LIMIT : Z;
  MAX_LOCAL_EXPORT_ROWS : Z;
  DS_ATTESTATION_SOCKET : string;
  DS_ATTESTATION_AUDIENCE : string;
  DS_ATTESTATION_ENDPOINT : string;
  DS_ATTESTATION_TIMEOUT : Z
}.

(** The values the module takes when no environment variable is set. *)
Definition default_config : config := {|
  DS_DECRYPT_ENDPOINT := "https://delong-datasets.avinasi.org/api/datasets/decrypt";
  DS_TIMEOUT := 30;
  DS_MAX_RETRIES := 3;
  DS_DEFAULT_LIMIT := 1000;
  DS_MAX_LIMIT := 10000;
  MAX_LOCAL_EXPORT_ROWS := 10000;
  DS_ATTESTATION_SOCKET := "/var/run/delong-attestor/socket";
  DS_ATTESTATION_AUDIENCE := "https://delongapi.internal";
  DS_ATTESTATION_ENDPOINT := "http://34.111.110.19/attestation/is_confidential";
  DS_ATTESTATION_TIMEOUT := 10
|}.

(** ** downloader.py *)

(** The dictionary [decrypt_dataset] documents as its return value. *)
Record page := {
  data : list (list json);
  columns : list string;
  row_count : Z;
  total_rows : Z;
  has_more : bool;
  data_type : string
}.

Definition row := pydict json.

(** Page Response invariant of the data model. *)
Definition page_invariant (p : page) : Prop :=
  row_count p = Z.of_nat (length (data p)) ∧
  Forall (λ r, length r = length (columns p)) (data p).

(** [{col: row[i] for i, col in enumerate(columns)}], the comprehension
    started at index [i] with the dictionary built so far. *)
Fixpoint dict_of_row (cols : list string) (i : nat) (r : list json) (d : row)
  : result row :=
  match cols with
  | [] => Ok d
  | col :: cols' =>
      match r !! i with
      | None => Raise (IndexError "list index out of range")
      | Some v => dict_of_row cols' (S i) r (dict_set col v d)
      end
  end.

Fixpoint dicts_of_rows (cols : list string) (rows : list (list json))
  : result (list row) :=
  match rows with
  | [] => Ok []
  | r :: rows' =>
      match dict_of_row cols 0 r [] with
      | Raise e => Raise e
      | Ok d =>
          match dicts_of_rows cols rows' with
          | Raise e => Raise e
          | Ok ds => Ok (d :: ds)
          end
      end
  end.

Definition response_to_dict_list (response : page) : result (list row) :=
  dicts_of_rows (columns response) (data response).

(** Python truth value of an [Optional[int]]. *)
Definition truthy_limit (limit : option Z) : bool :=
  match limit with
  | None => false
  | Some l => negb (l =? 0)
  end.

(** [limit and len(all_rows) >= limit], the test guarding [break]. *)
Definition reached (limit : option Z) (all_rows : list row) : bool :=
  truthy_limit limit && (default 0 limit <=? Z.of_nat (length all_rows)).

Section Paging.
(** The paging loop is written against [decrypt_dataset] as an operation on
    some world: the backend, the cipher cache and whatever else a call
    touches. *)
Context {World : Type}.
Variable decrypt_dataset :
  string → string → option (list string) → Z → Z → World → result page * World.

(** Where the generator body of [fetch_all_pages] is suspended. *)
Inductive frame :=
| AtWhile (offset : Z) (more : bool)
| InFor (offset : Z) (response : page) (pending : list row)
| Finished.

Record generator := {
  dataset_id : string;
  token : string;
  gen_columns : option (list string);
  page_size : Z;
  at_frame : frame
}.

Definition goto (g : generator) (f : frame) : generator :=
  {| dataset_id := dataset_id g; token := token g;
     gen_columns := gen_columns g; page_size := page_size g;
     at_frame := f |}.

(** Calling the generator function runs nothing yet: [offset = start_offset],
    [has_more = True], about to test the [while]. *)
Definition fetch_all_pages (dataset_id token : string)
    (columns : option (list string)) (page_size start_offset : Z) : generator :=
  {| dataset_id := dataset_id; token := token; gen_columns := columns;
     page_size := page_size; at_frame := AtWhile start_offset true |}.

Inductive signal :=
| Yield (r : row)
| StopIteration
| Raised (e : exn).

(** [next(gen)]: run the body up to the next [yield], the end of the loop or
    an exception.  One unit of fuel per page requested or exhausted. *)
Fixpoint next (fuel : nat) (g : generator) (w : World)
  : option (signal * generator * World) :=
  match fuel with
  | O => None
  | S fuel' =>
      match at_frame g with
      | Finished => Some (StopIteration, g, w)
      | AtWhile offset false => Some (StopIteration, goto g Finished, w)
      | AtWhile offset true =>
          match decrypt_dataset (dataset_id g) (token g) (gen_columns g)
                  offset (page_size g) w with
          | (Raise e, w') => Some (Raised e, goto g Finished, w')
          | (Ok response, w') =>
              match response_to_dict_list response with
              | Raise e => Some (Raised e, goto g Finished, w')
              | Ok rows => next fuel' (goto g (InFor offset response rows)) w'
              end
          end
      | InFor offset response (r :: pending) =>
          Some (Yield r, goto g (InFor offset response pending), w)
      | InFor offset response [] =>
          next fuel' (goto g (AtWhile (offset + row_count response)
                                      (has_more response))) w
      end
  end.

(** Consuming the generator to its end ([list(gen)], a [for] without
    [break]): the rows it emitted and how it ended. *)
Fixpoint exhaust (fuel : nat) (g : generator) (w : World) (emitted : list row)
  : option (result (list row) * World) :=
  match fuel with
  | O => None
  | S fuel' =>
      match next fuel' g w with
      | None => None
      | Some (Yield r, g', w') => exhaust fuel' g' w' (emitted ++ [r])
      | Some (StopIteration, _, w') => Some (Ok emitted, w')
      | Some (Raised e, _, w') => Some (Raise e, w')
      end
  end.

(** What [load_dataset_from_api] hands back: the [Dataset] that
    [Dataset.from_list] built, written by the rows it was built from, or the
    [IterableDataset] that [IterableDataset.from_generator] put around the
    generator. *)
Inductive loaded :=
| Dataset (all_rows : list row)
| IterableDataset (gen : generator).

(** [Dataset.from_list] belongs to the [datasets] library, which makes an
    Arrow table of the rows and raises when they do not fit one schema: a
    column holding both integers and strings ([ArrowInvalid]), an integer
    beyond 64 bits ([OverflowError]).  Which lists it takes is the library's
    business: [from_list] is its verdict on each.  The import of [datasets],
    a dependency of the package, is taken to succeed. *)
Variable from_list : list row → outcome unit.

(** [Dataset.from_list(all_rows)] *)
Definition Dataset_from_list (all_rows : list row) : result loaded :=
  match foreign (from_list all_rows) with
  | Ok _ => Ok (Dataset all_rows)
  | Raise e => Raise e
  end.

(** The [for row in fetch_all_pages(...)] loop of the eager branch. *)
Fixpoint collect (fuel : nat) (limit : option Z) (g : generator) (w : World)
    (all_rows : list row) : option (result (list row) * World) :=
  match fuel with
  | O => None
  | S fuel' =>
      match next fuel' g w with
      | None => None
      | Some (Yield r, g', w') =>
          let all_rows := all_rows ++ [r] in
          if reached limit all_rows then Some (Ok all_rows, w')
          else collect fuel' limit g' w' all_rows
      | Some (StopIteration, _, w') => Some (Ok all_rows, w')
      | Some (Raised e, _, w') => Some (Raise e, w')
      end
  end.

Definition load_dataset_from_api (cfg : config) (fuel : nat)
    (dataset_id token : string) (columns : option (list string))
    (streaming : bool) (limit : option Z) (offset : Z) (w : World)
  : option (result loaded * World) :=
  if streaming then
    Some (Ok (IterableDataset
                (fetch_all_pages dataset_id token columns
                   (DS_DEFAULT_LIMIT cfg) offset)), w)
  else
    let page_size :=
      if truthy_limit limit && (default 0 limit <? DS_DEFAULT_LIMIT cfg)
      then default 0 limit else DS_DEFAULT_LIMIT cfg in
    match collect fuel limit
            (fetch_all_pages dataset_id token columns page_size offset) w []
    with
    | None => None
    | Some (Ok all_rows, w') => Some (Dataset_from_list all_rows, w')
    | Some (Raise e, w') => Some (Raise e, w')
    end.
End Paging.

(** A backend scripted by a page sequence: the [k]-th call of
    [decrypt_dataset] is answered with [pages k]; the world is the log of
    the [(offset, limit)] pairs requested so far. *)
Definition scripted (pages : nat → page)
    (dataset_id token : string) (columns : option (list string))
    (offset limit : Z) (log : list (Z * Z)) : result page * list (Z * Z) :=
  (Ok (pages (length log)), log ++ [(offset, limit)]).

(** ** The outside world of attestation.py and metadata.py *)

(** A response body: its text and what [json.loads] makes of it ([None] when
    it raises [JSONDecodeError]). *)
Record payload := {
  text : string;
  parsed : option json
}.

Definition json_loads (body : payload) : result json :=
  match parsed body with
  | Some v => Ok v
  | None => Raise (JSONDecodeError "Expecting value")
  end.

(** [urllib.request.urlopen] followed by [resp.getcode()] and
    [resp.read().decode("utf-8")]: a response, or an exception on the way
    ([HTTPError] for the statuses urllib turns into errors, anything else
    for the transport). *)
Inductive urlopen_outcome :=
| Responded (status : Z) (body : payload)
| UrlopenRaised (e : exn).

(** The exchange on the local socket up to and including
    [_read_http_response]: the body it returns, or an exception from
    [connect], [sendall] or [recv]. *)
Inductive socket_outcome :=
| SocketReplied (response_body : payload)
| SocketRaised (e : exn).

Inductive event :=
| SocketExchange (path audience : string)
| HttpRequest (method url : string) (headers : pydict string) (body : option json).

(** The peers answer from the history of what was sent, the last event being
    the request at hand. *)
Record environment := {
  local_attestor : list event → socket_outcome;
  remote : list event → urlopen_outcome
}.

(** Process state: the module global [_cached_cipher] ([JNull] is [None]) and
    the requests sent so far. *)
Record world := {
  _cached_cipher : json;
  trace : list event
}.

Definition initial_world : world := {| _cached_cipher := JNull; trace := [] |}.

Definition send (ev : event) (w : world) : world :=
  {| _cached_cipher := _cached_cipher w; trace := trace w ++ [ev] |}.

Definition set_cached_cipher (v : json) (w : world) : world :=
  {| _cached_cipher := v; trace := trace w |}.

Definition is_None (v : json) : bool :=
  match v with JNull => true | _ => false end.

(** [data.get(key)] *)
Definition py_get (data : json) (key : string) : result json :=
  match data with
  | JObj fields => Ok (default JNull (dict_get key fields))
  | _ => Raise (AttributeError "object has no attribute 'get'")
  end.

(** ** attestation.py *)

Definition fetch_local_attestation_token (env : environment) (cfg : config)
    (w : world) : json * world :=
  let w' := send (SocketExchange (DS_ATTESTATION_SOCKET cfg)
                    (DS_ATTESTATION_AUDIENCE cfg)) w in
  let attempt :=
    match local_attestor env (trace w') with
    | SocketRaised e => Raise e
    | SocketReplied response_body =>
        match json_loads response_body with
        | Raise e => Raise e
        | Ok data => py_get data "token"
        end
    end in
  match attempt with
  | Ok tok => (tok, w')
  | Raise _ => (JNull, w')
  end.

Definition request_attestation_cipher (env : environment) (cfg : config)
    (token : json) (w : world) : json * world :=
  if String.eqb (DS_ATTESTATION_ENDPOINT cfg) "" then (JNull, w)
  else
    let w' := send (HttpRequest "POST" (DS_ATTESTATION_ENDPOINT cfg)
                      [("Content-Type", "application/json")]
                      (Some (JObj [("token", token)]))) w in
    match remote env (trace w') with
    | UrlopenRaised _ => (JNull, w')
    | Responded status raw =>
        if negb (status =? 200) then (JNull, w')
        else
          let inner :=
            match json_loads raw with
            | Raise e => Raise e
            | Ok data =>
                match py_get data "cipher" with
                | Raise e => Raise e
                | Ok cipher =>
                    if truthy cipher then Ok cipher else py_get data "token"
                end
            end in
          match inner with
          | Ok v => (v, w')
          | Raise _ => (JNull, w')
          end
    end.

Definition get_attestation_cipher (env : environment) (cfg : config)
    (w : world) : json * world :=
  if negb (is_None (_cached_cipher w)) then (_cached_cipher w, w)
  else
    let '(local_token, w1) := fetch_local_attestation_token env cfg w in
    if negb (truthy local_token) then
      (JStr "", set_cached_cipher (JStr "") w1)
    else
      let '(cipher, w2) := request_attestation_cipher env cfg local_token w1 in
      let c := py_or cipher (JStr "") in
      (c, set_cached_cipher c w2).

(** ** metadata.py *)

(** [needle in haystack] on [str] *)
Fixpoint contains (needle haystack : string) : bool :=
  if String.prefix needle haystack then true
  else match haystack with
       | EmptyString => false
       | String _ rest => contains needle rest
       end.

(** [key in response] for a string [key]: a key of a dict, an element of a
    list, a substring of a string; anything else raises [TypeError]. *)
Definition py_in (key : string) (response : json) : result bool :=
  match response with
  | JObj fields => Ok (bool_decide (is_Some (dict_get key fields)))
  | JArr items =>
      Ok (existsb (λ x, match x with JStr s => String.eqb s key | _ => false end)
            items)
  | JStr s => Ok (contains key s)
  | _ => Raise (TypeError "argument is not iterable")
  end.

(** The [try] block of [_request], after the request has been sent. *)
Definition _request_try (answer : urlopen_outcome) : result json :=
  match answer with
  | UrlopenRaised e => Raise e
  | Responded status body =>
      if status =? 200 then json_loads body
      else if (status =? 401) || (status =? 403) then Raise (AuthError (text body))
      else if status =? 404 then Raise (NotFoundError (text body))
      else if status =? 429 then Raise (RateLimitError (text body))
      else if (500 <=? status) && (status <? 600)
      then Raise (RemoteServerError (text body))
      else Raise (RemoteServerError
                    ("Unexpected status " +:+ pretty status +:+ ": " +:+ text body))
  end.

(** The [except] clauses of [_request]: they see whatever the [try] block
    raised, the package's own exceptions included. *)
Definition _request_except (e : exn) : exn :=
  match e with
  | HTTPError code body msg =>
      let body_text := default "" body in
      let shown := if String.eqb body_text "" then msg else body_text in
      if (code =? 401) || (code =? 403) then AuthError shown
      else if code =? 404 then NotFoundError shown
      else if code =? 429 then RateLimitError shown
      else if (500 <=? code) && (code <? 600) then RemoteServerError shown
      else NetworkError shown
  | _ => NetworkError (str_exn e)
  end.

Definition _request (env : environment) (url : string)
    (headers : option (pydict string)) (timeout : Z) (method : string)
    (json_body : option json) (w : world) : result json * world :=
  let sent := default [] headers in
  let sent := match json_body with
              | Some _ => sent ++ [("Content-Type", "application/json")]
              | None => sent
              end in
  let w' := send (HttpRequest method url sent json_body) w in
  match _request_try (remote env (trace w')) with
  | Ok v => (Ok v, w')
  | Raise e => (Raise (_request_except e), w')
  end.

Definition required_keys : list string :=
  ["data"; "columns"; "row_count"; "total_rows"; "has_more"; "data_type"].

(** The validation loop of [decrypt_dataset]. *)
Fixpoint validate (keys : list string) (response : json) : result json :=
  match keys with
  | [] => Ok response
  | key :: keys' =>
      match py_in key response with
      | Raise e => Raise e
      | Ok true => validate keys' response
      | Ok false =>
          Raise (RemoteServerError
                   ("Invalid response: missing key '" +:+ key +:+ "'"))
      end
  end.

Definition decrypt_dataset (env : environment) (cfg : config)
    (dataset_id token : string) (columns : option (list string))
    (offset limit : Z) (w : world) : result json * world :=
  if String.eqb (DS_DECRYPT_ENDPOINT cfg) "" then
    (Raise (NotFoundError "DS_DECRYPT_ENDPOINT is not configured"), w)
  else
    let headers := [("Authorization", "Bearer " +:+ token)] in
    let '(runtime_key, w1) := get_attestation_cipher env cfg w in
    let body := [("dataset_id", JStr dataset_id); ("runtime_key", runtime_key);
                 ("offset", JNum offset); ("limit", JNum limit)] in
    let body := match columns with
                | Some (c :: cs) => dict_set "columns" (JArr (JStr <$> c :: cs)) body
                | _ => body
                end in
    match _request env (DS_DECRYPT_ENDPOINT cfg) (Some headers) (DS_TIMEOUT cfg)
            "POST" (Some (JObj body)) w1 with
    | (Raise e, w2) => (Raise e, w2)
    | (Ok response, w2) => (validate required_keys response, w2)
    end.

(** What the backend answered to the request [decrypt_dataset] sent: nothing
    is sent after it, so it is the answer to the final trace. *)
Definition decrypt_answer (env : environment) (cfg : config)
    (dataset_id token : string) (columns : option (list string))
    (offset limit : Z) (w : world) : urlopen_outcome :=
  remote env (trace (decrypt_dataset env cfg dataset_id token columns offset limit w).2).

(** ** The file system and foreign code *)

Abbreviation bytes := (list Byte.byte).
Abbreviation filesystem := (gmap string bytes).

(** ASCII lower-casing, which is what [str.lower()] does to the letters that
    matter here. *)
Definition lower_ascii (c : ascii) : ascii :=
  let n := nat_of_ascii c in
  if (65 <=? n)%nat && (n <=? 90)%nat then ascii_of_nat (n + 32) else c.

Fixpoint lower (s : string) : string :=
  match s with
  | EmptyString => EmptyString
  | String c s' => String (lower_ascii c) (lower s')
  end.

(** ** policy.py *)

Definition enforce_visibility_policy (is_full : bool) : result unit := Ok tt.

Definition enforce_export_policy (cfg : config) (rows : option Z) : result unit :=
  match rows with
  | Some rows =>
      if MAX_LOCAL_EXPORT_ROWS cfg <? rows then
        Raise (PolicyViolationError
                 ("Export exceeds limit: " +:+ pretty rows +:+ " rows > "
                  +:+ pretty (MAX_LOCAL_EXPORT_ROWS cfg) +:+ " allowed. "
                  +:+ "Set DS_MAX_LOCAL_EXPORT_ROWS environment variable to increase limit."))
      else Ok tt
  | None => Ok tt
  end.

(** ** api.py *)

Section ExportData.
(** A pandas [DataFrame], opaque to the package. *)
Variable dataframe : Type.

(** A method writing to a path: [to_csv(path)] and its siblings. *)
Definition writer := string → filesystem → outcome unit * filesystem.

(** The object handed to [export_data], through the attributes the
    function looks up; [None] is an attribute the object does not have. *)
Record exportable := {
  num_rows : option Z;
  to_csv : option writer;
  to_json : option writer;
  to_parquet : option writer;
  to_pandas : option (outcome dataframe);
  iterate : outcome (list row)
}.

(** The pandas module as [export_data] uses it; importing it may fail. *)
Record pandas := {
  DataFrame : list row → outcome dataframe;
  df_to_csv : dataframe → writer;
  df_to_json : dataframe → writer;
  df_to_parquet : dataframe → writer
}.

Definition call (m : writer) (path : string) (fs : filesystem)
  : result unit * filesystem :=
  let '(o, fs') := m path fs in (foreign o, fs').

(** The pandas fallback of [export_data]. *)
Definition export_fallback (pd : outcome pandas) (data : exportable)
    (format fmt path : string) (fs : filesystem) : result unit * filesystem :=
  match foreign pd with
  | Raise e => (Raise e, fs)
  | Ok pd =>
      let df := match to_pandas data with
                | Some m => foreign m
                | None =>
                    match foreign (iterate data) with
                    | Raise e => Raise e
                    | Ok rows => foreign (DataFrame pd rows)
                    end
                end in
      match df with
      | Raise e => (Raise e, fs)
      | Ok df =>
          if String.eqb fmt "csv" then call (df_to_csv pd df) path fs
          else if String.eqb fmt "json" then call (df_to_json pd df) path fs
          else if String.eqb fmt "parquet" then call (df_to_parquet pd df) path fs
          else (Raise (ValueError ("Unsupported export format: " +:+ format)), fs)
      end
  end.

(** [hasattr(data, name) and fmt == wanted] *)
Definition native (method : option writer) (fmt wanted : string) : option writer :=
  match method with
  | Some m => if String.eqb fmt wanted then Some m else None
  | None => None
  end.

(** Everything [export_data] does after the policy check. *)
Definition export_paths (pd : outcome pandas) (data : exportable)
    (format path : string) (fs : filesystem) : result unit * filesystem :=
  let fmt := lower format in
  match native (to_csv data) fmt "csv" with
  | Some m => call m path fs
  | None =>
      match native (to_json data) fmt "json" with
      | Some m => call m path fs
      | None =>
          match native (to_parquet data) fmt "parquet" with
          | Some m => call m path fs
          | None => export_fallback pd data format fmt path fs
          end
      end
  end.

Definition export_data (cfg : config) (pd : outcome pandas) (data : exportable)
    (format path : string) (fs : filesystem) : result unit * filesystem :=
  let rows := num_rows data in
  match enforce_export_policy cfg rows with
  | Raise e => (Raise e, fs)
  | Ok _ => export_paths pd data format path fs
  end.
End ExportData.
Arguments num_rows {dataframe}.
Arguments to_csv {dataframe}.
Arguments to_json {dataframe}.
Arguments to_parquet {dataframe}.
Arguments to_pandas {dataframe}.
Arguments iterate {dataframe}.
Arguments DataFrame {dataframe}.
Arguments df_to_csv {dataframe}.
Arguments df_to_json {dataframe}.
Arguments df_to_parquet {dataframe}.
Arguments export_fallback {dataframe}.
Arguments export_paths {dataframe}.
Arguments export_data {dataframe}.

(** ** resumable.py *)

(** What the server does with a HEAD: status and header lines, or an
    exception out of [urlopen] (which is also how urllib reports a status
    outside 2xx). *)
Inductive head_outcome :=
| HeadResponded (status : Z) (headers : list (string * string))
| HeadRaised (e : exn).

(** The body of a GET as [resp.read] delivers it: chunks, and the exception
    that cut the stream short if one did. *)
Record stream := {
  chunks : list bytes;
  broken : option exn
}.

Inductive get_outcome :=
| GetResponded (status : Z) (body : stream)
| GetRaised (e : exn).

(** The server, by URL and request headers. *)
Record server := {
  answer_head : string → pydict string → head_outcome;
  answer_get : string → pydict string → get_outcome
}.

Inductive request :=
| HEAD (url : string) (headers : pydict string)
| GET (url : string) (headers : pydict string).

(** The disk and the requests issued so far. *)
Record machine := {
  files : filesystem;
  requests : list request
}.

Definition issue (r : request) (m : machine) : machine :=
  {| files := files m; requests := requests m ++ [r] |}.

Definition store (fs : filesystem) (m : machine) : machine :=
  {| files := fs; requests := requests m |}.

(** [{k.lower(): v for k, v in resp.headers.items()}] *)
Definition lowered (headers : list (string * string)) : gmap string string :=
  foldl (λ acc kv, <[lower kv.1 := kv.2]> acc) ∅ headers.

Definition _http_head (srv : server) (url : string) (headers : pydict string)
    (timeout : Z) (m : machine) : result (Z * gmap string string) * machine :=
  let m' := issue (HEAD url headers) m in
  match answer_head srv url headers with
  | HeadRaised e => (Raise e, m')
  | HeadResponded status hs => (Ok (status, lowered hs), m')
  end.

(** The headers [_http_get] puts on its request. *)
Definition get_headers (headers : pydict string) (range_start : option Z)
  : pydict string :=
  match range_start with
  | Some start =>
      if 0 <? start
      then dict_set "Range" ("bytes=" +:+ pretty start +:+ "-") headers
      else headers
  | None => headers
  end.

(** [_http_get]; the parsed [Content-Length] it also returns is not used by
    its caller and is left out. *)
Definition _http_get (srv : server) (url : string) (headers : pydict string)
    (timeout : Z) (range_start : option Z) (m : machine)
  : result (Z * stream) * machine :=
  let sent := get_headers headers range_start in
  let m' := issue (GET url sent) m in
  match answer_get srv url sent with
  | GetRaised e => (Raise e, m')
  | GetResponded status body => (Ok (status, body), m')
  end.

(** [existing]: the size of the [.part] file, 0 when there is none. *)
Definition part_size (fs : filesystem) (part_path : string) : Z :=
  match fs !! part_path with
  | Some content => Z.of_nat (length content)
  | None => 0
  end.

(** [supports_range] as the probe decides it. *)
Definition probe (head : result (Z * gmap string string)) : bool :=
  match head with
  | Ok (status, hdrs) =>
      let accept_ranges := lower (default "" (hdrs !! "accept-ranges")) in
      contains "bytes" accept_ranges || (status =? 200)
  | Raise _ => true
  end.

(** Truth value of [range_start]. *)
Definition truthy_range (range_start : option Z) : bool :=
  match range_start with
  | Some start => negb (start =? 0)
  | None => false
  end.

Definition resumable_download (srv : server) (cfg : config) (url : string)
    (headers : pydict string) (dest_path : string) (m : machine)
  : result string * machine :=
  let part_path := dest_path +:+ ".part" in
  let timeout := DS_TIMEOUT cfg in
  let existing := part_size (files m) part_path in
  let '(head, m1) := _http_head srv url headers timeout m in
  let supports_range := probe head in
  let range_start :=
    if (0 <? existing) && supports_range then Some existing else None in
  match _http_get srv url headers timeout range_start m1 with
  | (Raise e, m2) => (Raise e, m2)
  | (Ok (status, body), m2) =>
      let append := (status =? 206) && truthy_range range_start in
      (* open(part_path, "ab") keeps what is there, "wb" truncates *)
      let opened := if append then default [] (files m2 !! part_path) else [] in
      let written := opened ++ concat (chunks body) in
      let m3 := store (<[part_path := written]> (files m2)) m2 in
      match broken body with
      | Some e => (Raise e, m3)
      | None =>
          (* os.remove(dest_path) if it exists, then os.replace *)
          let fs := delete dest_path (files m3) in
          let fs := <[dest_path := written]> (delete part_path fs) in
          (Ok dest_path, store fs m3)
      end
  end.

(** ** Vocabulary of the statements *)

(** The first [n] pages of a sequence, and the sum of their [row_count]. *)
Definition fetched (pages : nat → page) (n : nat) : list page :=
  pages <$> seq 0 n.

Definition sum_row_count (ps : list page) : Z :=
  foldr (λ p acc, row_count p + acc) 0 ps.

(** The row records of a page, when the conversion goes through. *)
Definition page_rows (p : page) : list row :=
  match response_to_dict_list p with
  | Ok rows => rows
  | Raise _ => []
  end.

(** The requests the paging loop makes for the first [n] pages: each at the
    starting offset advanced by the [row_count] of the pages before it. *)
Definition requests_upto (pages : nat → page) (start_offset page_size : Z)
    (n : nat) : list (Z * Z) :=
  (λ k, (start_offset + sum_row_count (fetched pages k), page_size)) <$> seq 0 n.

Definition all_rows (pages : nat → page) (n : nat) : list row :=
  concat (page_rows <$> fetched pages n).

(** The eager loop started in a given state comes out with [out], for every
    large enough fuel. *)
Definition collects {World : Type}
    (decrypt : string → string → option (list string) → Z → Z → World
               → result page * World)
    (limit : option Z) (g : generator) (w : World) (acc : list row)
    (out : result (list row) * World) : Prop :=
  ∃ fuel0, ∀ fuel, (fuel0 ≤ fuel)%nat →
    collect decrypt fuel limit g w acc = Some out.

(** A two-page sequence used to exercise the statements: two rows, then a
    last page of one row. *)
Definition demo_page (first : bool) : page := {|
  data := if first then [[JNum 1; JNum 34]; [JNum 2; JNum 51]]
          else [[JNum 3; JNum 47]];
  columns := ["patient_id"; "age"];
  row_count := if first then 2 else 1;
  total_rows := 3;
  has_more := first;
  data_type := "sample"
|}.

Definition demo_pages (k : nat) : page :=
  match k with
  | O => demo_page true
  | S _ => demo_page false
  end.

(** A small configuration with an export ceiling of two rows, a bare
    iterable of three rows without [num_rows], a dataset object reporting
    [num_rows], and a pandas whose writers put one line feed per row. *)
Definition demo_config : config := {|
  DS_DECRYPT_ENDPOINT := DS_DECRYPT_ENDPOINT default_config;
  DS_TIMEOUT := 30;
  DS_MAX_RETRIES := 3;
  DS_DEFAULT_LIMIT := 1000;
  DS_MAX_LIMIT := 10000;
  MAX_LOCAL_EXPORT_ROWS := 2;
  DS_ATTESTATION_SOCKET := DS_ATTESTATION_SOCKET default_config;
  DS_ATTESTATION_AUDIENCE := DS_ATTESTATION_AUDIENCE default_config;
  DS_ATTESTATION_ENDPOINT := DS_ATTESTATION_ENDPOINT default_config;
  DS_ATTESTATION_TIMEOUT := 10
|}.

Definition demo_write (rows : list row) : writer :=
  λ path fs, (Returned tt, <[path := (λ _, Byte.x0a) <$> rows]> fs).

Definition demo_pandas : pandas (list row) := {|
  DataFrame := λ rows, Returned rows;
  df_to_csv := demo_write;
  df_to_json := demo_write;
  df_to_parquet := demo_write
|}.

Definition demo_iterable : exportable (list row) := {|
  num_rows := None;
  to_csv := None;
  to_json := None;
  to_parquet := None;
  to_pandas := None;
  iterate := Returned (all_rows demo_pages 2)
|}.

Definition demo_dataset : exportable (list row) := {|
  num_rows := Some 3;
  to_csv := Some (demo_write (all_rows demo_pages 2));
  to_json := Some (demo_write (all_rows demo_pages 2));
  to_parquet := Some (demo_write (all_rows demo_pages 2));
  to_pandas := Some (Returned (all_rows demo_pages 2));
  iterate := Returned (all_rows demo_pages 2)
|}.

(** A verdict in the manner of pyarrow, to exercise the statements: the
    first row sets the type of each column, a later cell must be null or of
    that type, and an integer must fit 64 bits. *)
Definition same_type (a b : json) : bool :=
  match a, b with
  | JNull, _ | _, JNull => true
  | JBool _, JBool _ | JNum _, JNum _ | JStr _, JStr _ => true
  | JArr _, JArr _ | JObj _, JObj _ => true
  | _, _ => false
  end.

Definition int64 (v : json) : bool :=
  match v with
  | JNum z => (- 2 ^ 63 <=? z) && (z <? 2 ^ 63)
  | _ => true
  end.

Definition arrow_verdict (rows : list row) : outcome unit :=
  match rows with
  | [] => Returned tt
  | first :: _ =>
      if negb (forallb (λ r : row, forallb (λ kv, int64 kv.2) r) rows)
      then Failed "OverflowError" "Python int too large to convert to C long"
      else if forallb (λ r : row,
                forallb (λ kv, match dict_get kv.1 first with
                               | Some v => same_type v kv.2
                               | None => true
                               end) r) rows
      then Returned tt
      else Failed "ArrowInvalid" "Could not convert a value of another type"
  end.

(** A page that meets the Page Response invariant with a column of an
    integer and a string. *)
Definition mixed_page : page := {|
  data := [[JNum 1]; [JStr "a"]];
  columns := ["code"];
  row_count := 2;
  total_rows := 2;
  has_more := false;
  data_type := "real"
|}.

(** An object of two rows that has [to_csv] and nothing else. *)
Definition demo_csv_only : exportable (list row) := {|
  num_rows := Some 2;
  to_csv := Some (demo_write (all_rows demo_pages 1));
  to_json := None;
  to_parquet := None;
  to_pandas := None;
  iterate := Returned (all_rows demo_pages 1)
|}.

(** How the error of [decrypt_dataset] follows from the backend's answer. *)
Definition error_mapping (answer : urlopen_outcome) (r : result json) : Prop :=
  match answer with
  | UrlopenRaised (HTTPError code _ _) =>
      (code = 401 ∨ code = 403 → raised r = Some Auth) ∧
      (code = 404 → raised r = Some NotFound) ∧
      (code = 429 → raised r = Some RateLimit) ∧
      (500 ≤ code < 600 → raised r = Some RemoteServer)
  | UrlopenRaised _ => raised r = Some Network
  | Responded status body =>
      status = 200 →
      match parsed body with
      | None => raised r = Some Network
      | Some (JObj fields) =>
          if forallb (λ key, bool_decide (is_Some (dict_get key fields)))
               required_keys
          then r = Ok (JObj fields)
          else raised r = Some RemoteServer
      | Some _ => True
      end
  end.

(** A machine without attestor socket, in front of a backend that gives one
    fixed answer. *)
Definition no_attestor : list event → socket_outcome :=
  λ _, SocketRaised (ForeignError "FileNotFoundError"
                       "[Errno 2] No such file or directory").

Definition answering (answer : urlopen_outcome) : environment :=
  {| local_attestor := no_attestor; remote := λ _, answer |}.

Definition html_error_page : payload :=
  {| text := "<html><body>Bad Gateway</body></html>"; parsed := None |}.

Definition not_found_error : exn :=
  HTTPError 404 (Some "dataset not found")
    "HTTP Error 404: Not Found".

(** [n] calls of [get_attestation_cipher] in a row, with what each
    returned. *)
Fixpoint get_attestation_cipher_times (env : environment) (cfg : config)
    (n : nat) (w : world) : list json * world :=
  match n with
  | O => ([], w)
  | S n' =>
      let '(c, w1) := get_attestation_cipher env cfg w in
      let '(cs, w2) := get_attestation_cipher_times env cfg n' w1 in
      (c :: cs, w2)
  end.

(** An attestor that hands out a token, in front of a verifier that gives one
    fixed answer. *)
Definition attested (answer : urlopen_outcome) : environment := {|
  local_attestor := λ _, SocketReplied
    {| text := "token-json"; parsed := Some (JObj [("token", JStr "local-token")]) |};
  remote := λ _, answer
|}.

(** Range support as [resumable_download] takes it from the HEAD probe: the
    probe raised, or [Accept-Ranges] (lower-cased) contains "bytes", or the
    probe's status is 200. *)
Definition range_indicated (head : head_outcome) : bool :=
  match head with
  | HeadRaised _ => true
  | HeadResponded status hs =>
      contains "bytes" (lower (default "" (lowered hs !! "accept-ranges")))
      || (status =? 200)
  end.

(** Range support in the words of the design: the probe failed, or its
    [Accept-Ranges] header contains "bytes". *)
Definition range_indicated_by_header (head : head_outcome) : bool :=
  match head with
  | HeadRaised _ => true
  | HeadResponded status hs =>
      contains "bytes" (lower (default "" (lowered hs !! "accept-ranges")))
  end.

(** The headers of the GET that [resumable_download] issues when it resumes
    at [existing], and when it does not. *)
Definition headers_sent (resume : bool) (existing : Z) (headers : pydict string)
  : pydict string :=
  if resume then dict_set "Range" ("bytes=" +:+ pretty existing +:+ "-") headers
  else headers.

(** A server that answers HEAD with 200 and no [Accept-Ranges] header, and
    every GET with 200 and the whole file; and one that honours ranges. *)
Definition whole_file : bytes := list_byte_of_string "0123456789".

Definition plain_server : server := {|
  answer_head := λ _ _, HeadResponded 200 [("Content-Type", "text/plain")];
  answer_get := λ _ _,
    GetResponded 200 {| chunks := [whole_file]; broken := None |}
|}.

Definition range_server : server := {|
  answer_head := λ _ _, HeadResponded 200 [("Accept-Ranges", "bytes")];
  answer_get := λ _ hs,
    match dict_get "Range" hs with
    | Some _ => GetResponded 206 {| chunks := [drop 5 whole_file]; broken := None |}
    | None => GetResponded 200 {| chunks := [whole_file]; broken := None |}
    end
|}.

(** A disk holding the first five bytes of an earlier attempt. *)
Definition half_done : machine := {|
  files := {["/tmp/ds.bin.part" := list_byte_of_string "01234"]};
  requests := []
|}.

(** The range [resumable_download] asks for, from what it finds on disk and
    what the probe says: [range_start]. *)
Definition range_start_of (srv : server) (url : string) (headers : pydict string)
    (existing : Z) : option Z :=
  if (0 <? existing) && range_indicated (answer_head srv url headers)
  then Some existing else None.

(** An answer of a server that holds [content] at the URL: the whole of it
    with 200, or, to a request for the bytes from [n] on, those with 206. *)
Definition honest (content : bytes) (range_start : option Z) (status : Z)
    (streamed : bytes) : Prop :=
  (status = 200 ∧ streamed = content) ∨
  (status = 206 ∧ ∃ n, range_start = Some n ∧ streamed = drop (Z.to_nat n) content).

(** The server answers the GET for [range_start] honestly, and the body
    comes through. *)
Definition answers_with (content : bytes) (srv : server) (url : string)
    (headers : pydict string) (range_start : option Z) : Prop :=
  ∃ status body,
    answer_get srv url (get_headers headers range_start) = GetResponded status body ∧
    broken body = None ∧
    honest content range_start status (concat (chunks body)).

(** A server whose connection drops after the first three bytes. *)
Definition flaky_server : server := {|
  answer_head := λ _ _, HeadResponded 200 [("Accept-Ranges", "bytes")];
  answer_get := λ _ _,
    GetResponded 200 {| chunks := [take 3 whole_file];
                        broken := Some (ForeignError "ConnectionResetError" "Connection reset by peer") |}
|}.

(** A server that honours a request for the bytes from 3 on. *)
Definition range_server_from_3 : server := {|
  answer_head := λ _ _, HeadResponded 200 [("Accept-Ranges", "bytes")];
  answer_get := λ _ hs,
    match dict_get "Range" hs with
    | Some _ => GetResponded 206 {| chunks := [drop 3 whole_file]; broken := None |}
    | None => GetResponded 200 {| chunks := [whole_file]; broken := None |}
    end
|}.

(** A disk with a file of somebody else next to the [.part] file. *)
Definition shared_disk : machine := {|
  files := {["/tmp/ds.bin.part" := list_byte_of_string "01234";
             "/tmp/other.bin" := list_byte_of_string "xyz"]};
  requests := []
|}.

(** ** api.py: the download entry point *)

Record DownloadOptions := {
  opt_stream : bool;
  timeout_sec : Z;
  max_retries : Z;
  opt_columns : option (list string);
  opt_limit : option Z;
  opt_offset : Z
}.

(** [DownloadOptions()] with every argument left to its default. *)
Definition default_options (cfg : config) : DownloadOptions := {|
  opt_stream := false;
  timeout_sec := DS_TIMEOUT cfg;
  max_retries := DS_MAX_RETRIES cfg;
  opt_columns := None;
  opt_limit := None;
  opt_offset := 0
|}.

Definition download_dataset {World : Type}
    (decrypt : string → string → option (list string) → Z → Z → World
               → result page * World)
    (from_list : list row → outcome unit)
    (cfg : config) (fuel : nat) (dataset_id token : string)
    (options : option DownloadOptions) (w : World)
  : option (result loaded * World) :=
  let opts := default (default_options cfg) options in
  load_dataset_from_api decrypt from_list cfg fuel dataset_id token
    (opt_columns opts) (opt_stream opts) (opt_limit opts) (opt_offset opts) w.

(** A backend scripted by answers that may be failures: the [k]-th call of
    [decrypt_dataset] returns or raises [answers k]. *)
Definition scripted_answers (answers : nat → result page)
    (dataset_id token : string) (columns : option (list string))
    (offset limit : Z) (log : list (Z * Z)) : result page * list (Z * Z) :=
  (answers (length log), log ++ [(offset, limit)]).

(** ** auth.py *)

Definition build_storage_options (token : string) : pydict (pydict string) :=
  if String.eqb token "" then []
  else [("headers", [("Authorization", "Bearer " +:+ token)])].

(** [c * n] for a one-character string: nothing when [n] is not positive. *)
Definition stars (n : Z) : string :=
  string_of_list_ascii (replicate (Z.to_nat n) "*"%char).

(** [s[i:]] with Python's reading of the index: a negative [i] counts from
    the end, and the start is clamped to the string. *)
Definition slice_from (s : string) (i : Z) : string :=
  let len := Z.of_nat (String.length s) in
  let start := if i <? 0 then Z.max (i + len) 0 else Z.min i len in
  string_of_list_ascii (drop (Z.to_nat start) (list_ascii_of_string s)).

Definition mask_token (token : string) (keep : Z) : string :=
  if String.eqb token "" then ""
  else if Z.of_nat (String.length token) <=? keep
  then stars (Z.of_nat (String.length token))
  else stars (Z.of_nat (String.length token) - keep) +:+ slice_from token (- keep).

(** ** scripts/mock_auth_server.py: the mock backend

    The handler and its dependency, over the values FastAPI hands them.  The
    stored tables ([MOCK_DATASETS], [SAMPLE_DATA]) and [REQUIRED_TOKEN] are
    arguments. *)

(** [l[start:stop]] with Python's reading of the bounds. *)
Definition py_slice {A} (l : list A) (start stop : Z) : list A :=
  let len := Z.of_nat (length l) in
  let norm i := if i <? 0 then Z.max (i + len) 0 else Z.min i len in
  take (Z.to_nat (norm stop - norm start)) (drop (Z.to_nat (norm start)) l).

(** [s.split(sep, 1)[1]] for a one-character separator: what follows its
    first occurrence. *)
Fixpoint after_first (sep : ascii) (s : string) : option string :=
  match s with
  | EmptyString => None
  | String c rest => if Ascii.eqb c sep then Some rest else after_first sep rest
  end.

(** [cols.index(col)] *)
Fixpoint index_of (col : string) (cols : list string) : option nat :=
  match cols with
  | [] => None
  | c :: cols' => if String.eqb c col then Some O else S <$> index_of col cols'
  end.

Record table := {
  table_data : list (list json);
  table_columns : list string
}.

Record DecryptRequest := {
  req_dataset_id : string;
  req_runtime_key : string;
  req_columns : option (list string);
  req_offset : Z;
  req_limit : Z
}.

(** What a handler does: return a value, raise [HTTPException], or raise
    something nobody catches (the framework answers 500). *)
Inductive reply (A : Type) :=
| Reply (a : A)
| HTTPException (status_code : Z) (detail : string)
| Unhandled (e : exn).
Arguments Reply {A} a.
Arguments HTTPException {A} status_code detail.
Arguments Unhandled {A} e.

Module MockServer.

Definition _require_bearer (REQUIRED_TOKEN : string)
    (authorization : option string) : reply string :=
  match authorization with
  | None => HTTPException 401 "Missing Authorization header"
  | Some authorization =>
      if String.eqb authorization ""
         || negb (String.prefix "bearer " (lower authorization))
      then HTTPException 401 "Missing Authorization header"
      else
        match after_first " " authorization with
        | None => Unhandled (IndexError "list index out of range")
        | Some token =>
            if negb (String.eqb token REQUIRED_TOKEN)
            then HTTPException 401 "Invalid or expired token"
            else Reply token
        end
  end.

Definition _verify_runtime_key (runtime_key : string) : bool :=
  negb (String.eqb runtime_key "").

(** [[all_columns.index(col) for col in request.columns]]; the name that is
    not there comes back on failure. *)
Fixpoint column_indices (all_columns wanted : list string) : string + list nat :=
  match wanted with
  | [] => inr []
  | col :: wanted' =>
      match index_of col all_columns with
      | None => inl col
      | Some i =>
          match column_indices all_columns wanted' with
          | inl missing => inl missing
          | inr rest => inr (i :: rest)
          end
      end
  end.

(** [[row[i] for i in column_indices]] *)
Fixpoint pick (r : list json) (indices : list nat) : option (list json) :=
  match indices with
  | [] => Some []
  | i :: indices' =>
      match r !! i, pick r indices' with
      | Some v, Some vs => Some (v :: vs)
      | _, _ => None
      end
  end.

Fixpoint pick_all (rows : list (list json)) (indices : list nat)
  : option (list (list json)) :=
  match rows with
  | [] => Some []
  | r :: rows' =>
      match pick r indices, pick_all rows' indices with
      | Some vs, Some vss => Some (vs :: vss)
      | _, _ => None
      end
  end.

(** The column filter of the handler. *)
Definition filtered (dataset : table) (columns : option (list string))
  : reply table :=
  match columns with
  | Some (c :: cs) =>
      match column_indices (table_columns dataset) (c :: cs) with
      | inl missing =>
          HTTPException 400
            ("Invalid column name: '" +:+ missing +:+ "' is not in list")
      | inr indices =>
          match pick_all (table_data dataset) indices with
          | None => Unhandled (IndexError "list index out of range")
          | Some rows => Reply {| table_data := rows; table_columns := c :: cs |}
          end
      end
  | _ => Reply dataset
  end.

(** The pagination of the handler. *)
Definition paginated (t : table) (data_type : string) (offset limit : Z) : page :=
  let total_rows := Z.of_nat (length (table_data t)) in
  let start := offset in
  let stop := Z.min (start + limit) total_rows in
  let paginated_data := py_slice (table_data t) start stop in
  {| data := paginated_data;
     columns := table_columns t;
     row_count := Z.of_nat (length paginated_data);
     total_rows := total_rows;
     has_more := stop <? total_rows;
     data_type := data_type |}.

Definition decrypt_dataset (MOCK_DATASETS : pydict table) (SAMPLE_DATA : table)
    (request : DecryptRequest) : reply page :=
  match dict_get (req_dataset_id request) MOCK_DATASETS with
  | None =>
      HTTPException 404 ("Dataset " +:+ req_dataset_id request +:+ " not found")
  | Some stored =>
      let is_real_data := _verify_runtime_key (req_runtime_key request) in
      let dataset := if is_real_data then stored else SAMPLE_DATA in
      let data_type := if is_real_data then "real" else "sample" in
      match filtered dataset (req_columns request) with
      | Reply t => Reply (paginated t data_type (req_offset request) (req_limit request))
      | HTTPException status detail => HTTPException status detail
      | Unhandled e => Unhandled e
      end
  end.

(** The route: the dependency [_require_bearer] runs before the handler. *)
Definition post_decrypt (REQUIRED_TOKEN : string) (MOCK_DATASETS : pydict table)
    (SAMPLE_DATA : table) (authorization : option string)
    (request : DecryptRequest) : reply page :=
  match _require_bearer REQUIRED_TOKEN authorization with
  | Reply _ => decrypt_dataset MOCK_DATASETS SAMPLE_DATA request
  | HTTPException status detail => HTTPException status detail
  | Unhandled e => Unhandled e
  end.

End MockServer.

(** ** scripts/mock_attestation_service.py *)

Module MockAttestation.

Definition TEST_CIPHER : string :=
  "a1b2c3d4e5f6789012345678901234567890abcdef1234567890abcdef123456".

Definition verify_attestation (token : string) : reply string :=
  if String.eqb token "" then HTTPException 400 "Token is required"
  else Reply TEST_CIPHER.

End MockAttestation.

(** ** The client in front of the mock backend

    What the web framework and urllib put between the two: the page a
    handler returns is the page the client reads, an [HTTPException] reaches
    the client as an [HTTPError] of that status, an unhandled exception as a
    500.  How the framework words the body and the reason is left open. *)
Record wire := {
  body_of : Z → string → string;
  reason_of : Z → string
}.

Definition over_http {A} (fw : wire) (r : reply A) : result A :=
  match r with
  | Reply a => Ok a
  | HTTPException status detail =>
      Raise (_request_except
               (HTTPError status (Some (body_of fw status detail))
                  ("HTTP Error " +:+ pretty status +:+ ": " +:+ reason_of fw status)))
  | Unhandled _ =>
      Raise (_request_except
               (HTTPError 500 (Some (body_of fw 500 "Internal Server Error"))
                  ("HTTP Error 500: " +:+ reason_of fw 500)))
  end.

(** [decrypt_dataset] of the client against the mock backend, for a client
    whose cipher is [runtime_key]: the body carries [columns] only when the
    list is not empty. *)
Definition served (fw : wire) (REQUIRED_TOKEN : string)
    (MOCK_DATASETS : pydict table) (SAMPLE_DATA : table) (runtime_key : string)
    (dataset_id token : string) (columns : option (list string))
    (offset limit : Z) (log : list (Z * Z)) : result page * list (Z * Z) :=
  (over_http fw
     (MockServer.post_decrypt REQUIRED_TOKEN MOCK_DATASETS SAMPLE_DATA
        (Some ("Bearer " +:+ token))
        {| req_dataset_id := dataset_id;
           req_runtime_key := runtime_key;
           req_columns := match columns with
                          | Some (c :: cs) => Some (c :: cs)
                          | _ => None
                          end;
           req_offset := offset;
           req_limit := limit |}),
   log ++ [(offset, limit)]).

(** A generator that will ask for a further page, in front of a page
    sequence: about to request, or inside one of its pages. *)
Definition live (pages : nat → page) (g : generator) : Prop :=
  match at_frame g with
  | AtWhile _ more => more = true
  | InFor _ response _ => ∃ k, response = pages k
  | Finished => False
  end.

(** A stored table whose rows all have one cell per column. *)
Definition table_wf (t : table) : Prop :=
  Forall (λ r, length r = length (table_columns t)) (table_data t).

(** The record of one row. *)
Definition record_of (cols : list string) (r : list json) : row :=
  match dict_of_row cols 0 r [] with
  | Ok d => d
  | Raise _ => []
  end.

(** [n] requests of [page_size] rows each, from [offset] on. *)
Definition page_offsets (offset page_size : Z) (n : nat) : list (Z * Z) :=
  (λ k : nat, (offset + Z.of_nat k * page_size, page_size)) <$> seq 0 n.

(** A store with one table of five rows, a sample table of two, and a
    framework that words nothing. *)
Definition demo_table : table := {|
  table_data := [[JStr "PT-10001"; JNum 50; JStr "malignant"];
                 [JStr "PT-10002"; JNum 67; JStr "benign"];
                 [JStr "PT-10003"; JNum 42; JStr "malignant"];
                 [JStr "PT-10004"; JNum 58; JStr "benign"];
                 [JStr "PT-10005"; JNum 45; JStr "malignant"]];
  table_columns := ["patient_id"; "age"; "diagnosis"]
|}.

Definition demo_sample : table := {|
  table_data := [[JStr "sample_001"; JNum 40; JStr "benign"];
                 [JStr "sample_002"; JNum 50; JStr "malignant"]];
  table_columns := ["patient_id"; "age"; "diagnosis"]
|}.

Definition demo_store : pydict table := [("medical_imaging_2024", demo_table)].

Definition silent_wire : wire := {| body_of := λ _ detail, detail; reason_of := λ _, "" |}.

(** A verification endpoint that behaves like the mock attestation service:
    a POST carrying [{"token": t}] is answered with what
    [verify_attestation t] does, a reply as a 200 whose JSON is
    [{"cipher": ...}], an [HTTPException] as an [HTTPError] of its status. *)
Definition answers_like_mock_attestation (env : environment) (cfg : config)
  : Prop :=
  ∀ sent hdrs t,
    last sent = Some (HttpRequest "POST" (DS_ATTESTATION_ENDPOINT cfg) hdrs
                        (Some (JObj [("token", JStr t)]))) →
    match MockAttestation.verify_attestation t with
    | Reply cipher =>
        ∃ text, remote env sent
                = Responded 200 {| text := text;
                                   parsed := Some (JObj [("cipher", JStr cipher)]) |}
    | HTTPException status _ =>
        ∃ body msg, remote env sent = UrlopenRaised (HTTPError status body msg)
    | Unhandled _ =>
        ∃ body msg, remote env sent = UrlopenRaised (HTTPError 500 body msg)
    end.

(** A machine whose attestor hands out [t], in front of such an endpoint. *)
Definition mock_attested (t : string) : environment := {|
  local_attestor := λ _, SocketReplied
    {| text := "token-json"; parsed := Some (JObj [("token", JStr t)]) |};
  remote := λ sent,
    match last sent with
    | Some (HttpRequest _ _ _ (Some (JObj fields))) =>
        match dict_get "token" fields with
        | Some (JStr token) =>
            match MockAttestation.verify_attestation token with
            | Reply cipher =>
                Responded 200 {| text := "cipher-json";
                                 parsed := Some (JObj [("cipher", JStr cipher)]) |}
            | HTTPException status detail =>
                UrlopenRaised (HTTPError status (Some detail) "HTTP Error")
            | Unhandled _ =>
                UrlopenRaised (HTTPError 500 None "HTTP Error 500")
            end
        | _ => UrlopenRaised (HTTPError 422 None "HTTP Error 422")
        end
    | _ => UrlopenRaised (HTTPError 404 None "HTTP Error 404")
    end
|}.

(** ** attestation.py: reading the attestor's reply off the socket *)

(** What [recv] does once everything sent has been read: [b""] when the peer
    has closed the connection, an exception ([socket.timeout]) when it keeps
    it open and stays silent. *)
Inductive ending :=
| Closed
| Silent (e : exn).

(** The receiving side of a connected socket: the segments still to come, in
    the order and the pieces in which they arrive. *)
Record socket := {
  arriving : list bytes;
  at_end : ending
}.

(** [sock.recv(bufsize)]: the next segment, or its first [bufsize] bytes. *)
Definition recv (bufsize : Z) (sock : socket) : result bytes * socket :=
  match arriving sock with
  | [] =>
      match at_end sock with
      | Closed => (Ok [], sock)
      | Silent e => (Raise e, sock)
      end
  | segment :: rest =>
      let n := Z.to_nat bufsize in
      if (length segment <=? n)%nat
      then (Ok segment, {| arriving := rest; at_end := at_end sock |})
      else (Ok (take n segment),
            {| arriving := drop n segment :: rest; at_end := at_end sock |})
  end.

(** [b"\r\n\r\n"] *)
Definition CRLFCRLF : bytes := [Byte.x0d; Byte.x0a; Byte.x0d; Byte.x0a].

Fixpoint starts_with (sep data : bytes) : bool :=
  match sep, data with
  | [], _ => true
  | _ :: _, [] => false
  | s :: sep', x :: data' => Byte.eqb s x && starts_with sep' data'
  end.

(** [data.find(sep)], [None] for -1. *)
Fixpoint bytes_find (sep data : bytes) : option nat :=
  if starts_with sep data then Some O
  else match data with
       | [] => None
       | _ :: data' => S <$> bytes_find sep data'
       end.

(** [sep in data] *)
Definition bytes_in (sep data : bytes) : bool :=
  match bytes_find sep data with
  | Some _ => true
  | None => false
  end.

(** [data.partition(sep)] *)
Definition bytes_partition (sep data : bytes) : bytes * bytes * bytes :=
  match bytes_find sep data with
  | Some i => (take i data, sep, drop (i + length sep) data)
  | None => (data, [], [])
  end.

(** [text.split("\r\n")], [line] being the line under way. *)
Fixpoint split_crlf (text line : string) : list string :=
  match text with
  | EmptyString => [line]
  | String c rest =>
      match rest with
      | String c' rest' =>
          if Ascii.eqb c "013" && Ascii.eqb c' "010"
          then line :: split_crlf rest' EmptyString
          else split_crlf rest (line +:+ String c EmptyString)
      | EmptyString => [line +:+ String c EmptyString]
      end
  end.

(** [line.split(":", 1)] for a line with a colon in it: what is before the
    first colon and what is after; [None] when [":" in line] is false. *)
Fixpoint split_colon (line : string) : option (string * string) :=
  match line with
  | EmptyString => None
  | String c rest =>
      if Ascii.eqb c ":" then Some (EmptyString, rest)
      else (λ kv, (String c kv.1, kv.2)) <$> split_colon rest
  end.

(** [str.isspace] on the characters of a latin-1 text. *)
Definition isspace (c : ascii) : bool :=
  let n := N_of_ascii c in
  ((9 <=? n) && (n <=? 13) || (28 <=? n) && (n <=? 32)
   || (n =? 133) || (n =? 160))%N.

Fixpoint lstrip (s : string) : string :=
  match s with
  | EmptyString => EmptyString
  | String c rest => if isspace c then lstrip rest else s
  end.

(** [s.strip()] *)
Definition strip (s : string) : string :=
  String.rev (lstrip (String.rev (lstrip s))).

Section ReadHttpResponse.
(** [int(s)], [None] when it raises, and [b.decode("utf-8")]. *)
Variable py_int : string → option Z.
Variable decode_utf8 : bytes → result string.

(** The loop over the header lines: the first line whose key is
    [content-length] decides, also when its value is no number. *)
Fixpoint content_length_of (headers_lines : list string) : option Z :=
  match headers_lines with
  | [] => None
  | line :: lines =>
      match split_colon line with
      | Some (k, v) =>
          if String.eqb (lower (strip k)) "content-length"
          then py_int (strip v)
          else content_length_of lines
      | None => content_length_of lines
      end
  end.

(** [while b"\r\n\r\n" not in data] *)
Fixpoint read_headers (fuel : nat) (sock : socket) (data : bytes)
  : option (result bytes * socket) :=
  match fuel with
  | O => None
  | S fuel' =>
      if bytes_in CRLFCRLF data then Some (Ok data, sock)
      else
        match recv 4096 sock with
        | (Raise e, sock') => Some (Raise e, sock')
        | (Ok [], sock') => Some (Ok data, sock')
        | (Ok chunk, sock') => read_headers fuel' sock' (data ++ chunk)
        end
  end.

(** [while need > 0] *)
Fixpoint read_body (fuel : nat) (sock : socket) (need : Z) (chunks : list bytes)
  : option (result (list bytes) * socket) :=
  match fuel with
  | O => None
  | S fuel' =>
      if 0 <? need then
        match recv (Z.min 4096 need) sock with
        | (Raise e, sock') => Some (Raise e, sock')
        | (Ok [], sock') => Some (Ok chunks, sock')
        | (Ok chunk, sock') =>
            read_body fuel' sock' (need - Z.of_nat (length chunk))
              (chunks ++ [chunk])
        end
      else Some (Ok chunks, sock)
  end.

(** [while True], the fallback that reads until the peer closes. *)
Fixpoint read_to_close (fuel : nat) (sock : socket) (chunks : list bytes)
  : option (result (list bytes) * socket) :=
  match fuel with
  | O => None
  | S fuel' =>
      match recv 4096 sock with
      | (Raise e, sock') => Some (Raise e, sock')
      | (Ok [], sock') => Some (Ok chunks, sock')
      | (Ok chunk, sock') => read_to_close fuel' sock' (chunks ++ [chunk])
      end
  end.

Definition _read_http_response (fuel : nat) (sock : socket)
  : option (result string * socket) :=
  match read_headers fuel sock [] with
  | None => None
  | Some (Raise e, sock1) => Some (Raise e, sock1)
  | Some (Ok data, sock1) =>
      let '(header_part, _, body_rest) := bytes_partition CRLFCRLF data in
      let headers_text := string_of_list_byte header_part in
      let headers_lines := split_crlf headers_text EmptyString in
      let content_length := content_length_of headers_lines in
      let rest :=
        match content_length with
        | Some n =>
            read_body fuel sock1 (n - Z.of_nat (length body_rest)) [body_rest]
        | None => read_to_close fuel sock1 [body_rest]
        end in
      match rest with
      | None => None
      | Some (Raise e, sock2) => Some (Raise e, sock2)
      | Some (Ok chunks, sock2) => Some (decode_utf8 (concat chunks), sock2)
      end
  end.
End ReadHttpResponse.

(** The reply as a whole, and the header block and the body that
    [partition] finds in it. *)
Definition header_of (raw : bytes) : bytes := (bytes_partition CRLFCRLF raw).1.1.

Definition body_of_reply (raw : bytes) : bytes := (bytes_partition CRLFCRLF raw).2.

(** The [Content-Length] the function reads off a reply. *)
Definition announced (py_int : string → option Z) (raw : bytes) : option Z :=
  content_length_of py_int
    (split_crlf (string_of_list_byte (header_of raw)) EmptyString).

(** A reply that arrives in the given segments, none of them empty. *)
Definition arrives (segments : list bytes) (raw : bytes) : Prop :=
  concat segments = raw ∧ Forall (λ segment, segment ≠ []) segments.

(** Decimal digits only, and text that is ASCII: enough for the replies
    below. *)
Fixpoint demo_digits (s : string) (acc : Z) : option Z :=
  match s with
  | EmptyString => Some acc
  | String c rest =>
      let n := Z.of_N (N_of_ascii c) in
      if (48 <=? n) && (n <=? 57) then demo_digits rest (10 * acc + (n - 48))
      else None
  end.

Definition demo_int (s : string) : option Z :=
  match s with
  | EmptyString => None
  | _ => demo_digits s 0
  end.

Definition demo_decode (b : bytes) : result string := Ok (string_of_list_byte b).

Definition CRLF : string := String "013" (String "010" EmptyString).

Definition demo_reply_segments : list bytes :=
  [list_byte_of_string ("HTTP/1.1 200 OK" +:+ CRLF +:+ "Content-Le");
   list_byte_of_string ("ngth: 8" +:+ CRLF +:+ CRLF +:+ "att");
   list_byte_of_string "ested"].

Definition demo_reply_unframed : list bytes :=
  [list_byte_of_string ("HTTP/1.0 200 OK" +:+ CRLF +:+ "Content-Type: text/pl");
   list_byte_of_string ("ain" +:+ CRLF +:+ CRLF +:+ "att");
   list_byte_of_string "ested"].

Definition demo_reply_short : list bytes :=
  [list_byte_of_string ("HTTP/1.1 200 OK" +:+ CRLF +:+ "Content-Length: 20");
   list_byte_of_string (CRLF +:+ CRLF +:+ "att");
   list_byte_of_string "ested"].

(** * Facts *)

(** ** downloader.py: page conversion *)

Lemma dict_of_row_total cols : ∀ i (r : list json) d,
  (i + length cols ≤ length r)%nat → ∃ d', dict_of_row cols i r d = Ok d'.
Proof.
  induction cols as [|col cols IH]; intros i r d Hlen; simpl in *.
  - by eexists.
  - destruct (r !! i) as [v|] eqn:Hv.
    + apply IH. lia.
    + apply lookup_ge_None in Hv. lia.
Qed.

Lemma dicts_of_rows_total cols (rows : list (list json)) :
  Forall (λ r, length r = length cols) rows →
  ∃ ds, dicts_of_rows cols rows = Ok ds ∧ length ds = length rows.
Proof.
  induction 1 as [|r rows Hr _ [ds [Hds Hlen]]]; simpl.
  - by exists [].
  - destruct (dict_of_row_total cols 0 r []) as [d Hd]; [lia|].
    rewrite Hd, Hds. exists (d :: ds). simpl. by rewrite Hlen.
Qed.

(** A page that satisfies its invariant converts to [row_count] records. *)
Lemma response_to_dict_list_invariant (p : page) :
  page_invariant p →
  response_to_dict_list p = Ok (page_rows p) ∧
  Z.of_nat (length (page_rows p)) = row_count p.
Proof.
  intros [Hcount Hrows]. unfold page_rows, response_to_dict_list.
  destruct (dicts_of_rows_total _ _ Hrows) as [ds [-> Hlen]].
  split; [done|]. by rewrite Hlen, Hcount.
Qed.

(** With distinct column names a row record is the row zipped with the
    columns, keys in column order. *)
Lemma dict_set_fresh {V} k (v : V) d :
  dict_get k d = None → dict_set k v d = d ++ [(k, v)].
Proof.
  induction d as [|[k' v'] d IH]; simpl; [done|].
  destruct (String.eqb k k'); [done|]. intros H. by rewrite IH.
Qed.

Lemma dict_get_snoc_ne {V} k k' (v : V) d :
  k ≠ k' → dict_get k (d ++ [(k', v)]) = dict_get k d.
Proof.
  intros Hne. induction d as [|[k'' v''] d IH]; simpl.
  - apply String.eqb_neq in Hne. by rewrite Hne.
  - by destruct (String.eqb k k'').
Qed.

Lemma dict_of_row_zip cols : ∀ i (r : list json) d,
  NoDup cols → (∀ c, c ∈ cols → dict_get c d = None) →
  (i + length cols ≤ length r)%nat →
  dict_of_row cols i r d = Ok (d ++ zip cols (drop i r)).
Proof.
  induction cols as [|col cols IH]; intros i r d Hnd Hfresh Hlen; simpl in *.
  - by rewrite app_nil_r.
  - apply NoDup_cons in Hnd as [Hcol Hnd].
    destruct (r !! i) as [v|] eqn:Hv; [|apply lookup_ge_None in Hv; lia].
    rewrite (drop_S _ _ _ Hv), dict_set_fresh by (apply Hfresh; left).
    rewrite IH; [by rewrite <- app_assoc|done| |lia].
    intros c Hc. rewrite dict_get_snoc_ne by (intros ->; done).
    apply Hfresh. by right.
Qed.

Lemma response_to_dict_list_zip (p : page) :
  page_invariant p → NoDup (columns p) →
  response_to_dict_list p = Ok (zip (columns p) <$> data p).
Proof.
  intros [_ Hrows] Hnd. unfold response_to_dict_list.
  induction Hrows as [|r rows Hr _ IH]; simpl; [done|].
  rewrite (dict_of_row_zip _ 0 r []), IH; [done..|lia].
Qed.

(** A row shorter than the column list makes the conversion raise. *)
Lemma dict_of_row_short col cols i (r : list json) d :
  (length r ≤ i)%nat →
  dict_of_row (col :: cols) i r d = Raise (IndexError "list index out of range").
Proof. intros H. simpl. by rewrite (lookup_ge_None_2 r i H). Qed.

Lemma sum_row_count_app ps qs :
  sum_row_count (ps ++ qs) = sum_row_count ps + sum_row_count qs.
Proof. induction ps as [|p ps IH]; simpl; [done|]. rewrite IH. lia. Qed.

Lemma fetched_S pages n : fetched pages (S n) = fetched pages n ++ [pages n].
Proof. unfold fetched. by rewrite seq_S, fmap_app. Qed.

Lemma sum_row_count_S pages n :
  sum_row_count (fetched pages (S n))
  = sum_row_count (fetched pages n) + row_count (pages n).
Proof. rewrite fetched_S, sum_row_count_app. simpl. lia. Qed.

(** ** downloader.py: the generator and its consumers, for any backend *)

Section PagingFacts.
Context {World : Type}.
Variable decrypt :
  string → string → option (list string) → Z → Z → World → result page * World.

Lemma next_mono fuel : ∀ fuel' g w out,
  next decrypt fuel g w = Some out → (fuel ≤ fuel')%nat →
  next decrypt fuel' g w = Some out.
Proof.
  induction fuel as [|fuel IH]; intros fuel' g w out H Hle; [done|].
  destruct fuel' as [|fuel']; [lia|]. simpl in *.
  destruct (at_frame g) as [offset [|]|offset response [|r pending]|]; try done.
  - destruct (decrypt _ _ _ _ _ _) as [[response|e] w']; [|done].
    destruct (response_to_dict_list response); [|done].
    apply IH; [done|lia].
  - apply IH; [done|lia].
Qed.

Lemma collect_mono limit fuel : ∀ fuel' g w acc out,
  collect decrypt fuel limit g w acc = Some out → (fuel ≤ fuel')%nat →
  collect decrypt fuel' limit g w acc = Some out.
Proof.
  induction fuel as [|fuel IH]; intros fuel' g w acc out H Hle; [done|].
  destruct fuel' as [|fuel']; [lia|]. simpl in *.
  destruct (next decrypt fuel g w) as [[[s g'] w']|] eqn:Hnext; [|done].
  rewrite (next_mono _ fuel' _ _ _ Hnext) by lia.
  destruct s; try done.
  destruct (reached _ _); [done|]. apply IH; [done|lia].
Qed.

(** Without a limit that counts, [collect] is [exhaust]. *)
Lemma collect_falsy limit fuel : ∀ g w acc,
  truthy_limit limit = false →
  collect decrypt fuel limit g w acc = exhaust decrypt fuel g w acc.
Proof.
  induction fuel as [|fuel IH]; intros g w acc Hl; [done|]. simpl.
  destruct (next decrypt fuel g w) as [[[[r| |e] g'] w']|]; try done.
  unfold reached. rewrite Hl. simpl. by apply IH.
Qed.
End PagingFacts.

Section CollectFacts.
Context {World : Type}.
Variable decrypt :
  string → string → option (list string) → Z → Z → World → result page * World.
Variable limit : option Z.

Local Abbreviation collects := (collects decrypt limit).

Lemma collect_S fuel g w acc :
  collect decrypt (S fuel) limit g w acc =
  match next decrypt fuel g w with
  | None => None
  | Some (Yield r, g', w') =>
      if reached limit (acc ++ [r]) then Some (Ok (acc ++ [r]), w')
      else collect decrypt fuel limit g' w' (acc ++ [r])
  | Some (StopIteration, _, w') => Some (Ok acc, w')
  | Some (Raised e, _, w') => Some (Raise e, w')
  end.
Proof. reflexivity. Qed.

(** The loop ends when the generator stops. *)
Lemma collects_stop g offset w acc :
  collects (goto g (AtWhile offset false)) w acc (Ok acc, w).
Proof. exists 2%nat. intros [|[|fuel]] ?; try lia. done. Qed.

(** A step of the generator that neither yields nor ends is invisible. *)
Lemma collects_silent g g' w w' acc out :
  (∀ fuel, next decrypt (S fuel) g w = next decrypt fuel g' w') →
  collects g' w' acc out → collects g w acc out.
Proof.
  intros Hstep [fuel0 H]. exists (S (S fuel0)).
  intros [|[|fuel]] Hle; try lia.
  specialize (H (S fuel) ltac:(lia)).
  rewrite collect_S in *. rewrite Hstep.
  destruct (next decrypt fuel g' w') as [[[[r| |e] g''] w'']|]; try done.
  destruct (reached _ _); [done|].
  eapply collect_mono; [done|lia].
Qed.

Lemma collects_fetch g offset w response w' rows acc out :
  decrypt (dataset_id g) (token g) (gen_columns g) offset (page_size g) w
    = (Ok response, w') →
  response_to_dict_list response = Ok rows →
  collects (goto g (InFor offset response rows)) w' acc out →
  collects (goto g (AtWhile offset true)) w acc out.
Proof.
  intros Hd Hr. apply collects_silent. intros fuel. simpl.
  by rewrite Hd, Hr.
Qed.

Lemma collects_page_done g offset response w acc out :
  collects (goto g (AtWhile (offset + row_count response) (has_more response)))
    w acc out →
  collects (goto g (InFor offset response [])) w acc out.
Proof. by apply collects_silent. Qed.

Lemma collects_yield g offset response r pending w acc out :
  reached limit (acc ++ [r]) = false →
  collects (goto g (InFor offset response pending)) w (acc ++ [r]) out →
  collects (goto g (InFor offset response (r :: pending))) w acc out.
Proof.
  intros Hno [fuel0 H]. exists (S (S fuel0)).
  intros [|[|fuel]] Hle; try lia.
  rewrite collect_S. cbn [next at_frame goto].
  rewrite Hno. apply H. lia.
Qed.

Lemma collects_break g offset response r pending w acc :
  reached limit (acc ++ [r]) = true →
  collects (goto g (InFor offset response (r :: pending))) w acc
    (Ok (acc ++ [r]), w).
Proof.
  intros Hyes. exists 2%nat. intros [|[|fuel]] Hle; try lia.
  rewrite collect_S. cbn [next at_frame goto].
  by rewrite Hyes.
Qed.

(** A page whose rows all fit under the limit is appended whole. *)
Lemma collects_whole_page g offset response w out : ∀ pending acc,
  reached limit (acc ++ pending) = false →
  collects (goto g (AtWhile (offset + row_count response) (has_more response)))
    w (acc ++ pending) out →
  collects (goto g (InFor offset response pending)) w acc out.
Proof.
  induction pending as [|r pending IH]; intros acc Hno H.
  - rewrite app_nil_r in H. by apply collects_page_done.
  - replace (acc ++ r :: pending) with ((acc ++ [r]) ++ pending) in *
      by by rewrite <- app_assoc.
    apply collects_yield.
    + unfold reached in *. destruct (truthy_limit limit); [|done].
      rewrite andb_true_l in *.
      apply Z.leb_gt. apply Z.leb_gt in Hno.
      rewrite !length_app in *. cbn [length] in *. lia.
    + by apply IH.
Qed.

(** A page that takes the collection to the limit is cut there. *)
Lemma collects_partial_page g offset response w L : ∀ pending acc,
  limit = Some L → 0 < L →
  Z.of_nat (length acc) < L ≤ Z.of_nat (length (acc ++ pending)) →
  collects (goto g (InFor offset response pending)) w acc
    (Ok (take (Z.to_nat L) (acc ++ pending)), w).
Proof.
  induction pending as [|r pending IH]; intros acc HL Hpos [Hlt Hle].
  - rewrite app_nil_r in Hle. lia.
  - replace (acc ++ r :: pending) with ((acc ++ [r]) ++ pending) in *
      by by rewrite <- app_assoc.
    destruct (reached limit (acc ++ [r])) eqn:Hr.
    + assert (Z.to_nat L = length (acc ++ [r])) as ->.
      { unfold reached in Hr. rewrite HL in Hr. simpl in Hr.
        apply andb_true_iff in Hr as [_ Hr]. apply Z.leb_le in Hr.
        rewrite length_app in *. cbn [length] in *. lia. }
      rewrite take_app_length. by apply collects_break.
    + apply collects_yield; [done|]. apply IH; [done..|].
      split; [|done]. unfold reached in Hr. rewrite HL in Hr. simpl in Hr.
      assert (negb (L =? 0) = true) as Hnz
        by (apply negb_true_iff, Z.eqb_neq; lia).
      rewrite Hnz in Hr. by apply Z.leb_gt in Hr.
Qed.
End CollectFacts.

(** ** downloader.py against a scripted page sequence *)

Lemma all_rows_S pages n :
  all_rows pages (S n) = all_rows pages n ++ page_rows (pages n).
Proof.
  unfold all_rows. rewrite fetched_S, fmap_app, concat_app. simpl.
  by rewrite app_nil_r.
Qed.

Lemma all_rows_prefix pages m : ∀ n,
  (m ≤ n)%nat → ∃ rest, all_rows pages n = all_rows pages m ++ rest.
Proof.
  induction n as [|n IH]; intros Hle.
  - assert (m = 0%nat) as -> by lia. exists []. by rewrite app_nil_r.
  - destruct (decide (m = S n)) as [->|Hne].
    + exists []. by rewrite app_nil_r.
    + destruct IH as [rest Hrest]; [lia|].
      exists (rest ++ page_rows (pages n)).
      by rewrite all_rows_S, Hrest, <- app_assoc.
Qed.

Section Scripted.
Variable pages : nat → page.
Hypothesis pages_invariant : ∀ k, page_invariant (pages k).

Local Abbreviation total n := (sum_row_count (fetched pages n)).

Lemma length_all_rows n : Z.of_nat (length (all_rows pages n)) = total n.
Proof.
  induction n as [|n IH]; [done|].
  rewrite all_rows_S, length_app, sum_row_count_S, Nat2Z.inj_add, IH.
  by destruct (response_to_dict_list_invariant _ (pages_invariant n)) as [_ ->].
Qed.

(** The loop of a generator [g] started at [start], once [i] pages are in. *)
Variable start : Z.
Variable g : generator.

Local Abbreviation asked n := (requests_upto pages start (page_size g) n).

Lemma length_requests_upto n : length (asked n) = n.
Proof. unfold requests_upto. by rewrite length_fmap, length_seq. Qed.

Lemma requests_upto_S n :
  asked (S n) = asked n ++ [(start + total n, page_size g)].
Proof. unfold requests_upto. by rewrite seq_S, fmap_app. Qed.

(** One request of the loop, answered by the script. *)
Lemma collects_scripted_page limit i acc out :
  collects (scripted pages) limit
    (goto g (InFor (start + total i) (pages i) (page_rows (pages i))))
    (asked (S i)) acc out →
  collects (scripted pages) limit (goto g (AtWhile (start + total i) true))
    (asked i) acc out.
Proof.
  rewrite requests_upto_S. apply collects_fetch.
  - unfold scripted. by rewrite length_requests_upto.
  - by destruct (response_to_dict_list_invariant _ (pages_invariant i)).
Qed.

(** A page whose rows do not take the collection to the limit goes in
    whole, and the loop is back at the [while] with the offset advanced. *)
Lemma collects_scripted_whole limit i out :
  reached limit (all_rows pages (S i)) = false →
  collects (scripted pages) limit
    (goto g (AtWhile (start + total (S i)) (has_more (pages i))))
    (asked (S i)) (all_rows pages (S i)) out →
  collects (scripted pages) limit (goto g (AtWhile (start + total i) true))
    (asked i) (all_rows pages i) out.
Proof.
  intros Hno Hrun. rewrite all_rows_S in *.
  apply collects_scripted_page, collects_whole_page; [done|].
  by rewrite sum_row_count_S, Z.add_assoc in Hrun.
Qed.

(** With no limit in force the loop runs to the first page that reports
    [has_more = false] and returns every row up to there. *)
Lemma collects_scripted_all limit : ∀ d i,
  truthy_limit limit = false →
  has_more (pages (i + d)) = false →
  ∃ m,
    collects (scripted pages) limit (goto g (AtWhile (start + total i) true))
      (asked i) (all_rows pages i) (Ok (all_rows pages m), asked m) ∧
    (i < m ≤ i + d + 1)%nat ∧
    has_more (pages (m - 1)) = false.
Proof.
  assert (∀ i,
    truthy_limit limit = false → has_more (pages i) = false →
    collects (scripted pages) limit (goto g (AtWhile (start + total i) true))
      (asked i) (all_rows pages i) (Ok (all_rows pages (S i)), asked (S i)))
    as Hlastpage.
  { intros i Hlim Hmore. apply collects_scripted_whole.
    - unfold reached. by rewrite Hlim.
    - rewrite Hmore. apply collects_stop. }
  induction d as [|d IH]; intros i Hlim Hlast.
  - rewrite Nat.add_0_r in Hlast. exists (S i).
    replace (S i - 1)%nat with i by lia.
    split_and!; [by apply Hlastpage|lia|lia|done].
  - destruct (has_more (pages i)) eqn:Hmore.
    + destruct (IH (S i) Hlim) as (m & Hrun & Hbounds & Hstop).
      { by replace (S i + d)%nat with (i + S d)%nat by lia. }
      exists m. split_and!; [|lia|lia|done].
      apply collects_scripted_whole; [unfold reached; by rewrite Hlim|].
      by rewrite Hmore.
    + exists (S i). replace (S i - 1)%nat with i by lia.
      split_and!; [by apply Hlastpage|lia|lia|done].
Qed.

(** With a positive limit below what the pages hold, the loop stops inside
    the page that takes the collection to the limit. *)
Lemma collects_scripted_limit L : ∀ d i,
  0 < L →
  (∀ k, (i ≤ k < i + d)%nat → has_more (pages k) = true) →
  total i < L ≤ total (i + d + 1) →
  ∃ m,
    collects (scripted pages) (Some L) (goto g (AtWhile (start + total i) true))
      (asked i) (all_rows pages i)
      (Ok (take (Z.to_nat L) (all_rows pages m)), asked m) ∧
    (i < m ≤ i + d + 1)%nat ∧
    total (m - 1) < L ≤ total m.
Proof.
  assert (∀ i, 0 < L → total i < L ≤ total (S i) →
    collects (scripted pages) (Some L) (goto g (AtWhile (start + total i) true))
      (asked i) (all_rows pages i)
      (Ok (take (Z.to_nat L) (all_rows pages (S i))), asked (S i))) as Hcutpage.
  { intros i Hpos Hin. apply collects_scripted_page. rewrite all_rows_S.
    apply collects_partial_page; [done|done|].
    rewrite <- all_rows_S, !length_all_rows. lia. }
  induction d as [|d IH]; intros i Hpos Hmore [Hlo Hhi].
  - replace (i + 0 + 1)%nat with (S i) in Hhi by lia.
    exists (S i). replace (S i - 1)%nat with i by lia.
    split_and!; [apply Hcutpage|..]; (done || lia).
  - destruct (decide (L ≤ total (S i))) as [Hin|Hout].
    + exists (S i). replace (S i - 1)%nat with i by lia.
      split_and!; [apply Hcutpage|..]; (done || lia).
    + destruct (IH (S i) Hpos) as (m & Hrun & Hbounds & Hcut).
      { intros k Hk. apply Hmore. lia. }
      { replace (S i + d + 1)%nat with (i + S d + 1)%nat by lia. lia. }
      exists m. split_and!; [|lia..].
      apply collects_scripted_whole.
      * unfold reached. simpl. apply andb_false_iff. right.
        apply Z.leb_gt. rewrite length_all_rows. lia.
      * by rewrite Hmore by lia.
Qed.
End Scripted.

Lemma demo_pages_invariant k : page_invariant (demo_pages k).
Proof. destruct k; (split; [done|]); repeat constructor. Qed.

(** The second half of the invariant is needed: a row shorter than the
    column list stops the generator with [IndexError] before the page emits
    anything. *)
Example fetch_all_pages_short_row :
  exhaust
    (scripted (λ _, {| data := [[JNum 1]]; columns := ["patient_id"; "age"];
                       row_count := 1; total_rows := 1; has_more := false;
                       data_type := "sample" |}))
    3 (fetch_all_pages "demo-dataset-001" "jwt" None 1000 0) [] []
  = Some (Raise (IndexError "list index out of range"), [(0, 1000)]).
Proof. reflexivity. Qed.

(** C1.  For every page sequence whose pages satisfy the Page Response
    invariant and in which some page reports [has_more = false], the
    generator of [fetch_all_pages], consumed to its end, terminates normally
    (for every large enough fuel), having fetched the first [m] pages, the
    last of which reports [has_more = false], each at the starting offset
    advanced by the [row_count] of the pages before; and the number of row
    records it emitted is the sum of [row_count] over these pages. *)
Theorem fetch_all_pages_emits_row_count_sum
    (pages : nat → page) (dataset_id token : string)
    (columns : option (list string)) (page_size start_offset : Z) :
  (∀ k, page_invariant (pages k)) →
  (∃ n, has_more (pages n) = false) →
  ∃ fuel0 m rows,
    (∀ fuel, (fuel0 ≤ fuel)%nat →
       exhaust (scripted pages) fuel
         (fetch_all_pages dataset_id token columns page_size start_offset) [] []
       = Some (Ok rows, requests_upto pages start_offset page_size m)) ∧
    Z.of_nat (length rows) = sum_row_count (fetched pages m) ∧
    rows = all_rows pages m ∧
    has_more (pages (m - 1)%nat) = false.
Proof.
  intros Hinv [n Hn].
  set (g := fetch_all_pages dataset_id token columns page_size start_offset).
  destruct (collects_scripted_all pages Hinv start_offset g None n 0)
    as (m & [fuel0 Hrun] & _ & Hstop); [done..|].
  exists fuel0, m, (all_rows pages m).
  split_and!; [|by apply length_all_rows|done|done].
  intros fuel Hfuel. rewrite <- (collect_falsy _ None) by done.
  specialize (Hrun fuel Hfuel).
  by rewrite Z.add_0_r in Hrun.
Qed.

Lemma fetch_all_pages_emits_row_count_sum_witness :
  ∃ fuel0 m rows,
    (∀ fuel, (fuel0 ≤ fuel)%nat →
       exhaust (scripted demo_pages) fuel
         (fetch_all_pages "demo-dataset-001" "jwt" None 1000 0) [] []
       = Some (Ok rows, requests_upto demo_pages 0 1000 m)) ∧
    Z.of_nat (length rows) = sum_row_count (fetched demo_pages m) ∧
    rows = all_rows demo_pages m ∧
    has_more (demo_pages (m - 1)%nat) = false.
Proof.
  apply (fetch_all_pages_emits_row_count_sum demo_pages).
  - exact demo_pages_invariant.
  - exists 1%nat. reflexivity.
Defined.





(** Rows that [Dataset.from_list] refuses: a page within the Page Response
    invariant whose one column holds an integer and a string is fetched as
    any other, and the library's exception is what the eager load raises,
    with a limit the rows stay under as without one. *)
Example load_dataset_from_api_refused_rows :
  page_invariant mixed_page ∧
  load_dataset_from_api (scripted (λ _, mixed_page)) arrow_verdict default_config
    10 "demo-dataset-001" "jwt" None false None 0 []
  = Some (Raise (ForeignError "ArrowInvalid" "Could not convert a value of another type"),
          [(0, 1000)]) ∧
  load_dataset_from_api (scripted (λ _, mixed_page)) arrow_verdict default_config
    10 "demo-dataset-001" "jwt" None false (Some 5) 0 []
  = Some (Raise (ForeignError "ArrowInvalid" "Could not convert a value of another type"),
          [(0, 5)]).
Proof. split; [|split; reflexivity]. split; [done|]. repeat constructor. Qed.

(** ** policy.py and api.py *)

Section ExportFacts.
Context {dataframe : Type}.

Lemma call_class (m : writer) path fs :
  raised (call m path fs).1 = None ∨
  raised (call m path fs).1 = Some Unclassified.
Proof. unfold call. destruct (m path fs) as [[|cls msg] fs']; auto. Qed.

(** Nothing after the policy check raises [PolicyViolationError]. *)
Lemma export_paths_class (pd : outcome (pandas dataframe))
    (data : exportable dataframe) format path fs :
  raised (export_paths pd data format path fs).1 = None ∨
  raised (export_paths pd data format path fs).1 = Some Unclassified.
Proof.
  unfold export_paths.
  repeat (match goal with
          | |- context [match native ?m ?f ?n with _ => _ end] =>
              destruct (native m f n)
          end; [apply call_class|]).
  unfold export_fallback.
  destruct pd as [pd|]; simpl; [|by right].
  destruct (to_pandas data) as [[df|]|]; simpl; [| by right |].
  2: destruct (iterate data) as [rows|]; simpl; [|by right].
  2: destruct (DataFrame pd rows) as [df|]; simpl; [|by right].
  all: repeat (destruct (String.eqb _ _); [apply call_class|]).
  all: by right.
Qed.
End ExportFacts.

(** C3.  When the row count the object reports exceeds
    [MAX_LOCAL_EXPORT_ROWS], [export_data] raises [PolicyViolationError]
    and hands the file system back as it received it, whatever the format,
    the path, the object's own exporters and pandas would have done. *)
Theorem export_data_over_ceiling_raises
    (dataframe : Type) (cfg : config) (pd : outcome (pandas dataframe))
    (data : exportable dataframe) (format path : string) (fs : filesystem)
    (rows : Z) :
  num_rows data = Some rows →
  MAX_LOCAL_EXPORT_ROWS cfg < rows →
  ∃ msg,
    export_data cfg pd data format path fs
    = (Raise (PolicyViolationError msg), fs).
Proof.
  intros Hrows Hover. unfold export_data, enforce_export_policy.
  rewrite Hrows. apply Z.ltb_lt in Hover. rewrite Hover. by eexists.
Qed.

Lemma export_data_over_ceiling_raises_witness :
  num_rows demo_dataset = Some 3 ∧
  MAX_LOCAL_EXPORT_ROWS demo_config < 3 ∧
  ∃ msg,
    export_data demo_config (Returned demo_pandas) demo_dataset
      "csv" "/tmp/output.csv" ∅
    = (Raise (PolicyViolationError msg), ∅).
Proof.
  split; [reflexivity|]. split; [reflexivity|].
  apply (export_data_over_ceiling_raises _ demo_config (Returned demo_pandas)
           demo_dataset "csv" "/tmp/output.csv" ∅ 3); reflexivity.
Defined.

(** C9.  For an object without [num_rows] the ceiling is not checked: the
    policy call returns, [export_data] is exactly the export that follows
    it, and no [PolicyViolationError] comes out, whatever the object
    iterates to. *)
Theorem export_data_unknown_rows_unchecked
    (dataframe : Type) (cfg : config) (pd : outcome (pandas dataframe))
    (data : exportable dataframe) (format path : string) (fs : filesystem) :
  num_rows data = None →
  enforce_export_policy cfg (num_rows data) = Ok tt ∧
  export_data cfg pd data format path fs
    = export_paths pd data format path fs ∧
  raised (export_data cfg pd data format path fs).1
    ≠ Some PolicyViolation.
Proof.
  intros Hrows. unfold export_data. rewrite Hrows. simpl.
  split_and!; [done..|].
  by destruct (export_paths_class pd data format path fs) as [-> | ->].
Qed.

Lemma export_data_unknown_rows_unchecked_witness :
  num_rows demo_iterable = None ∧
  Z.of_nat (length (all_rows demo_pages 2)) > MAX_LOCAL_EXPORT_ROWS demo_config ∧
  export_data demo_config (Returned demo_pandas) demo_iterable
    "csv" "/tmp/output.csv" ∅
  = (Ok tt, {["/tmp/output.csv" := [Byte.x0a; Byte.x0a; Byte.x0a]]}) ∧
  raised (export_data demo_config (Returned demo_pandas) demo_iterable
            "csv" "/tmp/output.csv" ∅).1 ≠ Some PolicyViolation.
Proof.
  split; [reflexivity|]. split; [reflexivity|].
  destruct (export_data_unknown_rows_unchecked _ demo_config
              (Returned demo_pandas) demo_iterable "csv" "/tmp/output.csv" ∅)
    as (_ & Heq & Hclass); [reflexivity|].
  split; [|exact Hclass].
  rewrite Heq. reflexivity.
Defined.

(** ** metadata.py *)

Lemma send_trace ev w : trace (send ev w) = trace w ++ [ev].
Proof. done. Qed.

(** Once the endpoint is configured, the outcome of [decrypt_dataset] is
    read off the answer to its request. *)
Lemma decrypt_dataset_by_answer env cfg dataset_id token columns offset limit w :
  DS_DECRYPT_ENDPOINT cfg ≠ "" →
  (decrypt_dataset env cfg dataset_id token columns offset limit w).1 =
  match _request_try
          (decrypt_answer env cfg dataset_id token columns offset limit w) with
  | Ok response => validate required_keys response
  | Raise e => Raise (_request_except e)
  end.
Proof.
  intros Hcfg. unfold decrypt_answer, decrypt_dataset.
  apply String.eqb_neq in Hcfg. rewrite Hcfg.
  destruct (get_attestation_cipher env cfg w) as [runtime_key w1].
  unfold _request. cbv zeta.
  destruct (_request_try (remote env (trace (send _ w1))))
    as [response|e] eqn:Htry; cbn [fst snd]; by rewrite Htry.
Qed.

Lemma validate_object fields : ∀ keys,
  if forallb (λ key, bool_decide (is_Some (dict_get key fields))) keys
  then validate keys (JObj fields) = Ok (JObj fields)
  else raised (validate keys (JObj fields)) = Some RemoteServer.
Proof.
  induction keys as [|key keys IH]; simpl; [done|].
  destruct (bool_decide _); simpl; [apply IH|done].
Qed.

(** C4 (amended).  The error of [decrypt_dataset] is determined by the answer
    to its request: an [HTTPError] with code 401 or 403 gives [AuthError],
    404 [NotFoundError], 429 [RateLimitError], 500..599
    [RemoteServerError]; any other exception out of the transport gives
    [NetworkError]; a 200 answer whose body is not JSON gives [NetworkError]
    too, and a 200 answer that is a JSON object gives [RemoteServerError]
    when a required key is missing and is returned otherwise. *)
Theorem decrypt_dataset_error_mapping
    (env : environment) (cfg : config) (dataset_id token : string)
    (columns : option (list string)) (offset limit : Z) (w : world) :
  DS_DECRYPT_ENDPOINT cfg ≠ "" →
  error_mapping
    (decrypt_answer env cfg dataset_id token columns offset limit w)
    (decrypt_dataset env cfg dataset_id token columns offset limit w).1.
Proof.
  intros Hcfg. rewrite decrypt_dataset_by_answer by done.
  destruct (decrypt_answer _ _ _ _ _ _ _ _) as [status body|e];
    unfold error_mapping, _request_try.
  - intros ->. rewrite Z.eqb_refl. unfold json_loads.
    destruct (parsed body) as [[| | | | |fields]|]; try done.
    apply validate_object.
  - destruct e; try done. unfold _request_except.
    split_and!.
    + intros [-> | ->]; done.
    + intros ->; done.
    + intros ->; done.
    + intros [Hlo Hhi].
      destruct ((code =? 401) || (code =? 403)) eqn:H1; [lia|].
      destruct (code =? 404) eqn:H2; [lia|].
      destruct (code =? 429) eqn:H3; [lia|].
      apply Z.leb_le in Hlo. apply Z.ltb_lt in Hhi. by rewrite Hlo, Hhi.
Qed.

Lemma decrypt_dataset_error_mapping_witness :
  DS_DECRYPT_ENDPOINT default_config ≠ "" ∧
  raised (decrypt_dataset (answering (UrlopenRaised not_found_error))
            default_config "no-such-dataset" "jwt" None 0 1000
            initial_world).1 = Some NotFound.
Proof.
  split; [done|].
  pose proof (decrypt_dataset_error_mapping
                (answering (UrlopenRaised not_found_error))
                default_config "no-such-dataset" "jwt" None 0 1000
                initial_world ltac:(done)) as H.
  apply H. reflexivity.
Defined.

(** C4 as stated fails: a 200 answer whose body is not JSON makes
    [decrypt_dataset] raise [NetworkError], not [RemoteServerError]. *)
Lemma decrypt_dataset_unparseable_body_raises_network :
  decrypt_answer (answering (Responded 200 html_error_page)) default_config
    "demo-dataset-001" "jwt" None 0 1000 initial_world
    = Responded 200 html_error_page ∧
  json_loads html_error_page = Raise (JSONDecodeError "Expecting value") ∧
  (decrypt_dataset (answering (Responded 200 html_error_page)) default_config
     "demo-dataset-001" "jwt" None 0 1000 initial_world).1
    = Raise (NetworkError "Expecting value") ∧
  raised (decrypt_dataset (answering (Responded 200 html_error_page))
            default_config "demo-dataset-001" "jwt" None 0 1000
            initial_world).1 ≠ Some RemoteServer.
Proof. split_and!; [reflexivity..|discriminate]. Qed.

(** The other branches on the same backend: a 503, a refused connection, an
    object without [has_more], and a body that is JSON but no container. *)
Example decrypt_dataset_503 :
  raised (decrypt_dataset
            (answering (UrlopenRaised
               (HTTPError 503 None "HTTP Error 503: Service Unavailable")))
            default_config "demo-dataset-001" "jwt" None 0 1000
            initial_world).1 = Some RemoteServer.
Proof. reflexivity. Qed.

Example decrypt_dataset_connection_refused :
  raised (decrypt_dataset
            (answering (UrlopenRaised
               (ForeignError "URLError" "<urlopen error [Errno 111] Connection refused>")))
            default_config "demo-dataset-001" "jwt" None 0 1000
            initial_world).1 = Some Network.
Proof. reflexivity. Qed.

Example decrypt_dataset_missing_key :
  (decrypt_dataset
     (answering (Responded 200
        {| text := "json";
           parsed := Some (JObj [("data", JArr []); ("columns", JArr []);
                                 ("row_count", JNum 0); ("total_rows", JNum 0);
                                 ("data_type", JStr "sample")]) |}))
     default_config "demo-dataset-001" "jwt" None 0 1000 initial_world).1
  = Raise (RemoteServerError "Invalid response: missing key 'has_more'").
Proof. reflexivity. Qed.

Example decrypt_dataset_null_body :
  (decrypt_dataset
     (answering (Responded 200 {| text := "null"; parsed := Some JNull |}))
     default_config "demo-dataset-001" "jwt" None 0 1000 initial_world).1
  = Raise (TypeError "argument is not iterable").
Proof. reflexivity. Qed.

(** What the request carries: the bearer token, and an empty runtime key on
    a machine without attestor. *)
Example decrypt_dataset_request :
  trace (decrypt_dataset (answering (Responded 200 html_error_page))
           default_config "demo-dataset-001" "jwt" (Some ["age"]) 0 1000
           initial_world).2
  = [SocketExchange "/var/run/delong-attestor/socket" "https://delongapi.internal";
     HttpRequest "POST" "https://delong-datasets.avinasi.org/api/datasets/decrypt"
       [("Authorization", "Bearer jwt"); ("Content-Type", "application/json")]
       (Some (JObj [("dataset_id", JStr "demo-dataset-001");
                    ("runtime_key", JStr ""); ("offset", JNum 0);
                    ("limit", JNum 1000); ("columns", JArr [JStr "age"])]))].
Proof. reflexivity. Qed.

(** ** attestation.py *)

(** What makes the local step fail: the socket exchange raises, the body is
    not JSON, or it is JSON without a usable [token]. *)
Lemma fetch_local_attestation_token_failure env cfg w :
  let sent := trace w ++ [SocketExchange (DS_ATTESTATION_SOCKET cfg)
                            (DS_ATTESTATION_AUDIENCE cfg)] in
  (∀ e, local_attestor env sent = SocketRaised e →
        (fetch_local_attestation_token env cfg w).1 = JNull) ∧
  (∀ body, local_attestor env sent = SocketReplied body →
        parsed body = None →
        (fetch_local_attestation_token env cfg w).1 = JNull) ∧
  (∀ body fields, local_attestor env sent = SocketReplied body →
        parsed body = Some (JObj fields) → dict_get "token" fields = None →
        (fetch_local_attestation_token env cfg w).1 = JNull).
Proof.
  unfold fetch_local_attestation_token. cbv zeta. rewrite send_trace.
  split_and!.
  - intros e H. by rewrite H.
  - intros body H Hp. rewrite H. unfold json_loads. by rewrite Hp.
  - intros body fields H Hp Hg. rewrite H. unfold json_loads. rewrite Hp.
    simpl. by rewrite Hg.
Qed.

(** What makes the remote step fail: no endpoint, an exception, a status
    other than 200, or a body that is not JSON. *)
Lemma request_attestation_cipher_failure env cfg token w :
  let sent := trace w ++ [HttpRequest "POST" (DS_ATTESTATION_ENDPOINT cfg)
                            [("Content-Type", "application/json")]
                            (Some (JObj [("token", token)]))] in
  (DS_ATTESTATION_ENDPOINT cfg = "" →
        request_attestation_cipher env cfg token w = (JNull, w)) ∧
  (∀ e, DS_ATTESTATION_ENDPOINT cfg ≠ "" → remote env sent = UrlopenRaised e →
        (request_attestation_cipher env cfg token w).1 = JNull) ∧
  (∀ status body, DS_ATTESTATION_ENDPOINT cfg ≠ "" →
        remote env sent = Responded status body → status ≠ 200 →
        (request_attestation_cipher env cfg token w).1 = JNull) ∧
  (∀ body, DS_ATTESTATION_ENDPOINT cfg ≠ "" →
        remote env sent = Responded 200 body → parsed body = None →
        (request_attestation_cipher env cfg token w).1 = JNull).
Proof.
  unfold request_attestation_cipher. cbv zeta. rewrite send_trace.
  split_and!.
  - intros ->. done.
  - intros e Hcfg Hr. apply String.eqb_neq in Hcfg. by rewrite Hcfg, Hr.
  - intros status body Hcfg Hr Hs. apply String.eqb_neq in Hcfg.
    apply Z.eqb_neq in Hs. by rewrite Hcfg, Hr, Hs.
  - intros body Hcfg Hr Hp. apply String.eqb_neq in Hcfg.
    rewrite Hcfg, Hr. unfold json_loads. by rewrite Hp.
Qed.

Lemma py_or_empty_not_None v : is_None (py_or v (JStr "")) = false.
Proof. unfold py_or. destruct (truthy v) eqn:H; [by destruct v|done]. Qed.

(** C6.  Starting with nothing cached: when the local token step yields
    nothing usable, [get_attestation_cipher] returns the empty string,
    caches it, and the only thing sent is the socket exchange, so the remote
    endpoint is not contacted; when the token is there and the remote step
    yields nothing usable, it returns the empty string and caches it as
    well.  Return value and cache are the same in both cases. *)
Theorem get_attestation_cipher_failures_empty
    (env : environment) (cfg : config) (w : world) :
  _cached_cipher w = JNull →
  let local := fetch_local_attestation_token env cfg w in
  let verified := request_attestation_cipher env cfg local.1 local.2 in
  let out := get_attestation_cipher env cfg w in
  (truthy local.1 = false →
     out.1 = JStr "" ∧ _cached_cipher out.2 = JStr "" ∧
     trace out.2 = trace w ++ [SocketExchange (DS_ATTESTATION_SOCKET cfg)
                                 (DS_ATTESTATION_AUDIENCE cfg)]) ∧
  (truthy local.1 = true → truthy verified.1 = false →
     out.1 = JStr "" ∧ _cached_cipher out.2 = JStr "").
Proof.
  intros Hcache. cbv zeta. unfold get_attestation_cipher. rewrite Hcache.
  cbn [is_None negb].
  assert (trace (fetch_local_attestation_token env cfg w).2
          = trace w ++ [SocketExchange (DS_ATTESTATION_SOCKET cfg)
                          (DS_ATTESTATION_AUDIENCE cfg)]) as Htrace.
  { unfold fetch_local_attestation_token. cbv zeta.
    destruct (local_attestor env _) as [body|e]; [|done].
    destruct (json_loads body) as [data|]; [|done].
    by destruct (py_get data "token"). }
  destruct (fetch_local_attestation_token env cfg w) as [local_token w1].
  cbn [fst snd] in *. split.
  - intros ->. done.
  - intros ->. cbn [negb].
    destruct (request_attestation_cipher env cfg local_token w1) as [cipher w2].
    cbn [fst snd]. intros Hfalsy. unfold py_or. by rewrite Hfalsy.
Qed.

Lemma get_attestation_cipher_failures_empty_witness :
  _cached_cipher initial_world = JNull ∧
  get_attestation_cipher (answering (Responded 200 html_error_page))
    default_config initial_world
  = (JStr "",
     {| _cached_cipher := JStr "";
        trace := [SocketExchange "/var/run/delong-attestor/socket"
                    "https://delongapi.internal"] |}) ∧
  (get_attestation_cipher (attested (Responded 503 html_error_page))
     default_config initial_world).1 = JStr "".
Proof.
  split; [reflexivity|].
  pose proof (get_attestation_cipher_failures_empty
                (attested (Responded 503 html_error_page))
                default_config initial_world eq_refl) as [_ H].
  split; [reflexivity|]. apply H; reflexivity.
Defined.

(** The path on which everything works, with the cipher under either field
    name. *)
Example get_attestation_cipher_verified :
  get_attestation_cipher
    (attested (Responded 200
       {| text := "json"; parsed := Some (JObj [("cipher", JStr "c1ph3r")]) |}))
    default_config initial_world
  = (JStr "c1ph3r",
     {| _cached_cipher := JStr "c1ph3r";
        trace := [SocketExchange "/var/run/delong-attestor/socket"
                    "https://delongapi.internal";
                  HttpRequest "POST"
                    "http://34.111.110.19/attestation/is_confidential"
                    [("Content-Type", "application/json")]
                    (Some (JObj [("token", JStr "local-token")]))] |}).
Proof. reflexivity. Qed.

Example get_attestation_cipher_legacy_field :
  (get_attestation_cipher
     (attested (Responded 200
        {| text := "json"; parsed := Some (JObj [("token", JStr "c1ph3r")]) |}))
     default_config initial_world).1
  = JStr "c1ph3r".
Proof. reflexivity. Qed.

(** A call never leaves [None] in the cache, and returns what it leaves. *)
Lemma get_attestation_cipher_caches env cfg w :
  is_None (get_attestation_cipher env cfg w).1 = false ∧
  _cached_cipher (get_attestation_cipher env cfg w).2
    = (get_attestation_cipher env cfg w).1.
Proof.
  unfold get_attestation_cipher.
  destruct (is_None (_cached_cipher w)) eqn:Hc; cbn [negb]; [|done].
  destruct (fetch_local_attestation_token env cfg w) as [local_token w1].
  destruct (truthy local_token); cbn [negb]; [|done].
  destruct (request_attestation_cipher env cfg local_token w1) as [cipher w2].
  split; [apply py_or_empty_not_None|done].
Qed.

(** With something cached, a call is a read of the cache. *)
Lemma get_attestation_cipher_hit env cfg w :
  is_None (_cached_cipher w) = false →
  get_attestation_cipher env cfg w = (_cached_cipher w, w).
Proof. intros H. unfold get_attestation_cipher. by rewrite H. Qed.

Lemma get_attestation_cipher_times_hit env cfg n : ∀ w,
  is_None (_cached_cipher w) = false →
  get_attestation_cipher_times env cfg n w = (replicate n (_cached_cipher w), w).
Proof.
  induction n as [|n IH]; intros w H; simpl; [done|].
  by rewrite get_attestation_cipher_hit, IH.
Qed.

(** [decrypt_dataset] goes through the cache and writes nothing else to it. *)
Lemma decrypt_dataset_keeps_cache env cfg dataset_id token columns offset limit w :
  is_None (_cached_cipher w) = false →
  _cached_cipher (decrypt_dataset env cfg dataset_id token columns offset limit w).2
    = _cached_cipher w.
Proof.
  intros H. unfold decrypt_dataset.
  destruct (String.eqb _ _); [done|].
  rewrite get_attestation_cipher_hit by done. unfold _request. cbv zeta.
  by destruct (_request_try _).
Qed.

(** C7.  After any call of [get_attestation_cipher] the value it returned is
    in the cache and is not [None]; every later call, in whatever
    environment and configuration, returns that same value and leaves the
    world as it is (nothing is sent to the socket or to the remote
    endpoint); and [decrypt_dataset], the other operation that reaches the
    cache, leaves the value in place. *)
Theorem get_attestation_cipher_resolved_once
    (env : environment) (cfg : config) (w : world) :
  let out := get_attestation_cipher env cfg w in
  is_None out.1 = false ∧
  _cached_cipher out.2 = out.1 ∧
  (∀ env' cfg' n,
     get_attestation_cipher_times env' cfg' n out.2 = (replicate n out.1, out.2)) ∧
  (∀ env' cfg' dataset_id token columns offset limit,
     _cached_cipher
       (decrypt_dataset env' cfg' dataset_id token columns offset limit out.2).2
     = out.1).
Proof.
  cbv zeta.
  destruct (get_attestation_cipher_caches env cfg w) as [Hset Hret].
  assert (is_None (_cached_cipher (get_attestation_cipher env cfg w).2) = false)
    as Hcached by by rewrite Hret.
  split_and!; [done|done|..].
  - intros env' cfg' n.
    by rewrite get_attestation_cipher_times_hit, Hret.
  - intros env' cfg' dataset_id token columns offset limit.
    by rewrite decrypt_dataset_keeps_cache, Hret.
Qed.

(** ** resumable.py *)

Lemma string_app_empty (s : string) : s +:+ "" = s.
Proof.
  induction s as [|c s IH]; [done|].
  change (String c (s +:+ "") = String c s). by rewrite IH.
Qed.

Lemma part_path_fresh (dest_path : string) : dest_path +:+ ".part" ≠ dest_path.
Proof.
  intros H. rewrite <- (string_app_empty dest_path) in H at 2.
  by apply (inj (String.app dest_path)) in H.
Qed.

(** A [.part] file that has a positive size is there and is not empty. *)
Lemma part_size_pos (fs : filesystem) part_path :
  0 < part_size fs part_path →
  ∃ old, fs !! part_path = Some old ∧ Z.of_nat (length old) = part_size fs part_path.
Proof. unfold part_size. destruct (fs !! part_path) as [old|]; [by exists old|lia]. Qed.

(** The decisions of [resumable_download], from what it finds on disk and what
    the server does. *)
Lemma resumable_download_unfold srv cfg url headers dest_path m :
  let part_path := dest_path +:+ ".part" in
  let existing := part_size (files m) part_path in
  let resume := (0 <? existing) && range_indicated (answer_head srv url headers) in
  let sent := headers_sent resume existing headers in
  let m2 := issue (GET url sent) (issue (HEAD url headers) m) in
  resumable_download srv cfg url headers dest_path m =
  match answer_get srv url sent with
  | GetRaised e => (Raise e, m2)
  | GetResponded status body =>
      let written :=
        (if resume && (status =? 206) then default [] (files m !! part_path) else [])
        ++ concat (chunks body) in
      match broken body with
      | Some e => (Raise e, store (<[part_path := written]> (files m)) m2)
      | None =>
          (Ok dest_path,
           store (<[dest_path := written]>
                    (delete part_path
                       (delete dest_path (<[part_path := written]> (files m))))) m2)
      end
  end.
Proof.
  cbv zeta. unfold resumable_download, _http_head, _http_get. cbv zeta.
  set (existing := part_size (files m) (dest_path +:+ ".part")).
  assert (∀ resume : bool,
    get_headers headers (if (0 <? existing) && resume then Some existing else None)
    = headers_sent ((0 <? existing) && resume) existing headers) as Hsent.
  { intros resume. unfold get_headers, headers_sent.
    destruct (0 <? existing) eqn:Hpos; [|done].
    destruct resume; simpl; [by rewrite Hpos|done]. }
  assert (∀ resume : bool,
    truthy_range (if (0 <? existing) && resume then Some existing else None)
    = (0 <? existing) && resume) as Htruthy.
  { intros resume. destruct (0 <? existing) eqn:Hpos; [|done].
    destruct resume; [|done]. apply Z.ltb_lt in Hpos. simpl.
    apply negb_true_iff, Z.eqb_neq. lia. }
  destruct (answer_head srv url headers) as [hstatus hs|e];
    unfold probe, range_indicated; rewrite Hsent;
    (destruct (answer_get srv url _) as [status body|e']; [|done]);
    rewrite Htruthy, (andb_comm (status =? 206)); done.
Qed.

(** C2.  When the GET is answered with a status and a body: the body is
    written after the bytes already in the [.part] file exactly when the
    download resumed (a non-empty [.part] file was found and the Range header
    was put on the request) and the status is 206; the old bytes then stay
    as they were and the result is [N] bytes longer than what was streamed.
    In every other case, a 200 answer to a ranged request included, the
    result holds the streamed bytes only.  On completion the result is the
    destination file and the [.part] file is gone; when the stream breaks it
    stays in the [.part] file and the destination is untouched. *)
Theorem resumable_download_appends_iff_resumed_206
    (srv : server) (cfg : config) (url : string) (headers : pydict string)
    (dest_path : string) (m : machine) (status : Z) (body : stream) :
  let part_path := dest_path +:+ ".part" in
  let existing := part_size (files m) part_path in
  let resume := (0 <? existing) && range_indicated (answer_head srv url headers) in
  let old := default [] (files m !! part_path) in
  let streamed := concat (chunks body) in
  let out := resumable_download srv cfg url headers dest_path m in
  answer_get srv url (headers_sent resume existing headers)
    = GetResponded status body →
  let written := if resume && (status =? 206) then old ++ streamed else streamed in
  match broken body with
  | None =>
      out.1 = Ok dest_path ∧
      files out.2 !! dest_path = Some written ∧
      files out.2 !! part_path = None
  | Some e =>
      out.1 = Raise e ∧
      files out.2 !! part_path = Some written ∧
      files out.2 !! dest_path = files m !! dest_path
  end ∧
  (resume && (status =? 206) = true →
     files m !! part_path = Some old ∧
     0 < existing ∧
     Z.of_nat (length written) = existing + Z.of_nat (length streamed) ∧
     take (length old) written = old).
Proof.
  cbv zeta. intros Hget.
  pose proof (part_path_fresh dest_path) as Hfresh.
  rewrite resumable_download_unfold. cbv zeta. rewrite Hget.
  set (part_path := dest_path +:+ ".part") in *.
  set (resume := (0 <? part_size (files m) part_path) && _).
  split.
  - destruct (resume && (status =? 206)), (broken body);
      cbn [fst snd files store issue]; simpl app.
    all: split_and!; try done.
    all: by simplify_map_eq.
  - intros Hres. rewrite Hres.
    apply andb_true_iff in Hres as [Hres _].
    apply andb_true_iff in Hres as [Hpos _]. apply Z.ltb_lt in Hpos.
    destruct (part_size_pos _ _ Hpos) as (old & Hold & Hlen).
    rewrite Hold. simpl. split_and!; [done|done|..].
    + rewrite length_app. lia.
    + by rewrite take_app_length.
Qed.

Lemma resumable_download_appends_iff_resumed_206_witness :
  answer_get range_server "https://host/ds.bin"
    (headers_sent true 5 [("Authorization", "Bearer jwt")])
    = GetResponded 206 {| chunks := [drop 5 whole_file]; broken := None |} ∧
  (resumable_download range_server default_config "https://host/ds.bin"
     [("Authorization", "Bearer jwt")] "/tmp/ds.bin" half_done).1
    = Ok "/tmp/ds.bin" ∧
  files (resumable_download range_server default_config "https://host/ds.bin"
           [("Authorization", "Bearer jwt")] "/tmp/ds.bin" half_done).2
    !! "/tmp/ds.bin" = Some whole_file.
Proof.
  split; [reflexivity|].
  pose proof (resumable_download_appends_iff_resumed_206 range_server
                default_config "https://host/ds.bin"
                [("Authorization", "Bearer jwt")] "/tmp/ds.bin" half_done
                206 {| chunks := [drop 5 whole_file]; broken := None |}
                eq_refl) as [(Hok & Hdest & _) _].
  split; [exact Hok|exact Hdest].
Defined.

(** A 200 answer to a ranged request: the five old bytes are discarded. *)
Lemma resumable_download_restart_on_200 :
  requests (resumable_download plain_server default_config "https://host/ds.bin"
              [] "/tmp/ds.bin" half_done).2
    = [HEAD "https://host/ds.bin" [];
       GET "https://host/ds.bin" [("Range", "bytes=5-")]] ∧
  files (resumable_download plain_server default_config "https://host/ds.bin"
           [] "/tmp/ds.bin" half_done).2
    = {["/tmp/ds.bin" := whole_file]}.
Proof. split; reflexivity. Qed.

(** C8 (amended).  [resumable_download] sends a HEAD and then one GET.  The
    GET carries [Range: bytes=<existing>-] exactly when the [.part] file is
    not empty and range support is indicated, and is the plain request
    otherwise; range support is indicated exactly when the HEAD probe
    raised, or its [Accept-Ranges] header, lower-cased, contains "bytes", or
    its status is 200. *)
Theorem resumable_download_range_request
    (srv : server) (cfg : config) (url : string) (headers : pydict string)
    (dest_path : string) (m : machine) :
  let existing := part_size (files m) (dest_path +:+ ".part") in
  let indicated :=
    match answer_head srv url headers with
    | HeadRaised _ => true
    | HeadResponded status hs =>
        contains "bytes" (lower (default "" (lowered hs !! "accept-ranges")))
        || (status =? 200)
    end in
  requests (resumable_download srv cfg url headers dest_path m).2
  = requests m ++
    [HEAD url headers;
     GET url (if (0 <? existing) && indicated
              then dict_set "Range" ("bytes=" +:+ pretty existing +:+ "-") headers
              else headers)].
Proof.
  cbv zeta. rewrite resumable_download_unfold. cbv zeta.
  fold (range_indicated (answer_head srv url headers)).
  fold (headers_sent
          ((0 <? part_size (files m) (dest_path +:+ ".part"))
           && range_indicated (answer_head srv url headers))
          (part_size (files m) (dest_path +:+ ".part")) headers).
  destruct (answer_get srv url _) as [status body|e]; [destruct (broken body)|];
    cbn [snd store issue requests]; by rewrite <- app_assoc.
Qed.

(** C8 as stated fails: a HEAD answered 200 without [Accept-Ranges] neither
    failed nor advertised byte ranges, and the GET still carries a Range
    header. *)
Lemma resumable_download_range_without_accept_ranges :
  answer_head plain_server "https://host/ds.bin" []
    = HeadResponded 200 [("Content-Type", "text/plain")] ∧
  range_indicated_by_header (answer_head plain_server "https://host/ds.bin" [])
    = false ∧
  part_size (files half_done) "/tmp/ds.bin.part" = 5 ∧
  requests (resumable_download plain_server default_config "https://host/ds.bin"
              [] "/tmp/ds.bin" half_done).2
    = [HEAD "https://host/ds.bin" [];
       GET "https://host/ds.bin" [("Range", "bytes=5-")]].
Proof. split_and!; reflexivity. Qed.

(** * Further facts *)

(** ** downloader.py: page conversion *)

Lemma dict_of_row_too_short cols : ∀ i (r : list json) d,
  (i ≤ length r < i + length cols)%nat →
  dict_of_row cols i r d = Raise (IndexError "list index out of range").
Proof.
  induction cols as [|col cols IH]; intros i r d Hlen; simpl in *; [lia|].
  destruct (r !! i) as [v|] eqn:Hv; [|done].
  apply IH. apply lookup_lt_Some in Hv. lia.
Qed.

Lemma dicts_of_rows_cases cols (rows : list (list json)) :
  match dicts_of_rows cols rows with
  | Ok records =>
      Forall (λ r, (length cols ≤ length r)%nat) rows ∧
      length records = length rows
  | Raise e =>
      e = IndexError "list index out of range" ∧
      Exists (λ r, (length r < length cols)%nat) rows
  end.
Proof.
  induction rows as [|r rows IH]; simpl; [by split|].
  destruct (decide (length cols ≤ length r)%nat) as [Hle|Hgt].
  - destruct (dict_of_row_total cols 0 r []) as [d ->]; [lia|].
    destruct (dicts_of_rows cols rows) as [records|e].
    + destruct IH as [Hall Hlen]. split; [by constructor|]. simpl. by rewrite Hlen.
    + destruct IH as [-> Hex]. split; [done|]. by right.
  - rewrite dict_of_row_too_short by (simpl; lia). split; [done|]. left. simpl. lia.
Qed.

(** X1.  [response_to_dict_list] returns exactly when every row has at least
    as many cells as there are columns, and then gives one record per row;
    otherwise, whichever row is short, it raises [IndexError]. *)
Theorem response_to_dict_list_returns_iff_rows_long_enough (response : page) :
  match response_to_dict_list response with
  | Ok records =>
      Forall (λ r, (length (columns response) ≤ length r)%nat) (data response) ∧
      length records = length (data response)
  | Raise e =>
      e = IndexError "list index out of range" ∧
      Exists (λ r, (length r < length (columns response))%nat) (data response)
  end.
Proof. apply dicts_of_rows_cases. Qed.

Lemma dicts_of_rows_zip cols (rows : list (list json)) :
  NoDup cols → Forall (λ r, (length cols ≤ length r)%nat) rows →
  dicts_of_rows cols rows = Ok (zip cols <$> rows).
Proof.
  intros Hnd Hrows. induction Hrows as [|r rows Hr _ IH]; simpl; [done|].
  rewrite (dict_of_row_zip _ 0 r []), IH; [done..|lia].
Qed.

(** X2.  When the column names are distinct and no row is short, each record
    is its row zipped with the columns: keys in column order, the cells
    beyond the last column dropped. *)
Theorem response_to_dict_list_zips_rows (response : page) :
  NoDup (columns response) →
  Forall (λ r, (length (columns response) ≤ length r)%nat) (data response) →
  response_to_dict_list response
  = Ok (zip (columns response) <$> data response).
Proof. apply dicts_of_rows_zip. Qed.

Lemma response_to_dict_list_zips_rows_witness :
  response_to_dict_list
    {| data := [[JNum 1; JNum 34; JStr "extra"]; [JNum 2; JNum 51]];
       columns := ["patient_id"; "age"];
       row_count := 2; total_rows := 2; has_more := false;
       data_type := "sample" |}
  = Ok [[("patient_id", JNum 1); ("age", JNum 34)];
        [("patient_id", JNum 2); ("age", JNum 51)]].
Proof.
  apply (response_to_dict_list_zips_rows
           {| data := [[JNum 1; JNum 34; JStr "extra"]; [JNum 2; JNum 51]];
              columns := ["patient_id"; "age"];
              row_count := 2; total_rows := 2; has_more := false;
              data_type := "sample" |}).
  - simpl. apply NoDup_cons. split; [|apply NoDup_singleton].
    intros H. apply list_elem_of_singleton in H. discriminate.
  - simpl. repeat constructor.
Defined.

(** ** downloader.py: the paging loop, further *)

Section FetchFacts.
Context {World : Type}.
Variable decrypt :
  string → string → option (list string) → Z → Z → World → result page * World.

(** A request that fails ends the loop with its error. *)
Lemma collects_fetch_raises limit g offset w e w' acc :
  decrypt (dataset_id g) (token g) (gen_columns g) offset (page_size g) w
    = (Raise e, w') →
  collects decrypt limit (goto g (AtWhile offset true)) w acc (Raise e, w').
Proof.
  intros Hd. exists 2%nat. intros [|[|fuel]] Hle; try lia.
  rewrite collect_S. cbn [next at_frame goto dataset_id token gen_columns page_size].
  by rewrite Hd.
Qed.
End FetchFacts.

(** X3.  A negative limit is "reached" by the first row: whatever the
    backend, when the first page converts to at least one record the eager
    load stops at that one record, after a single request whose page size is
    the negative limit itself when that is below [DS_DEFAULT_LIMIT], and
    returns what [Dataset.from_list] makes of the one record: the [Dataset]
    of it unless the library refuses it. *)
Theorem load_dataset_from_api_negative_limit
    {World : Type}
    (decrypt : string → string → option (list string) → Z → Z → World
               → result page * World)
    (from_list : list row → outcome unit)
    (cfg : config) (dataset_id token : string) (columns : option (list string))
    (limit offset : Z) (w w' : World) (response : page) (record : row)
    (records : list row) :
  limit < 0 →
  decrypt dataset_id token columns offset
    (if limit <? DS_DEFAULT_LIMIT cfg then limit else DS_DEFAULT_LIMIT cfg) w
    = (Ok response, w') →
  response_to_dict_list response = Ok (record :: records) →
  ∃ fuel0, ∀ fuel, (fuel0 ≤ fuel)%nat →
    load_dataset_from_api decrypt from_list cfg fuel dataset_id token columns
      false (Some limit) offset w
    = Some (Dataset_from_list from_list [record], w').
Proof.
  intros Hneg Hd Hr. unfold load_dataset_from_api.
  assert (truthy_limit (Some limit) = true) as Htruthy
    by (apply negb_true_iff, Z.eqb_neq; lia).
  rewrite Htruthy. cbn [andb default].
  set (g := fetch_all_pages dataset_id token columns _ offset).
  assert (collects decrypt (Some limit) (goto g (AtWhile offset true)) w []
            (Ok ([] ++ [record]), w')) as [fuel0 Hrun].
  { eapply collects_fetch; [exact Hd|exact Hr|].
    apply collects_break. unfold reached. rewrite Htruthy.
    apply Z.leb_le. simpl. lia. }
  exists fuel0. intros fuel Hfuel.
  change g with (goto g (AtWhile offset true)). by rewrite (Hrun fuel Hfuel).
Qed.

Lemma load_dataset_from_api_negative_limit_witness :
  ∃ fuel0, ∀ fuel, (fuel0 ≤ fuel)%nat →
    load_dataset_from_api (scripted demo_pages) arrow_verdict default_config fuel
      "demo-dataset-001" "jwt" None false (Some (-5)) 0 []
    = Some (Ok (Dataset [[("patient_id", JNum 1); ("age", JNum 34)]]), [(0, -5)]).
Proof.
  apply (load_dataset_from_api_negative_limit (scripted demo_pages)
           arrow_verdict default_config "demo-dataset-001" "jwt" None (-5) 0 [] [(0, -5)]
           (demo_page true) [("patient_id", JNum 1); ("age", JNum 34)]
           [[("patient_id", JNum 2); ("age", JNum 51)]]);
    [lia|reflexivity|reflexivity].
Defined.

Section ScriptedFurther.
Variable pages : nat → page.
Hypothesis pages_invariant : ∀ k, page_invariant (pages k).
Variable start : Z.
Variable g : generator.

Local Abbreviation total n := (sum_row_count (fetched pages n)).
Local Abbreviation asked n := (requests_upto pages start (page_size g) n).

(** As long as the limit is not reached the loop takes whole pages, up to
    the first one that reports [has_more = false]. *)
Lemma collects_scripted_unreached limit : ∀ d i,
  (∀ m, (m ≤ i + d + 1)%nat → reached limit (all_rows pages m) = false) →
  has_more (pages (i + d)) = false →
  ∃ m,
    collects (scripted pages) limit (goto g (AtWhile (start + total i) true))
      (asked i) (all_rows pages i) (Ok (all_rows pages m), asked m) ∧
    (i < m ≤ i + d + 1)%nat ∧
    has_more (pages (m - 1)) = false.
Proof.
  induction d as [|d IH]; intros i Hlim Hlast.
  - rewrite Nat.add_0_r in Hlast. exists (S i).
    replace (S i - 1)%nat with i by lia. split_and!; [|lia|lia|done].
    apply collects_scripted_whole; [done|apply Hlim; lia|].
    rewrite Hlast. apply collects_stop.
  - destruct (has_more (pages i)) eqn:Hmore.
    + destruct (IH (S i)) as (m & Hrun & Hbounds & Hstop).
      { intros m Hm. apply Hlim. lia. }
      { by replace (S i + d)%nat with (i + S d)%nat by lia. }
      exists m. split_and!; [|lia|lia|done].
      apply collects_scripted_whole; [done|apply Hlim; lia|].
      by rewrite Hmore.
    + exists (S i). replace (S i - 1)%nat with i by lia.
      split_and!; [|lia|lia|done].
      apply collects_scripted_whole; [done|apply Hlim; lia|].
      rewrite Hmore. apply collects_stop.
Qed.

Lemma next_live fuel : ∀ g' (log : list (Z * Z)),
  (∀ k, has_more (pages k) = true) → live pages g' →
  match next (scripted pages) fuel g' log with
  | None => True
  | Some (Yield _, g'', _) => live pages g''
  | Some _ => False
  end.
Proof.
  induction fuel as [|fuel IH]; intros g' log Hmore Hlive; [done|].
  unfold live in Hlive. simpl.
  destruct (at_frame g') as [offset more|offset response [|r pending]|] eqn:Hf;
    [| | |done].
  - subst more. unfold scripted at 1.
    destruct (response_to_dict_list_invariant _ (pages_invariant (length log)))
      as [-> _].
    apply IH; [done|]. unfold live. simpl. by eexists.
  - destruct Hlive as [k ->]. apply IH; [done|]. unfold live. simpl. apply Hmore.
  - unfold live. simpl. done.
Qed.

Lemma exhaust_live fuel : ∀ g' (log : list (Z * Z)) acc,
  (∀ k, has_more (pages k) = true) → live pages g' →
  exhaust (scripted pages) fuel g' log acc = None.
Proof.
  induction fuel as [|fuel IH]; intros g' log acc Hmore Hlive; [done|]. simpl.
  pose proof (next_live fuel g' log Hmore Hlive) as Hnext.
  destruct (next (scripted pages) fuel g' log) as [[[[r| |e] g''] log']|];
    try done.
  by apply IH.
Qed.
End ScriptedFurther.

(** X4.  Pages that keep reporting [has_more = true] keep the loop going:
    consuming [fetch_all_pages] never comes to an end, whatever the fuel, and
    so neither does the eager load without limit.  Empty pages included:
    nothing in the loop looks at [row_count] to stop. *)
Theorem fetch_all_pages_never_ends_without_last_page
    (pages : nat → page) (from_list : list row → outcome unit) (cfg : config)
    (dataset_id token : string)
    (columns : option (list string)) (page_size offset : Z) (fuel : nat) :
  (∀ k, page_invariant (pages k)) →
  (∀ k, has_more (pages k) = true) →
  exhaust (scripted pages) fuel
    (fetch_all_pages dataset_id token columns page_size offset) [] [] = None ∧
  load_dataset_from_api (scripted pages) from_list cfg fuel dataset_id token
    columns false None offset [] = None.
Proof.
  intros Hinv Hmore. split.
  - by apply exhaust_live.
  - unfold load_dataset_from_api. simpl.
    rewrite collect_falsy by done. by rewrite exhaust_live.
Qed.

Lemma fetch_all_pages_never_ends_without_last_page_witness :
  exhaust (scripted (λ _, demo_page true)) 50
    (fetch_all_pages "demo-dataset-001" "jwt" None 1000 0) [] [] = None ∧
  load_dataset_from_api (scripted (λ _, demo_page true)) arrow_verdict
    default_config 50 "demo-dataset-001" "jwt" None false None 0 [] = None.
Proof.
  apply (fetch_all_pages_never_ends_without_last_page (λ _, demo_page true)).
  - intros _. apply (demo_pages_invariant 0).
  - reflexivity.
Defined.

Section AnswersFacts.
Variable answers : nat → result page.
Variable pages : nat → page.
Hypothesis pages_invariant : ∀ k, page_invariant (pages k).
Variable start : Z.
Variable g : generator.
Variable j : nat.
Variable e : exn.
Hypothesis answered : ∀ k, (k < j)%nat →
  answers k = Ok (pages k) ∧ has_more (pages k) = true.
Hypothesis failed : answers j = Raise e.

Local Abbreviation total n := (sum_row_count (fetched pages n)).
Local Abbreviation asked n := (requests_upto pages start (page_size g) n).

(** The loop takes the pages before the failure whole and ends with the
    error of the request that failed. *)
Lemma collects_answers_failure limit : ∀ d i acc,
  truthy_limit limit = false → (i + d = j)%nat →
  collects (scripted_answers answers) limit
    (goto g (AtWhile (start + total i) true)) (asked i) acc
    (Raise e, asked (S j)).
Proof.
  induction d as [|d IH]; intros i acc Hlim Hij.
  - assert (i = j) as -> by lia. apply collects_fetch_raises.
    unfold scripted_answers.
    by rewrite length_requests_upto, failed, requests_upto_S.
  - destruct (answered i) as [Hi Hmore]; [lia|].
    destruct (response_to_dict_list_invariant _ (pages_invariant i)) as [Hrows _].
    eapply collects_fetch.
    { unfold scripted_answers. rewrite length_requests_upto, Hi.
      by rewrite <- requests_upto_S. }
    { exact Hrows. }
    apply collects_whole_page; [unfold reached; by rewrite Hlim|].
    rewrite Hmore, <- Z.add_assoc, <- sum_row_count_S.
    apply IH; [done|lia].
Qed.
End AnswersFacts.

(** X5.  A page request that fails is not repeated: with no limit, when the
    request for page [j] raises [e] after [j] good pages, [download_dataset]
    raises [e], the rows already fetched are not returned, and the backend
    has seen exactly [j + 1] requests, whatever [max_retries] and
    [timeout_sec] the options carry. *)
Theorem download_dataset_propagates_failure
    (answers : nat → result page) (pages : nat → page) (j : nat) (e : exn)
    (from_list : list row → outcome unit)
    (cfg : config) (dataset_id token : string) (options : DownloadOptions) :
  opt_stream options = false →
  opt_limit options = None →
  (∀ k, page_invariant (pages k)) →
  (∀ k, (k < j)%nat → answers k = Ok (pages k) ∧ has_more (pages k) = true) →
  answers j = Raise e →
  ∃ fuel0, ∀ fuel, (fuel0 ≤ fuel)%nat →
    download_dataset (scripted_answers answers) from_list cfg fuel dataset_id
      token (Some options) []
    = Some (Raise e,
            requests_upto pages (opt_offset options) (DS_DEFAULT_LIMIT cfg) (S j)).
Proof.
  intros Hstream Hlimit Hinv Hok Hfail.
  unfold download_dataset, load_dataset_from_api.
  change (default (default_options cfg) (Some options)) with options.
  cbv zeta. rewrite Hstream, Hlimit. cbn [truthy_limit andb].
  set (gen := fetch_all_pages dataset_id token (opt_columns options)
                (DS_DEFAULT_LIMIT cfg) (opt_offset options)).
  destruct (collects_answers_failure answers pages Hinv (opt_offset options)
              gen j e Hok Hfail None j 0 [] eq_refl eq_refl) as [fuel0 Hrun].
  exists fuel0. intros fuel Hfuel. specialize (Hrun fuel Hfuel).
  change (fetched pages 0) with (@nil page) in Hrun.
  change (sum_row_count []) with 0 in Hrun. rewrite Z.add_0_r in Hrun.
  change (requests_upto pages (opt_offset options) (page_size gen) 0)
    with (@nil (Z * Z)) in Hrun.
  change gen with (goto gen (AtWhile (opt_offset options) true)).
  by rewrite Hrun.
Qed.

Lemma download_dataset_propagates_failure_witness :
  ∃ fuel0, ∀ fuel, (fuel0 ≤ fuel)%nat →
    download_dataset
      (scripted_answers
         (λ k, match k with
               | O => Ok (demo_page true)
               | S _ => Raise (RateLimitError "slow down")
               end))
      arrow_verdict default_config fuel "demo-dataset-001" "jwt"
      (Some {| opt_stream := false; timeout_sec := 30; max_retries := 3;
               opt_columns := None; opt_limit := None; opt_offset := 0 |}) []
    = Some (Raise (RateLimitError "slow down"),
            requests_upto (λ _, demo_page true) 0 (DS_DEFAULT_LIMIT default_config) 2).
Proof.
  apply (download_dataset_propagates_failure _ (λ _, demo_page true) 1).
  - reflexivity.
  - reflexivity.
  - intros _. apply (demo_pages_invariant 0).
  - intros k Hk. assert (k = 0%nat) as -> by lia. split; reflexivity.
  - reflexivity.
Defined.

Lemma all_rows_saturated pages m n :
  (m ≤ n)%nat → (length (all_rows pages n) ≤ length (all_rows pages m))%nat →
  all_rows pages m = all_rows pages n.
Proof.
  intros Hle Hlen. destruct (all_rows_prefix pages m n Hle) as [rest Hrest].
  rewrite Hrest, length_app in Hlen.
  assert (rest = []) as -> by (destruct rest; [done|simpl in Hlen; lia]).
  by rewrite Hrest, app_nil_r.
Qed.

(** X6.  A limit at or above the rows the page sequence holds cuts nothing
    off: when pages [0..n] are the whole sequence (the first to report
    [has_more = false] is page [n]) and [limit] is not below their row total,
    the eager load hands every row to [Dataset.from_list], in at most [n + 1]
    requests, and returns what that makes of them: the [Dataset] of all the
    rows unless the library refuses them. *)
Theorem load_dataset_from_api_limit_covers_everything
    (pages : nat → page) (from_list : list row → outcome unit) (n : nat)
    (cfg : config) (dataset_id token : string)
    (columns : option (list string)) (limit offset : Z) :
  (∀ k, page_invariant (pages k)) →
  (∀ k, (k < n)%nat → has_more (pages k) = true) →
  has_more (pages n) = false →
  sum_row_count (fetched pages (S n)) ≤ limit →
  ∃ fuel0 m,
    (m ≤ S n)%nat ∧
    ∀ fuel, (fuel0 ≤ fuel)%nat →
      load_dataset_from_api (scripted pages) from_list cfg fuel dataset_id token
        columns false (Some limit) offset []
      = Some (Dataset_from_list from_list (all_rows pages (S n)),
              requests_upto pages offset
                (if negb (limit =? 0) && (limit <? DS_DEFAULT_LIMIT cfg)
                 then limit else DS_DEFAULT_LIMIT cfg) m).
Proof.
  intros Hinv Hmore Hlast Hcover.
  set (size := if negb (limit =? 0) && (limit <? DS_DEFAULT_LIMIT cfg)
               then limit else DS_DEFAULT_LIMIT cfg).
  set (g := fetch_all_pages dataset_id token columns size offset).
  pose proof (length_all_rows pages Hinv) as Hlen.
  assert (∃ m, (m ≤ S n)%nat ∧
            collects (scripted pages) (Some limit)
              (goto g (AtWhile (offset + sum_row_count (fetched pages 0)) true))
              (requests_upto pages offset (page_size g) 0) (all_rows pages 0)
              (Ok (all_rows pages (S n)), requests_upto pages offset (page_size g) m))
    as (m & Hm & [fuel0 Hrun]).
  { destruct (decide (limit ≤ sum_row_count (fetched pages (S n)))) as [Heq|Hgt].
    - destruct (decide (limit = 0)) as [->|Hnz].
      + destruct (collects_scripted_all pages Hinv offset g (Some 0) n 0)
          as (m & Hrun & Hb & Hstop); [done..|].
        assert (m = S n) as ->; [|by exists (S n)].
        destruct (decide (m = S n)) as [|Hne]; [done|].
        rewrite (Hmore (m - 1)%nat) in Hstop by lia. done.
      + assert (0 < limit).
        { pose proof (Hlen (S n)). change (fetched pages 0) with (@nil page) in *.
          lia. }
        destruct (collects_scripted_limit pages Hinv offset g limit n 0)
          as (m & Hrun & Hb & Hcut); [done|..].
        { intros k Hk. apply Hmore. lia. }
        { change (sum_row_count (fetched pages 0)) with 0.
          replace (0 + n + 1)%nat with (S n) by lia. lia. }
        exists m. split; [lia|].
        assert (all_rows pages m = all_rows pages (S n)) as Hall.
        { apply all_rows_saturated; [lia|].
          pose proof (Hlen m). pose proof (Hlen (S n)). lia. }
        rewrite take_ge in Hrun; [by rewrite <- Hall|].
        rewrite Hall. pose proof (Hlen (S n)). lia.
    - destruct (collects_scripted_unreached pages Hinv offset g (Some limit) n 0)
        as (m & Hrun & Hb & Hstop); [|done|].
      { intros m Hm.
        destruct (all_rows_prefix pages m (S n)) as [rest Hrest]; [lia|].
        assert (Z.of_nat (length (all_rows pages m))
                ≤ sum_row_count (fetched pages (S n)))
          by (rewrite <- (Hlen (S n)), Hrest, length_app; lia).
        unfold reached. apply andb_false_iff. right.
        apply Z.leb_gt. simpl. lia. }
      assert (m = S n) as ->; [|by exists (S n)].
      destruct (decide (m = S n)) as [|Hne]; [done|].
      rewrite (Hmore (m - 1)%nat) in Hstop by lia. done. }
  exists fuel0, m. split; [done|]. intros fuel Hfuel.
  specialize (Hrun fuel Hfuel).
  change (fetched pages 0) with (@nil page) in Hrun.
  change (sum_row_count []) with 0 in Hrun. rewrite Z.add_0_r in Hrun.
  change (requests_upto pages offset (page_size g) 0) with (@nil (Z * Z)) in Hrun.
  change (all_rows pages 0) with (@nil row) in Hrun.
  unfold load_dataset_from_api.
  change (truthy_limit (Some limit)) with (negb (limit =? 0)).
  change (default 0 (Some limit)) with limit. cbv zeta. fold size. fold g.
  change g with (goto g (AtWhile offset true)). by rewrite Hrun.
Qed.

Lemma load_dataset_from_api_limit_covers_everything_witness :
  ∃ fuel0 m,
    (m ≤ 2)%nat ∧
    ∀ fuel, (fuel0 ≤ fuel)%nat →
      load_dataset_from_api (scripted demo_pages) arrow_verdict default_config
        fuel "demo-dataset-001" "jwt" None false (Some 3) 0 []
      = Some (Ok (Dataset (all_rows demo_pages 2)),
              requests_upto demo_pages 0
                (if negb (3 =? 0) && (3 <? DS_DEFAULT_LIMIT default_config)
                 then 3 else DS_DEFAULT_LIMIT default_config) m).
Proof.
  apply (load_dataset_from_api_limit_covers_everything demo_pages arrow_verdict 1).
  - exact demo_pages_invariant.
  - intros k Hk. assert (k = 0%nat) as -> by lia. reflexivity.
  - reflexivity.
  - vm_compute. discriminate.
Defined.

(** X7.  Streaming mode is lazy and ignores [limit]: the call returns at
    once, no request made, whatever the limit; and on a page sequence that
    ends with page [n], consuming the generator it returns gives every row
    of pages [0..n], asked for [DS_DEFAULT_LIMIT] at a time, also when
    [limit] is below that row total or below [DS_DEFAULT_LIMIT]. *)
Theorem load_dataset_from_api_streaming_is_lazy
    (pages : nat → page) (from_list : list row → outcome unit) (n : nat)
    (cfg : config) (dataset_id token : string)
    (columns : option (list string)) (limit : option Z) (offset : Z) :
  (∀ k, page_invariant (pages k)) →
  (∀ k, (k < n)%nat → has_more (pages k) = true) →
  has_more (pages n) = false →
  ∃ gen fuel0,
    (∀ fuel,
       load_dataset_from_api (scripted pages) from_list cfg fuel dataset_id token
         columns true limit offset []
       = Some (Ok (IterableDataset gen), [])) ∧
    (∀ fuel, (fuel0 ≤ fuel)%nat →
       exhaust (scripted pages) fuel gen [] []
       = Some (Ok (all_rows pages (S n)),
               requests_upto pages offset (DS_DEFAULT_LIMIT cfg) (S n))).
Proof.
  intros Hinv Hmore Hlast.
  set (g := fetch_all_pages dataset_id token columns (DS_DEFAULT_LIMIT cfg) offset).
  destruct (collects_scripted_all pages Hinv offset g None n 0)
    as (m & [fuel0 Hrun] & Hm & Hstop); [done..|].
  assert (m = S n) as ->.
  { destruct (decide (m = S n)) as [|Hne]; [done|].
    rewrite (Hmore (m - 1)%nat) in Hstop by lia. done. }
  exists g, fuel0. split; [done|].
  intros fuel Hfuel. specialize (Hrun fuel Hfuel).
  change (fetched pages 0) with (@nil page) in Hrun.
  change (sum_row_count []) with 0 in Hrun. rewrite Z.add_0_r in Hrun.
  change (requests_upto pages offset (page_size g) 0) with (@nil (Z * Z)) in Hrun.
  change (all_rows pages 0) with (@nil row) in Hrun.
  change (goto g (AtWhile offset true)) with g in Hrun.
  by rewrite collect_falsy in Hrun.
Qed.

Lemma load_dataset_from_api_streaming_is_lazy_witness :
  ∃ gen fuel0,
    (∀ fuel,
       load_dataset_from_api (scripted demo_pages) arrow_verdict default_config
         fuel "demo-dataset-001" "jwt" None true (Some 1) 0 []
       = Some (Ok (IterableDataset gen), [])) ∧
    (∀ fuel, (fuel0 ≤ fuel)%nat →
       exhaust (scripted demo_pages) fuel gen [] []
       = Some (Ok (all_rows demo_pages 2),
               requests_upto demo_pages 0 (DS_DEFAULT_LIMIT default_config) 2)).
Proof.
  apply (load_dataset_from_api_streaming_is_lazy demo_pages arrow_verdict 1).
  - exact demo_pages_invariant.
  - intros k Hk. assert (k = 0%nat) as -> by lia. reflexivity.
  - reflexivity.
Defined.

(** ** scripts/mock_auth_server.py *)

Lemma bearer_header_parts (token : string) :
  String.eqb ("Bearer " +:+ token) "" = false ∧
  String.prefix "bearer " (lower ("Bearer " +:+ token)) = true ∧
  after_first " " ("Bearer " +:+ token) = Some token.
Proof.
  change ("Bearer " +:+ token)
    with (String "B" (String "e" (String "a" (String "r" (String "e"
            (String "r" (String " " token))))))).
  split_and!; [reflexivity| |reflexivity].
  assert (∀ s, String.prefix "" s = true) as Hnil by (by intros []).
  cbn [lower]. change (lower_ascii "B") with ("b"%char).
  change (lower_ascii "e") with ("e"%char).
  change (lower_ascii "a") with ("a"%char).
  change (lower_ascii "r") with ("r"%char).
  change (lower_ascii " ") with (" "%char).
  simpl. by rewrite ?Hnil.
Qed.

(** X8.  The header the client builds passes the mock backend's bearer
    check exactly when its token is the required one, for any token, spaces
    inside included: [_require_bearer] gives back the token that
    [decrypt_dataset] and [build_storage_options] put behind "Bearer ". *)
Theorem client_bearer_header_round_trip (REQUIRED_TOKEN token : string) :
  MockServer._require_bearer REQUIRED_TOKEN (Some ("Bearer " +:+ token))
  = (if String.eqb token REQUIRED_TOKEN then Reply token
     else HTTPException 401 "Invalid or expired token") ∧
  (token ≠ "" →
   build_storage_options token
   = [("headers", [("Authorization", "Bearer " +:+ token)])]).
Proof.
  destruct (bearer_header_parts token) as (Hne & Hpre & Haft). split.
  - unfold MockServer._require_bearer. rewrite Hne, Hpre, Haft. simpl.
    by destruct (String.eqb token REQUIRED_TOKEN).
  - intros Htok. unfold build_storage_options.
    apply String.eqb_neq in Htok. by rewrite Htok.
Qed.

Lemma client_bearer_header_round_trip_witness :
  MockServer._require_bearer "demo-token" (Some ("Bearer " +:+ "demo-token"))
  = Reply "demo-token" ∧
  build_storage_options "demo-token"
  = [("headers", [("Authorization", "Bearer demo-token")])].
Proof.
  destruct (client_bearer_header_round_trip "demo-token" "demo-token") as [H1 H2].
  split; [exact H1|]. apply H2. discriminate.
Defined.

Lemma index_of_lt col : ∀ cols i,
  index_of col cols = Some i → (i < length cols)%nat.
Proof.
  induction cols as [|c cols IH]; intros i; simpl; [done|].
  destruct (String.eqb c col).
  - intros [= <-]. lia.
  - destruct (index_of col cols) as [i'|]; [|done].
    intros [= <-]. specialize (IH i' eq_refl). lia.
Qed.

Lemma column_indices_inr all_columns : ∀ wanted indices,
  MockServer.column_indices all_columns wanted = inr indices →
  length indices = length wanted ∧
  Forall (λ i, (i < length all_columns)%nat) indices.
Proof.
  induction wanted as [|col wanted IH]; intros indices; simpl.
  - intros [= <-]. by split.
  - destruct (index_of col all_columns) as [i|] eqn:Hi; [|done].
    destruct (MockServer.column_indices all_columns wanted) as [|rest]; [done|].
    intros [= <-]. destruct (IH rest eq_refl) as [Hlen Hall].
    split; [simpl; by rewrite Hlen|]. constructor; [by eapply index_of_lt|done].
Qed.

Lemma column_indices_inl all_columns : ∀ wanted missing,
  MockServer.column_indices all_columns wanted = inl missing →
  missing ∈ wanted ∧ index_of missing all_columns = None.
Proof.
  induction wanted as [|col wanted IH]; intros missing; simpl; [done|].
  destruct (index_of col all_columns) as [i|] eqn:Hi.
  - destruct (MockServer.column_indices all_columns wanted) as [m|]; [|done].
    intros [= <-]. destruct (IH m eq_refl). split; [by right|done].
  - intros [= <-]. split; [by left|done].
Qed.

Lemma pick_Some (r : list json) : ∀ indices,
  Forall (λ i, (i < length r)%nat) indices →
  ∃ vs, MockServer.pick r indices = Some vs ∧ length vs = length indices.
Proof.
  induction 1 as [|i indices Hi _ (vs & Hvs & Hlen)]; simpl; [by exists []|].
  destruct (lookup_lt_is_Some_2 r i Hi) as [v ->]. rewrite Hvs.
  exists (v :: vs). simpl. by rewrite Hlen.
Qed.

Lemma pick_all_Some (rows : list (list json)) indices n :
  Forall (λ r, length r = n) rows →
  Forall (λ i, (i < n)%nat) indices →
  ∃ picked, MockServer.pick_all rows indices = Some picked ∧
            Forall (λ r, length r = length indices) picked.
Proof.
  intros Hrows Hidx. induction Hrows as [|r rows Hr _ (picked & Hp & Hall)]; simpl.
  - by exists [].
  - destruct (pick_Some r indices) as (vs & -> & Hlen); [by rewrite Hr|].
    rewrite Hp. exists (vs :: picked). split; [done|]. by constructor.
Qed.

Lemma py_slice_Forall {A} (P : A → Prop) (l : list A) start stop :
  Forall P l → Forall P (py_slice l start stop).
Proof. intros H. unfold py_slice. by apply Forall_take, Forall_drop. Qed.

Lemma column_indices_found all_columns : ∀ wanted indices,
  MockServer.column_indices all_columns wanted = inr indices →
  Forall (λ col, is_Some (index_of col all_columns)) wanted.
Proof.
  induction wanted as [|col wanted IH]; intros indices; simpl; [done|].
  destruct (index_of col all_columns) as [i|] eqn:Hi; [|done].
  destruct (MockServer.column_indices all_columns wanted) as [|rest]; [done|].
  intros _. constructor; [by rewrite Hi|by eapply IH].
Qed.

(** A well-formed table stays well formed through the column filter, which
    answers with a table when every column asked for is there and with 400
    when one is not, never with an unhandled error. *)
Lemma filtered_cases (dataset : table) (columns : option (list string)) :
  table_wf dataset →
  match MockServer.filtered dataset columns with
  | Reply t =>
      table_wf t ∧
      Forall (λ col, is_Some (index_of col (table_columns dataset)))
        (default [] columns)
  | HTTPException status _ =>
      status = 400 ∧
      ∃ col, col ∈ default [] columns ∧ index_of col (table_columns dataset) = None
  | Unhandled _ => False
  end.
Proof.
  intros Hwf. unfold MockServer.filtered.
  destruct columns as [[|c cs]|]; [by split| |by split].
  destruct (MockServer.column_indices _ _) as [missing|indices] eqn:Hci.
  - split; [done|]. exists missing. by apply column_indices_inl.
  - pose proof (column_indices_found _ _ _ Hci) as Hfound.
    apply column_indices_inr in Hci as [Hlen Hidx].
    destruct (pick_all_Some (table_data dataset) indices _ Hwf Hidx)
      as (picked & -> & Hall).
    split; [|done].
    unfold table_wf. simpl table_columns. simpl table_data.
    by rewrite <- Hlen.
Qed.

(** X9.  With well-formed tables the mock handler answers in one of three
    ways only: 404 when the dataset is not stored (whether or not a cipher
    came with the request), 400 when the dataset is stored and one of the
    columns asked for is not a column of the chosen table (the stored one
    when the runtime key is not empty, the sample otherwise), and, when the
    dataset is stored and every column asked for is there, a page that
    satisfies the Page Response invariant, marked "real" exactly when the
    runtime key is not empty.  It never fails with an unhandled error,
    whatever the offset and limit. *)
Theorem mock_decrypt_dataset_replies
    (MOCK_DATASETS : pydict table) (SAMPLE_DATA : table)
    (request : DecryptRequest) :
  table_wf SAMPLE_DATA →
  (∀ id stored, dict_get id MOCK_DATASETS = Some stored → table_wf stored) →
  let chosen stored :=
    if String.eqb (req_runtime_key request) "" then SAMPLE_DATA else stored in
  match MockServer.decrypt_dataset MOCK_DATASETS SAMPLE_DATA request with
  | Reply p =>
      page_invariant p ∧
      (∃ stored,
         dict_get (req_dataset_id request) MOCK_DATASETS = Some stored ∧
         Forall (λ col, is_Some (index_of col (table_columns (chosen stored))))
           (default [] (req_columns request))) ∧
      data_type p = (if String.eqb (req_runtime_key request) "" then "sample"
                     else "real")
  | HTTPException status _ =>
      (status = 404 ∧ dict_get (req_dataset_id request) MOCK_DATASETS = None) ∨
      (status = 400 ∧
       ∃ stored col,
         dict_get (req_dataset_id request) MOCK_DATASETS = Some stored ∧
         col ∈ default [] (req_columns request) ∧
         index_of col (table_columns (chosen stored)) = None)
  | Unhandled _ => False
  end.
Proof.
  intros Hsample Hstore chosen. unfold MockServer.decrypt_dataset.
  destruct (dict_get _ MOCK_DATASETS) as [stored|] eqn:Hget; [|by left].
  specialize (Hstore _ _ Hget).
  unfold MockServer._verify_runtime_key.
  assert ((if negb (String.eqb (req_runtime_key request) "")
           then stored else SAMPLE_DATA) = chosen stored) as ->.
  { unfold chosen. by destruct (String.eqb _ _). }
  assert (table_wf (chosen stored)) as Hwf
    by (unfold chosen; by destruct (String.eqb _ _)).
  pose proof (filtered_cases (chosen stored) (req_columns request) Hwf) as Hf.
  destruct (MockServer.filtered (chosen stored) (req_columns request))
    as [t|status d|e]; [|right|done].
  - destruct Hf as [Hwft Hfound].
    split_and!; [|by exists stored|by destruct (String.eqb _ _)].
    split; [done|]. simpl. by apply py_slice_Forall.
  - destruct Hf as (-> & col & Hcol & Hnone). split; [done|].
    by exists stored, col.
Qed.

Lemma mock_decrypt_dataset_replies_witness :
  match MockServer.decrypt_dataset demo_store demo_sample
          {| req_dataset_id := "medical_imaging_2024"; req_runtime_key := "c1ph3r";
             req_columns := Some ["age"]; req_offset := 3; req_limit := 10 |} with
  | Reply p =>
      page_invariant p ∧ data p = [[JNum 58]; [JNum 45]] ∧ data_type p = "real"
  | _ => False
  end.
Proof.
  pose proof (mock_decrypt_dataset_replies demo_store demo_sample
    {| req_dataset_id := "medical_imaging_2024"; req_runtime_key := "c1ph3r";
       req_columns := Some ["age"]; req_offset := 3; req_limit := 10 |}) as H.
  simpl in *. destruct H as (Hinv & _ & _).
  - repeat constructor.
  - intros id stored. destruct (String.eqb id "medical_imaging_2024"); [|done].
    intros [= <-]. repeat constructor.
  - split_and!; [exact Hinv|reflexivity|reflexivity].
Defined.

(** ** The client's paging loop against the mock backend *)

Lemma dicts_of_rows_records cols (rows : list (list json)) :
  Forall (λ r, (length cols ≤ length r)%nat) rows →
  dicts_of_rows cols rows = Ok (record_of cols <$> rows).
Proof.
  induction 1 as [|r rows Hr _ IH]; simpl; [done|]. unfold record_of at 1.
  destruct (dict_of_row_total cols 0 r []) as [d ->]; [lia|]. by rewrite IH.
Qed.

Lemma page_offsets_cons offset page_size n :
  page_offsets offset page_size (S n)
  = (offset, page_size) :: page_offsets (offset + page_size) page_size n.
Proof.
  unfold page_offsets. rewrite <- cons_seq. cbn [fmap list_fmap].
  rewrite Z.mul_0_l, Z.add_0_r. f_equal.
  rewrite <- fmap_S_seq, <- list_fmap_compose.
  apply list_fmap_ext. intros _ k _. simpl. f_equal. lia.
Qed.

(** A page of the handler, for an offset inside the table's range and a
    positive limit. *)
Lemma paginated_window (t : table) data_type offset limit :
  0 ≤ offset → 0 < limit →
  data (MockServer.paginated t data_type offset limit)
    = take (Z.to_nat limit) (drop (Z.to_nat offset) (table_data t)) ∧
  has_more (MockServer.paginated t data_type offset limit)
    = (offset + limit <? Z.of_nat (length (table_data t))).
Proof.
  intros Hoff Hlim. unfold MockServer.paginated. cbn [data has_more].
  set (total := Z.of_nat (length (table_data t))).
  assert (0 ≤ total) by lia. split.
  - unfold py_slice. fold total.
    assert ((offset <? 0) = false) as -> by (apply Z.ltb_ge; lia).
    assert ((Z.min (offset + limit) total <? 0) = false) as ->
      by (apply Z.ltb_ge; lia).
    destruct (decide (total ≤ offset)) as [Hout|Hin].
    + rewrite !drop_ge by lia. by rewrite !take_nil.
    + replace (Z.min offset total) with offset by lia.
      destruct (decide (offset + limit ≤ total)) as [Hfit|Hover].
      * f_equal. lia.
      * rewrite !take_ge; [done|rewrite length_drop; lia..].
  - destruct (decide (offset + limit < total)) as [Hlt|Hge].
    + by replace (Z.min (offset + limit) total) with (offset + limit) by lia.
    + replace (Z.min (offset + limit) total) with total by lia.
      rewrite Z.ltb_irrefl. symmetry. apply Z.ltb_ge. lia.
Qed.

Section MockFetch.
Variable fw : wire.
Variable REQUIRED_TOKEN : string.
Variable MOCK_DATASETS : pydict table.
Variable SAMPLE_DATA : table.
Variable runtime_key : string.
Variable dataset_id : string.
Variable columns : option (list string).
Variable page_size : Z.
Variable stored t : table.

Hypothesis known : dict_get dataset_id MOCK_DATASETS = Some stored.
Hypothesis selected :
  MockServer.filtered
    (if negb (String.eqb runtime_key "") then stored else SAMPLE_DATA) columns
  = Reply t.
Hypothesis long_enough :
  Forall (λ r, (length (table_columns t) ≤ length r)%nat) (table_data t).
Hypothesis positive : 0 < page_size.

Local Abbreviation backend :=
  (served fw REQUIRED_TOKEN MOCK_DATASETS SAMPLE_DATA runtime_key).
Local Abbreviation gen :=
  (fetch_all_pages dataset_id REQUIRED_TOKEN columns page_size 0).
Local Abbreviation total := (Z.of_nat (length (table_data t))).
Local Abbreviation records rows := (record_of (table_columns t) <$> rows).

(** The answer to one request of the loop. *)
Lemma served_page offset (log : list (Z * Z)) :
  backend dataset_id REQUIRED_TOKEN columns offset page_size log
  = (Ok (MockServer.paginated t
           (if negb (String.eqb runtime_key "") then "real" else "sample")
           offset page_size),
     log ++ [(offset, page_size)]).
Proof.
  unfold served, MockServer.post_decrypt.
  destruct (bearer_header_parts REQUIRED_TOKEN) as (Hne & Hpre & Haft).
  unfold MockServer._require_bearer. rewrite Hne, Hpre, Haft. cbn [orb negb].
  rewrite String.eqb_refl. cbn [negb].
  unfold MockServer.decrypt_dataset. cbn [req_dataset_id req_runtime_key
    req_columns req_offset req_limit]. rewrite known.
  unfold MockServer._verify_runtime_key.
  assert (MockServer.filtered
            (if negb (String.eqb runtime_key "") then stored else SAMPLE_DATA)
            match columns with Some (c :: cs) => Some (c :: cs) | _ => None end
          = Reply t) as ->.
  { rewrite <- selected. by destruct columns as [[|c cs]|]. }
  done.
Qed.

Lemma collects_mock_rest : ∀ (d : nat) offset acc (log : list (Z * Z)),
  0 ≤ offset → total - offset ≤ Z.of_nat d →
  ∃ n : nat,
    collects backend None (goto gen (AtWhile offset true)) log acc
      (Ok (acc ++ records (drop (Z.to_nat offset) (table_data t))),
       log ++ page_offsets offset page_size n) ∧
    (1 ≤ n)%nat ∧
    total ≤ offset + Z.of_nat n * page_size ∧
    (n = 1%nat ∨ offset + (Z.of_nat n - 1) * page_size < total).
Proof.
  assert (∀ offset acc (log : list (Z * Z)) out, 0 ≤ offset →
    let p := MockServer.paginated t
               (if negb (String.eqb runtime_key "") then "real" else "sample")
               offset page_size in
    collects backend None
      (goto gen (AtWhile (offset + row_count p) (has_more p)))
      (log ++ [(offset, page_size)])
      (acc ++ records (take (Z.to_nat page_size)
                         (drop (Z.to_nat offset) (table_data t)))) out →
    collects backend None (goto gen (AtWhile offset true)) log acc out)
    as Hstep.
  { intros offset acc log out Hoff p Hout.
    destruct (paginated_window t
      (if negb (String.eqb runtime_key "") then "real" else "sample")
      offset page_size Hoff positive) as [Hdata _]. fold p in Hdata.
    eapply collects_fetch; [apply served_page| |].
    - fold p. apply dicts_of_rows_records. rewrite Hdata.
      by apply Forall_take, Forall_drop.
    - fold p. rewrite Hdata. by apply collects_whole_page. }
  assert (∀ offset acc (log : list (Z * Z)), 0 ≤ offset →
    total ≤ offset + page_size →
    collects backend None (goto gen (AtWhile offset true)) log acc
      (Ok (acc ++ records (drop (Z.to_nat offset) (table_data t))),
       log ++ page_offsets offset page_size 1)) as Hlast.
  { intros offset acc log Hoff Hge. apply Hstep; [done|]. cbv zeta.
    destruct (paginated_window t
      (if negb (String.eqb runtime_key "") then "real" else "sample")
      offset page_size Hoff positive) as [_ ->].
    assert ((offset + page_size <? total) = false) as ->
      by (apply Z.ltb_ge; lia).
    rewrite take_ge by (rewrite length_drop; lia).
    rewrite page_offsets_cons. apply collects_stop. }
  induction d as [|d IH]; intros offset acc log Hoff Hd.
  - exists 1%nat. split_and!; [apply Hlast; [done|lia]|lia|lia|by left].
  - destruct (decide (offset + page_size < total)) as [Hlt|Hge].
    + destruct (IH (offset + page_size)
                  (acc ++ records (take (Z.to_nat page_size)
                                     (drop (Z.to_nat offset) (table_data t))))
                  (log ++ [(offset, page_size)]))
        as (n & Hrun & Hn & Hcov & Hmin); [lia|lia|].
      exists (S n). split_and!; [|lia|lia|right; lia].
      apply Hstep; [done|]. cbv zeta.
      destruct (paginated_window t
        (if negb (String.eqb runtime_key "") then "real" else "sample")
        offset page_size Hoff positive) as [Hdata ->].
      assert ((offset + page_size <? total) = true) as ->
        by (apply Z.ltb_lt; lia).
      assert (row_count (MockServer.paginated t
                (if negb (String.eqb runtime_key "") then "real" else "sample")
                offset page_size) = page_size) as ->.
      { unfold MockServer.paginated at 1. cbn [row_count].
        change (py_slice (table_data t) offset
                  (Z.min (offset + page_size) total))
          with (data (MockServer.paginated t
                  (if negb (String.eqb runtime_key "") then "real" else "sample")
                  offset page_size)).
        rewrite Hdata, length_take, length_drop. lia. }
      rewrite page_offsets_cons.
      replace (acc ++ records (drop (Z.to_nat offset) (table_data t)))
        with ((acc ++ records (take (Z.to_nat page_size)
                                 (drop (Z.to_nat offset) (table_data t))))
              ++ records (drop (Z.to_nat (offset + page_size)) (table_data t))).
      * rewrite <- (app_assoc log) in Hrun. exact Hrun.
      * rewrite <- app_assoc, <- fmap_app. do 2 f_equal.
        etrans; [|apply (take_drop (Z.to_nat page_size))].
        f_equal. rewrite drop_drop. f_equal. lia.
    + exists 1%nat. split_and!; [apply Hlast; [done|lia]|lia|lia|by left].
Qed.
End MockFetch.

(** X10.  The client's paging loop against the mock backend loses and
    repeats nothing: for a stored dataset, a positive page size and a start
    offset that is not negative, consuming [fetch_all_pages] ends normally
    with the records of the rows from the offset on, of the stored table when
    the runtime key is not empty and of the sample table otherwise, after
    the column filter.  The requests are at [offset], [offset + page_size],
    ..., and there are as few as reach the end of the table (one when the
    offset is already past it). *)
Theorem fetch_all_pages_from_mock_backend
    (fw : wire) (REQUIRED_TOKEN : string) (MOCK_DATASETS : pydict table)
    (SAMPLE_DATA : table) (runtime_key dataset_id : string)
    (columns : option (list string)) (page_size offset : Z) (stored t : table) :
  dict_get dataset_id MOCK_DATASETS = Some stored →
  MockServer.filtered
    (if negb (String.eqb runtime_key "") then stored else SAMPLE_DATA) columns
  = Reply t →
  Forall (λ r, (length (table_columns t) ≤ length r)%nat) (table_data t) →
  0 < page_size → 0 ≤ offset →
  ∃ fuel0 n,
    (∀ fuel, (fuel0 ≤ fuel)%nat →
       exhaust (served fw REQUIRED_TOKEN MOCK_DATASETS SAMPLE_DATA runtime_key)
         fuel (fetch_all_pages dataset_id REQUIRED_TOKEN columns page_size offset)
         [] []
       = Some (Ok (record_of (table_columns t)
                     <$> drop (Z.to_nat offset) (table_data t)),
               page_offsets offset page_size n)) ∧
    (1 ≤ n)%nat ∧
    Z.of_nat (length (table_data t)) ≤ offset + Z.of_nat n * page_size ∧
    (n = 1%nat ∨
     offset + (Z.of_nat n - 1) * page_size < Z.of_nat (length (table_data t))).
Proof.
  intros Hknown Hsel Hlong Hpos Hoff.
  destruct (collects_mock_rest fw REQUIRED_TOKEN MOCK_DATASETS SAMPLE_DATA
              runtime_key dataset_id columns page_size stored t Hknown Hsel
              Hlong Hpos (Z.to_nat (Z.of_nat (length (table_data t)) - offset))
              offset [] [] Hoff ltac:(lia))
    as (n & [fuel0 Hrun] & Hn & Hcov & Hmin).
  exists fuel0, n. split_and!; [|done..].
  intros fuel Hfuel. rewrite <- (collect_falsy _ None) by done.
  exact (Hrun fuel Hfuel).
Qed.

Lemma fetch_all_pages_from_mock_backend_witness :
  ∃ fuel0 n,
    (∀ fuel, (fuel0 ≤ fuel)%nat →
       exhaust (served silent_wire "demo-token" demo_store demo_sample "c1ph3r")
         fuel (fetch_all_pages "medical_imaging_2024" "demo-token" None 2 1)
         [] []
       = Some (Ok (record_of (table_columns demo_table)
                     <$> drop (Z.to_nat 1) (table_data demo_table)),
               page_offsets 1 2 n)) ∧
    (1 ≤ n)%nat ∧
    Z.of_nat (length (table_data demo_table)) ≤ 1 + Z.of_nat n * 2 ∧
    (n = 1%nat ∨
     1 + (Z.of_nat n - 1) * 2 < Z.of_nat (length (table_data demo_table))).
Proof.
  apply (fetch_all_pages_from_mock_backend silent_wire "demo-token" demo_store
           demo_sample "c1ph3r" "medical_imaging_2024" None 2 1 demo_table
           demo_table).
  - reflexivity.
  - reflexivity.
  - repeat constructor.
  - lia.
  - lia.
Defined.

(** X11.  What the client makes of the mock backend's refusals: a token
    other than the required one is an [AuthError], a dataset that is not
    stored a [NotFoundError], and a column that the table does not have,
    which the backend answers with 400, a [NetworkError], the client having
    no class of its own for that status. *)
Theorem mock_backend_refusals_at_the_client
    (fw : wire) (REQUIRED_TOKEN : string) (MOCK_DATASETS : pydict table)
    (SAMPLE_DATA : table) (runtime_key dataset_id token : string)
    (columns : option (list string)) (offset limit : Z) (log : list (Z * Z)) :
  let r := (served fw REQUIRED_TOKEN MOCK_DATASETS SAMPLE_DATA runtime_key
              dataset_id token columns offset limit log).1 in
  (token ≠ REQUIRED_TOKEN → raised r = Some Auth) ∧
  (token = REQUIRED_TOKEN → dict_get dataset_id MOCK_DATASETS = None →
   raised r = Some NotFound) ∧
  (token = REQUIRED_TOKEN →
   ∀ stored detail,
     dict_get dataset_id MOCK_DATASETS = Some stored →
     MockServer.filtered
       (if negb (String.eqb runtime_key "") then stored else SAMPLE_DATA) columns
     = HTTPException 400 detail →
     raised r = Some Network).
Proof.
  cbv zeta. unfold served, MockServer.post_decrypt. cbn [fst].
  destruct (bearer_header_parts token) as (Hne & Hpre & Haft).
  unfold MockServer._require_bearer. rewrite Hne, Hpre, Haft. cbn [orb negb].
  split_and!.
  - intros Htok. apply String.eqb_neq in Htok. by rewrite Htok.
  - intros -> Hget. rewrite String.eqb_refl. cbn [negb].
    unfold MockServer.decrypt_dataset. cbn [req_dataset_id]. by rewrite Hget.
  - intros -> stored detail Hget Hf. rewrite String.eqb_refl. cbn [negb].
    unfold MockServer.decrypt_dataset, MockServer._verify_runtime_key.
    cbn [req_dataset_id req_runtime_key req_columns]. rewrite Hget.
    assert (MockServer.filtered
              (if negb (String.eqb runtime_key "") then stored else SAMPLE_DATA)
              match columns with Some (c :: cs) => Some (c :: cs) | _ => None end
            = HTTPException 400 detail) as ->; [|done].
    rewrite <- Hf. by destruct columns as [[|c cs]|].
Qed.

Lemma mock_backend_refusals_at_the_client_witness :
  raised (served silent_wire "demo-token" demo_store demo_sample ""
            "medical_imaging_2024" "demo-token" (Some ["weight"]) 0 1000 []).1
  = Some Network.
Proof.
  pose proof (mock_backend_refusals_at_the_client silent_wire "demo-token"
                demo_store demo_sample "" "medical_imaging_2024" "demo-token"
                (Some ["weight"]) 0 1000 []) as (_ & _ & H).
  apply (H eq_refl demo_table
           "Invalid column name: 'weight' is not in list"); reflexivity.
Defined.

(** ** metadata.py, further *)

(** X12.  [_request] lets nothing through unclassified, and a response
    object never yields anything but its parsed body or [NetworkError]: when
    [urlopen] returns, the result is the JSON of a 200 body, and in every
    other case, the statuses for which the code raises [AuthError],
    [NotFoundError], [RateLimitError] and [RemoteServerError] included, the
    catch-all handler turns the error into [NetworkError]; when [urlopen]
    raises, the error is one of the five classes. *)
Theorem _request_outcomes
    (env : environment) (url : string) (headers : option (pydict string))
    (timeout : Z) (method : string) (json_body : option json) (w : world) :
  let out := _request env url headers timeout method json_body w in
  match remote env (trace out.2), out.1 with
  | Responded status body, Ok v => status = 200 ∧ parsed body = Some v
  | Responded status body, Raise e =>
      class_of e = Network ∧ (status = 200 → parsed body = None)
  | UrlopenRaised _, Ok _ => False
  | UrlopenRaised _, Raise e =>
      class_of e ∈ [Auth; NotFound; RateLimit; RemoteServer; Network]
  end.
Proof.
  cbv zeta. unfold _request. cbv zeta.
  set (w' := send _ w).
  assert (∀ r, trace (match r with
                      | Ok v => (Ok v, w')
                      | Raise e => (@Raise json (_request_except e), w')
                      end).2 = trace w') as Htrace by (by intros []).
  rewrite Htrace.
  destruct (remote env (trace w')) as [status body|e]; cbn [_request_try].
  - destruct (status =? 200) eqn:H200.
    { apply Z.eqb_eq in H200 as ->. unfold json_loads.
      by destruct (parsed body). }
    apply Z.eqb_neq in H200.
    repeat (match goal with
            | |- context [if ?c then _ else _] => destruct c
            end; [by split|]).
    by split.
  - cbn [fst]. unfold _request_except. destruct e; try set_solver.
    repeat (match goal with
            | |- context [if ?c then _ else _] => destruct c
            end; [set_solver|]).
    set_solver.
Qed.

(** X13.  With a cipher in the cache and the endpoint configured,
    [decrypt_dataset] sends exactly one request: a POST to the endpoint with
    the bearer token, carrying the cached cipher as [runtime_key], the
    offset and the limit, and [columns] only when the list given is not
    empty; the socket and the verification service are not contacted. *)
Theorem decrypt_dataset_sends_one_request
    (env : environment) (cfg : config) (dataset_id token : string)
    (columns : option (list string)) (offset limit : Z) (w : world) :
  is_None (_cached_cipher w) = false →
  DS_DECRYPT_ENDPOINT cfg ≠ "" →
  trace (decrypt_dataset env cfg dataset_id token columns offset limit w).2
  = trace w ++
    [HttpRequest "POST" (DS_DECRYPT_ENDPOINT cfg)
       [("Authorization", "Bearer " +:+ token);
        ("Content-Type", "application/json")]
       (Some (JObj ([("dataset_id", JStr dataset_id);
                     ("runtime_key", _cached_cipher w);
                     ("offset", JNum offset); ("limit", JNum limit)]
                    ++ match columns with
                       | Some (c :: cs) => [("columns", JArr (JStr <$> c :: cs))]
                       | _ => []
                       end)))].
Proof.
  intros Hcache Hcfg. unfold decrypt_dataset.
  apply String.eqb_neq in Hcfg. rewrite Hcfg.
  rewrite get_attestation_cipher_hit by done. unfold _request. cbv zeta.
  assert (∀ r w', trace (match (match r with
                                | Ok v => (Ok v, w')
                                | Raise e => (@Raise json (_request_except e), w')
                                end) with
                         | (Raise e, w2) => (Raise e, w2)
                         | (Ok response, w2) => (validate required_keys response, w2)
                         end).2 = trace w') as Htrace by (by intros []).
  rewrite Htrace, send_trace. by destruct columns as [[|c cs]|].
Qed.

Lemma decrypt_dataset_sends_one_request_witness :
  trace (decrypt_dataset (answering (Responded 200 html_error_page))
           default_config "demo-dataset-001" "jwt" (Some []) 20 10
           {| _cached_cipher := JStr "c1ph3r"; trace := [] |}).2
  = [HttpRequest "POST" "https://delong-datasets.avinasi.org/api/datasets/decrypt"
       [("Authorization", "Bearer jwt"); ("Content-Type", "application/json")]
       (Some (JObj [("dataset_id", JStr "demo-dataset-001");
                    ("runtime_key", JStr "c1ph3r");
                    ("offset", JNum 20); ("limit", JNum 10)]))].
Proof.
  apply (decrypt_dataset_sends_one_request
           (answering (Responded 200 html_error_page)) default_config
           "demo-dataset-001" "jwt" (Some []) 20 10
           {| _cached_cipher := JStr "c1ph3r"; trace := [] |});
    [reflexivity|discriminate].
Defined.

(** ** attestation.py, further *)

Lemma fetch_local_attestation_token_trace env cfg w :
  trace (fetch_local_attestation_token env cfg w).2
  = trace w ++ [SocketExchange (DS_ATTESTATION_SOCKET cfg)
                  (DS_ATTESTATION_AUDIENCE cfg)].
Proof.
  unfold fetch_local_attestation_token. cbv zeta.
  destruct (local_attestor env _) as [body|e]; [|done].
  destruct (json_loads body) as [data|]; [|done].
  by destruct (py_get data "token").
Qed.

(** X14.  Starting with nothing cached, [get_attestation_cipher] returns
    something other than the empty string exactly when both steps come back
    with something usable, and it is then what the verification service
    returned; the token it posted there is the one the socket gave. *)
Theorem get_attestation_cipher_succeeds_iff
    (env : environment) (cfg : config) (w : world) :
  _cached_cipher w = JNull →
  let local := fetch_local_attestation_token env cfg w in
  let verified := request_attestation_cipher env cfg local.1 local.2 in
  let out := get_attestation_cipher env cfg w in
  truthy out.1 = truthy local.1 && truthy verified.1 ∧
  (truthy out.1 = true →
   out.1 = verified.1 ∧ _cached_cipher out.2 = verified.1 ∧
   trace out.2
   = trace w ++
     [SocketExchange (DS_ATTESTATION_SOCKET cfg) (DS_ATTESTATION_AUDIENCE cfg);
      HttpRequest "POST" (DS_ATTESTATION_ENDPOINT cfg)
        [("Content-Type", "application/json")]
        (Some (JObj [("token", local.1)]))]).
Proof.
  intros Hcache. cbv zeta. unfold get_attestation_cipher. rewrite Hcache.
  cbn [is_None negb].
  pose proof (fetch_local_attestation_token_trace env cfg w) as Htrace.
  destruct (fetch_local_attestation_token env cfg w) as [local_token w1].
  cbn [fst snd] in *.
  destruct (truthy local_token) eqn:Hlocal; cbn [negb andb]; [|by split].
  assert (truthy (request_attestation_cipher env cfg local_token w1).1 = true →
          trace (request_attestation_cipher env cfg local_token w1).2
          = trace w1 ++ [HttpRequest "POST" (DS_ATTESTATION_ENDPOINT cfg)
                           [("Content-Type", "application/json")]
                           (Some (JObj [("token", local_token)]))]) as Hsent.
  { unfold request_attestation_cipher.
    destruct (String.eqb _ _); [done|]. cbv zeta.
    destruct (remote env _) as [status raw|e]; [|done].
    destruct (negb (status =? 200)); [done|].
    by destruct (match json_loads raw with Ok _ => _ | Raise _ => _ end). }
  destruct (request_attestation_cipher env cfg local_token w1) as [cipher w2].
  cbn [fst snd] in *. unfold py_or.
  destruct (truthy cipher) eqn:Hcipher; cbn [fst snd set_cached_cipher
    _cached_cipher trace]; [|by split].
  split; [done|]. intros _. split_and!; [done..|].
  by rewrite Hsent, Htrace, <- app_assoc.
Qed.

Lemma get_attestation_cipher_succeeds_iff_witness :
  get_attestation_cipher (mock_attested "local-token") default_config
    initial_world
  = (JStr MockAttestation.TEST_CIPHER,
     {| _cached_cipher := JStr MockAttestation.TEST_CIPHER;
        trace := [SocketExchange "/var/run/delong-attestor/socket"
                    "https://delongapi.internal";
                  HttpRequest "POST"
                    "http://34.111.110.19/attestation/is_confidential"
                    [("Content-Type", "application/json")]
                    (Some (JObj [("token", JStr "local-token")]))] |}) ∧
  truthy (get_attestation_cipher (mock_attested "local-token") default_config
            initial_world).1 = true.
Proof.
  split; [reflexivity|].
  destruct (get_attestation_cipher_succeeds_iff (mock_attested "local-token")
              default_config initial_world eq_refl) as [-> _].
  reflexivity.
Defined.

(** X15.  The client and the mock attestation service agree: when the local
    attestor hands out the string [t] and the endpoint behaves like the mock
    service, a first call of [get_attestation_cipher] returns the service's
    [TEST_CIPHER] if [t] is not empty, and the empty string, without posting
    anything, if it is; so the service's "Token is required" refusal is
    never provoked by this client. *)
Theorem get_attestation_cipher_against_mock_service
    (env : environment) (cfg : config) (w : world) (body : payload)
    (fields : pydict json) (t : string) :
  _cached_cipher w = JNull →
  DS_ATTESTATION_ENDPOINT cfg ≠ "" →
  local_attestor env
    (trace w ++ [SocketExchange (DS_ATTESTATION_SOCKET cfg)
                   (DS_ATTESTATION_AUDIENCE cfg)])
  = SocketReplied body →
  parsed body = Some (JObj fields) →
  dict_get "token" fields = Some (JStr t) →
  answers_like_mock_attestation env cfg →
  let out := get_attestation_cipher env cfg w in
  if String.eqb t "" then
    out.1 = JStr "" ∧
    trace out.2 = trace w ++ [SocketExchange (DS_ATTESTATION_SOCKET cfg)
                                (DS_ATTESTATION_AUDIENCE cfg)]
  else
    out.1 = JStr MockAttestation.TEST_CIPHER ∧
    _cached_cipher out.2 = JStr MockAttestation.TEST_CIPHER.
Proof.
  intros Hcache Hcfg Hsock Hparsed Htoken Hservice. cbv zeta.
  unfold get_attestation_cipher. rewrite Hcache. cbn [is_None negb].
  unfold fetch_local_attestation_token. cbv zeta. rewrite send_trace, Hsock.
  unfold json_loads. rewrite Hparsed. cbn [py_get]. rewrite Htoken.
  change (default JNull (Some (JStr t))) with (JStr t). cbn [truthy].
  destruct (String.eqb t "") eqn:Ht; cbn [negb].
  - by split.
  - unfold request_attestation_cipher. apply String.eqb_neq in Hcfg.
    rewrite Hcfg. cbv zeta.
    specialize (Hservice
      (trace (send (HttpRequest "POST" (DS_ATTESTATION_ENDPOINT cfg)
                      [("Content-Type", "application/json")]
                      (Some (JObj [("token", JStr t)])))
                (send (SocketExchange (DS_ATTESTATION_SOCKET cfg)
                         (DS_ATTESTATION_AUDIENCE cfg)) w)))
      [("Content-Type", "application/json")] t).
    rewrite send_trace, last_snoc in Hservice. specialize (Hservice eq_refl).
    unfold MockAttestation.verify_attestation in Hservice. rewrite Ht in Hservice.
    destruct Hservice as [text Hremote]. rewrite send_trace, Hremote.
    by split.
Qed.

Lemma get_attestation_cipher_against_mock_service_witness :
  (get_attestation_cipher (mock_attested "") default_config initial_world).1
    = JStr "" ∧
  trace (get_attestation_cipher (mock_attested "") default_config
           initial_world).2
    = [SocketExchange "/var/run/delong-attestor/socket"
         "https://delongapi.internal"].
Proof.
  apply (get_attestation_cipher_against_mock_service (mock_attested "")
           default_config initial_world
           {| text := "token-json"; parsed := Some (JObj [("token", JStr "")]) |}
           [("token", JStr "")] "");
    try reflexivity; [discriminate|].
  intros sent hdrs t Hlast. unfold mock_attested. cbn [remote]. rewrite Hlast.
  cbn [dict_get String.eqb]. simpl.
  destruct (MockAttestation.verify_attestation t); eauto.
Defined.

(** ** policy.py and api.py, further *)

(** X16.  [export_data] raises [PolicyViolationError] exactly when the object
    reports a row count and that count is above [MAX_LOCAL_EXPORT_ROWS]: a
    count equal to the ceiling is allowed, and nothing else in the export
    raises this error. *)
Theorem export_data_policy_violation_iff
    (dataframe : Type) (cfg : config) (pd : outcome (pandas dataframe))
    (data : exportable dataframe) (format path : string) (fs : filesystem) :
  raised (export_data cfg pd data format path fs).1 = Some PolicyViolation
  ↔ ∃ rows, num_rows data = Some rows ∧ MAX_LOCAL_EXPORT_ROWS cfg < rows.
Proof.
  unfold export_data, enforce_export_policy.
  destruct (num_rows data) as [rows|].
  - destruct (MAX_LOCAL_EXPORT_ROWS cfg <? rows) eqn:Hcmp.
    + apply Z.ltb_lt in Hcmp. split; [|done]. intros _. by exists rows.
    + apply Z.ltb_ge in Hcmp. split.
      * by destruct (export_paths_class pd data format path fs) as [-> | ->].
      * intros (r & [= <-] & Hr). lia.
  - split.
    + by destruct (export_paths_class pd data format path fs) as [-> | ->].
    + by intros (r & ? & _).
Qed.

(** X17.  An object with its own exporter for the requested format is
    exported by that method alone, the format taken without regard to case:
    pandas is not imported, so the export goes through even where importing
    pandas fails. *)
Theorem export_data_native_needs_no_pandas
    (dataframe : Type) (cfg : config) (pd : outcome (pandas dataframe))
    (data : exportable dataframe) (format path : string) (fs : filesystem)
    (m : writer) :
  enforce_export_policy cfg (num_rows data) = Ok tt →
  (lower format = "csv" ∧ to_csv data = Some m) ∨
  (lower format = "json" ∧ to_json data = Some m) ∨
  (lower format = "parquet" ∧ to_parquet data = Some m) →
  export_data cfg pd data format path fs = call m path fs.
Proof.
  intros Hpolicy Hnative. unfold export_data, export_paths. rewrite Hpolicy.
  cbv zeta. unfold native.
  destruct Hnative as [[-> ->]|[[-> ->]|[-> ->]]];
    repeat (match goal with
            | |- context [match ?x with Some _ => _ | None => _ end] =>
                match x with
                | to_csv _ => destruct x
                | to_json _ => destruct x
                | to_parquet _ => destruct x
                end
            end); simpl; done.
Qed.

Lemma export_data_native_needs_no_pandas_witness :
  export_data demo_config (Failed "ImportError" "No module named pandas")
    demo_csv_only "CSV" "/tmp/output.csv" ∅
  = call (demo_write (all_rows demo_pages 1)) "/tmp/output.csv" ∅.
Proof.
  apply (export_data_native_needs_no_pandas (list row) demo_config
           (Failed "ImportError" "No module named pandas") demo_csv_only "CSV"
           "/tmp/output.csv" ∅ (demo_write (all_rows demo_pages 1)));
    [reflexivity|by left].
Defined.

(** X18.  A format that is none of csv, json and parquet never writes: the
    object's own exporters are skipped, and the pandas fallback raises,
    [ValueError] with the format as it was given once the frame is there,
    the error of the import or of the conversion before that, leaving the
    file system as it was. *)
Theorem export_data_unsupported_format
    (dataframe : Type) (cfg : config) (pd : outcome (pandas dataframe))
    (data : exportable dataframe) (format path : string) (fs : filesystem) :
  lower format ≠ "csv" → lower format ≠ "json" → lower format ≠ "parquet" →
  ∃ e,
    export_data cfg pd data format path fs = (Raise e, fs) ∧
    (class_of e = PolicyViolation ∨
     (∃ cls msg, e = ForeignError cls msg) ∨
     e = ValueError ("Unsupported export format: " +:+ format)).
Proof.
  intros Hcsv Hjson Hparquet.
  apply String.eqb_neq in Hcsv, Hjson, Hparquet.
  unfold export_data.
  destruct (enforce_export_policy cfg (num_rows data)) as [[]|e] eqn:Hpol.
  2: { exists e. split; [done|]. left.
       unfold enforce_export_policy in Hpol.
       destruct (num_rows data) as [rows|]; [|done].
       destruct (_ <? _); [|done]. by injection Hpol as <-. }
  unfold export_paths, native. cbv zeta. rewrite Hcsv, Hjson, Hparquet.
  assert (∃ e, export_fallback pd data format (lower format) path fs = (Raise e, fs) ∧
               ((∃ cls msg, e = ForeignError cls msg) ∨
                e = ValueError ("Unsupported export format: " +:+ format)))
    as (e & He & Hclass).
  { unfold export_fallback.
    destruct pd as [pdm|cls msg]; simpl; [|by eauto 6].
    destruct (to_pandas data) as [[df|cls msg]|]; simpl; [|by eauto 6|].
    - rewrite Hcsv, Hjson, Hparquet. eauto.
    - destruct (iterate data) as [rows|cls msg]; simpl; [|by eauto 6].
      destruct (DataFrame pdm rows) as [df|cls msg]; simpl; [|by eauto 6].
      rewrite Hcsv, Hjson, Hparquet. eauto. }
  exists e. split; [|by right].
  by destruct (to_csv data), (to_json data), (to_parquet data).
Qed.

Lemma export_data_unsupported_format_witness :
  ∃ e,
    export_data demo_config (Returned demo_pandas) demo_iterable "Excel"
      "/tmp/output.xlsx" ∅ = (Raise e, ∅) ∧
    (class_of e = PolicyViolation ∨
     (∃ cls msg, e = ForeignError cls msg) ∨
     e = ValueError ("Unsupported export format: " +:+ "Excel")).
Proof.
  apply (export_data_unsupported_format (list row) demo_config
           (Returned demo_pandas) demo_iterable "Excel" "/tmp/output.xlsx" ∅);
    discriminate.
Defined.

(** ** resumable.py, further *)

Lemma get_headers_range_start srv url headers existing :
  get_headers headers (range_start_of srv url headers existing)
  = headers_sent ((0 <? existing) && range_indicated (answer_head srv url headers))
      existing headers.
Proof.
  unfold get_headers, headers_sent, range_start_of.
  destruct (0 <? existing) eqn:Hpos; [|done].
  destruct (range_indicated _); simpl; [by rewrite Hpos|done].
Qed.

(** X19.  [resumable_download] touches two files only, the destination and
    its [.part] file: every other file on the disk is as before, whatever
    the server does and however the download ends. *)
Theorem resumable_download_touches_two_files
    (srv : server) (cfg : config) (url : string) (headers : pydict string)
    (dest_path : string) (m : machine) (path : string) :
  path ≠ dest_path → path ≠ dest_path +:+ ".part" →
  files (resumable_download srv cfg url headers dest_path m).2 !! path
  = files m !! path.
Proof.
  intros Hdest Hpart. rewrite resumable_download_unfold. cbv zeta.
  destruct (answer_get srv url _) as [status body|e]; [|done].
  destruct (broken body); cbn [snd files store issue]; by simplify_map_eq.
Qed.

Lemma resumable_download_touches_two_files_witness :
  files (resumable_download range_server default_config "https://host/ds.bin"
           [] "/tmp/ds.bin" shared_disk).2 !! "/tmp/other.bin"
  = Some (list_byte_of_string "xyz").
Proof.
  rewrite (resumable_download_touches_two_files range_server default_config
             "https://host/ds.bin" [] "/tmp/ds.bin" shared_disk "/tmp/other.bin");
    [reflexivity|discriminate|discriminate].
Defined.


(** What an honest answer leaves on disk. *)
Lemma resumable_download_honest (content : bytes) srv cfg url headers dest_path m :
  let part_path := dest_path +:+ ".part" in
  let existing := part_size (files m) part_path in
  answers_with content srv url headers (range_start_of srv url headers existing) →
  (∀ old, files m !! part_path = Some old → old `prefix_of` content) →
  let out := resumable_download srv cfg url headers dest_path m in
  out.1 = Ok dest_path ∧
  files out.2 !! dest_path = Some content ∧
  files out.2 !! part_path = None.
Proof.
  cbv zeta. intros (status & body & Hget & Hbroken & Hhonest) Hprefix.
  pose proof (part_path_fresh dest_path) as Hfresh.
  rewrite get_headers_range_start in Hget.
  rewrite resumable_download_unfold. cbv zeta. rewrite Hget, Hbroken.
  cbn [fst snd files store issue].
  assert ((if (0 <? part_size (files m) (dest_path +:+ ".part"))
              && range_indicated (answer_head srv url headers) && (status =? 206)
           then default [] (files m !! (dest_path +:+ ".part")) else [])
          ++ concat (chunks body) = content) as ->.
  { unfold range_start_of in Hhonest.
    destruct Hhonest as [[-> ->]|(-> & n & Hstart & ->)].
    - by rewrite andb_false_r.
    - destruct ((0 <? _) && _) eqn:Hresume; [|done].
      injection Hstart as <-. simpl.
      apply andb_true_iff in Hresume as [Hpos _]. apply Z.ltb_lt in Hpos.
      destruct (part_size_pos _ _ Hpos) as (old & Hold & Hlen).
      rewrite Hold, <- Hlen, Nat2Z.id. simpl.
      destruct (Hprefix old Hold) as [rest ->].
      by rewrite drop_app_length. }
  split_and!; [done|..]; by simplify_map_eq.
Qed.

(** X21.  Against a server that holds the file, with the [.part] file (if
    there is one) a prefix of it, the download ends with the whole file at
    the destination and no [.part] file, whether the server honours the
    range asked for (206 and the rest) or ignores it (200 and everything). *)
Theorem resumable_download_completes_file
    (content : bytes) (srv : server) (cfg : config) (url : string)
    (headers : pydict string) (dest_path : string) (m : machine) :
  let part_path := dest_path +:+ ".part" in
  let existing := part_size (files m) part_path in
  answers_with content srv url headers (range_start_of srv url headers existing) →
  (∀ old, files m !! part_path = Some old → old `prefix_of` content) →
  let out := resumable_download srv cfg url headers dest_path m in
  out.1 = Ok dest_path ∧
  files out.2 !! dest_path = Some content ∧
  files out.2 !! part_path = None.
Proof. apply resumable_download_honest. Qed.

Lemma resumable_download_completes_file_witness :
  let out := resumable_download range_server default_config "https://host/ds.bin"
               [] "/tmp/ds.bin" half_done in
  out.1 = Ok "/tmp/ds.bin" ∧
  files out.2 !! "/tmp/ds.bin" = Some whole_file ∧
  files out.2 !! "/tmp/ds.bin.part" = None.
Proof.
  apply (resumable_download_completes_file whole_file range_server default_config
           "https://host/ds.bin" [] "/tmp/ds.bin" half_done).
  - exists 206, {| chunks := [drop 5 whole_file]; broken := None |}.
    split; [reflexivity|]. split; [reflexivity|].
    right. split; [reflexivity|]. exists 5. split; reflexivity.
  - intros old Hold. vm_compute in Hold. injection Hold as <-.
    by exists (drop 5 whole_file).
Defined.

(** X22.  An interrupted download followed by a second attempt: the first
    call, starting without a [.part] file, raises what broke the stream and
    leaves the bytes received in the [.part] file; the second asks for the
    bytes after those (when any were received and range support is
    indicated) and, answered honestly, ends with the whole file at the
    destination. *)
Theorem resumable_download_resumes_after_interruption
    (content : bytes) (srv1 srv2 : server) (cfg : config) (url : string)
    (headers : pydict string) (dest_path : string) (m : machine)
    (status1 : Z) (body1 : stream) (e : exn) :
  let part_path := dest_path +:+ ".part" in
  let received := concat (chunks body1) in
  let range_start := range_start_of srv2 url headers (Z.of_nat (length received)) in
  files m !! part_path = None →
  answer_get srv1 url headers = GetResponded status1 body1 →
  broken body1 = Some e →
  received `prefix_of` content →
  answers_with content srv2 url headers range_start →
  let first := resumable_download srv1 cfg url headers dest_path m in
  let second := resumable_download srv2 cfg url headers dest_path first.2 in
  first.1 = Raise e ∧
  files first.2 !! part_path = Some received ∧
  files first.2 !! dest_path = files m !! dest_path ∧
  second.1 = Ok dest_path ∧
  files second.2 !! dest_path = Some content ∧
  files second.2 !! part_path = None ∧
  requests second.2
  = requests m ++ [HEAD url headers; GET url headers;
                   HEAD url headers; GET url (get_headers headers range_start)].
Proof.
  cbv zeta. intros Hnone Hget Hbroken Hprefix Hsecond.
  pose proof (part_path_fresh dest_path) as Hfresh.
  set (part_path := dest_path +:+ ".part") in *.
  assert (resumable_download srv1 cfg url headers dest_path m
          = (Raise e,
             store (<[part_path := concat (chunks body1)]> (files m))
               (issue (GET url headers) (issue (HEAD url headers) m)))) as Hfirst.
  { rewrite resumable_download_unfold. cbv zeta. fold part_path.
    unfold part_size. rewrite Hnone. simpl. unfold headers_sent.
    by rewrite Hget, Hbroken. }
  rewrite Hfirst. cbn [fst snd].
  set (m1 := store _ _).
  assert (files m1 !! part_path = Some (concat (chunks body1))) as Hpart.
  { unfold m1. cbn [files store]. by simplify_map_eq. }
  assert (part_size (files m1) part_path
          = Z.of_nat (length (concat (chunks body1)))) as Hsize.
  { unfold part_size. by rewrite Hpart. }
  destruct (resumable_download_honest content srv2 cfg url headers dest_path m1)
    as (Hok & Hdest & Hgone).
  { fold part_path. by rewrite Hsize. }
  { fold part_path. intros old. rewrite Hpart. by intros [= <-]. }
  split_and!; try done.
  - unfold m1. cbn [files store issue]. by simplify_map_eq.
  - rewrite resumable_download_unfold. cbv zeta. fold part_path.
    rewrite Hsize, <- get_headers_range_start.
    destruct (answer_get srv2 url _) as [status body|e2]; [destruct (broken body)|];
      cbn [snd store issue requests]; unfold m1; cbn [store issue requests];
      by rewrite <- !app_assoc.
Qed.

Lemma resumable_download_resumes_after_interruption_witness :
  let first := resumable_download flaky_server default_config
                 "https://host/ds.bin" [] "/tmp/ds.bin"
                 {| files := ∅; requests := [] |} in
  let second := resumable_download range_server_from_3 default_config
                  "https://host/ds.bin" [] "/tmp/ds.bin" first.2 in
  files first.2 !! "/tmp/ds.bin.part" = Some (take 3 whole_file) ∧
  second.1 = Ok "/tmp/ds.bin" ∧
  files second.2 !! "/tmp/ds.bin" = Some whole_file ∧
  requests second.2
  = [HEAD "https://host/ds.bin" []; GET "https://host/ds.bin" [];
     HEAD "https://host/ds.bin" [];
     GET "https://host/ds.bin" [("Range", "bytes=3-")]].
Proof.
  destruct (resumable_download_resumes_after_interruption whole_file
              flaky_server range_server_from_3 default_config
              "https://host/ds.bin" [] "/tmp/ds.bin"
              {| files := ∅; requests := [] |} 200
              {| chunks := [take 3 whole_file];
                 broken := Some (ForeignError "ConnectionResetError"
                                   "Connection reset by peer") |}
              (ForeignError "ConnectionResetError" "Connection reset by peer"))
    as (_ & Hpart & _ & Hok & Hdest & _ & Hreq).
  - reflexivity.
  - reflexivity.
  - reflexivity.
  - by exists (drop 3 whole_file).
  - exists 206, {| chunks := [drop 3 whole_file]; broken := None |}.
    split; [reflexivity|]. split; [reflexivity|].
    right. split; [reflexivity|]. exists 3. split; reflexivity.
  - cbv zeta. split_and!; [exact Hpart|exact Hok|exact Hdest|exact Hreq].
Defined.

(** ** auth.py: masking *)

Lemma list_ascii_of_string_app (s1 s2 : string) :
  list_ascii_of_string (s1 +:+ s2)
  = list_ascii_of_string s1 ++ list_ascii_of_string s2.
Proof.
  induction s1 as [|c s1 IH]; [done|].
  change (c :: list_ascii_of_string (s1 +:+ s2)
          = c :: (list_ascii_of_string s1 ++ list_ascii_of_string s2)).
  by rewrite IH.
Qed.

Lemma length_list_ascii_of_string (s : string) :
  length (list_ascii_of_string s) = String.length s.
Proof. induction s as [|c s IH]; [done|]. simpl. by rewrite IH. Qed.

Lemma list_ascii_of_stars (n : Z) :
  list_ascii_of_string (stars n) = replicate (Z.to_nat n) "*"%char.
Proof. unfold stars. apply list_ascii_of_string_of_list_ascii. Qed.

(** What [mask_token] gives for a token that is not empty, character by
    character. *)
Lemma mask_token_chars (token : string) (keep : Z) :
  token ≠ "" →
  let len := Z.of_nat (String.length token) in
  list_ascii_of_string (mask_token token keep) =
    if len <=? keep then replicate (String.length token) "*"%char
    else replicate (Z.to_nat (len - keep)) "*"%char
         ++ drop (Z.to_nat (if 0 <? keep then len - keep else Z.min (- keep) len))
              (list_ascii_of_string token).
Proof.
  intros Hne. cbv zeta. unfold mask_token.
  apply String.eqb_neq in Hne. rewrite Hne.
  destruct (_ <=? keep) eqn:Hle.
  - by rewrite list_ascii_of_stars, Nat2Z.id.
  - apply Z.leb_gt in Hle.
    rewrite list_ascii_of_string_app, list_ascii_of_stars. f_equal.
    unfold slice_from. rewrite list_ascii_of_string_of_list_ascii. f_equal. f_equal.
    destruct (0 <? keep) eqn:Hpos.
    + apply Z.ltb_lt in Hpos.
      assert ((- keep <? 0) = true) as -> by (apply Z.ltb_lt; lia). lia.
    + apply Z.ltb_ge in Hpos.
      assert ((- keep <? 0) = false) as -> by (apply Z.ltb_ge; lia). done.
Qed.

(** X23.  With a positive [keep], [mask_token] gives a string as long as the
    token: all stars when the token has at most [keep] characters, and
    otherwise stars followed by the last [keep] characters of the token, so
    that no other character of the token shows. *)
Theorem mask_token_shows_last_keep (token : string) (keep : Z) :
  0 < keep →
  let len := String.length token in
  let k := Z.to_nat keep in
  String.length (mask_token token keep) = len ∧
  list_ascii_of_string (mask_token token keep) =
    if (len <=? k)%nat then replicate len "*"%char
    else replicate (len - k) "*"%char ++ drop (len - k) (list_ascii_of_string token).
Proof.
  intros Hkeep. cbv zeta.
  destruct (String.eqb token "") eqn:Hempty.
  { apply String.eqb_eq in Hempty as ->. done. }
  apply String.eqb_neq in Hempty.
  assert (list_ascii_of_string (mask_token token keep) =
    if (String.length token <=? Z.to_nat keep)%nat
    then replicate (String.length token) "*"%char
    else replicate (String.length token - Z.to_nat keep) "*"%char
         ++ drop (String.length token - Z.to_nat keep) (list_ascii_of_string token))
    as Hchars.
  { rewrite (mask_token_chars token keep Hempty). cbv zeta.
    assert ((0 <? keep) = true) as -> by (by apply Z.ltb_lt).
    destruct (_ <=? keep) eqn:Hle.
    - apply Z.leb_le in Hle.
      assert ((String.length token <=? Z.to_nat keep)%nat = true) as ->
        by (apply Nat.leb_le; lia).
      done.
    - apply Z.leb_gt in Hle.
      assert ((String.length token <=? Z.to_nat keep)%nat = false) as ->
        by (apply Nat.leb_gt; lia).
      by replace (Z.to_nat (Z.of_nat (String.length token) - keep))
        with (String.length token - Z.to_nat keep)%nat by lia. }
  split; [|exact Hchars].
  rewrite <- (length_list_ascii_of_string (mask_token token keep)), Hchars.
  destruct (_ <=? _)%nat eqn:Hle.
  - by rewrite length_replicate.
  - apply Nat.leb_gt in Hle.
    rewrite length_app, length_replicate, length_drop, length_list_ascii_of_string.
    lia.
Qed.

Lemma mask_token_shows_last_keep_witness :
  mask_token "secret-token-1234" 4 = "*************1234" ∧
  String.length (mask_token "secret-token-1234" 4) = 17%nat.
Proof.
  split; [reflexivity|].
  apply (mask_token_shows_last_keep "secret-token-1234" 4). lia.
Defined.

(** X24.  With [keep] at zero or below, [mask_token] of a token that is not
    empty gives as many stars as the token is long and [-keep] more, followed
    by the token without its first [-keep] characters; with [keep = 0] that
    is one star per character and then the whole token in clear. *)
Theorem mask_token_keep_not_positive (token : string) (keep : Z) :
  token ≠ "" → keep ≤ 0 →
  let len := String.length token in
  list_ascii_of_string (mask_token token keep) =
    replicate (len + Z.to_nat (- keep)) "*"%char
    ++ drop (Z.to_nat (- keep)) (list_ascii_of_string token) ∧
  (keep = 0 → mask_token token keep = stars (Z.of_nat len) +:+ token).
Proof.
  intros Hne Hkeep. cbv zeta. split.
  - rewrite (mask_token_chars token keep Hne). cbv zeta.
    assert (0 < Z.of_nat (String.length token)).
    { destruct token; [done|]. simpl. lia. }
    assert ((Z.of_nat (String.length token) <=? keep) = false) as ->
      by (apply Z.leb_gt; lia).
    assert ((0 <? keep) = false) as -> by (apply Z.ltb_ge; lia).
    f_equal; [f_equal; lia|].
    destruct (Z.le_gt_cases (- keep) (Z.of_nat (String.length token))).
    + by rewrite Z.min_l.
    + rewrite Z.min_r by lia. rewrite Nat2Z.id.
      rewrite !drop_ge; [done|..]; rewrite length_list_ascii_of_string; lia.
  - intros ->. unfold mask_token.
    apply String.eqb_neq in Hne. rewrite Hne.
    assert (0 < Z.of_nat (String.length token)).
    { destruct token; [by apply String.eqb_neq in Hne|]. simpl. lia. }
    assert ((Z.of_nat (String.length token) <=? 0) = false) as ->
      by (apply Z.leb_gt; lia).
    rewrite Z.sub_0_r. f_equal.
    unfold slice_from. simpl. rewrite Z.min_l by lia.
    simpl. apply string_of_list_ascii_of_string.
Qed.

Lemma mask_token_keep_not_positive_witness :
  mask_token "secret" 0 = "******secret".
Proof.
  destruct (mask_token_keep_not_positive "secret" 0) as [_ H];
    [discriminate|lia|].
  rewrite (H eq_refl). reflexivity.
Defined.

(** ** downloader.py and api.py: the limit and the export ceiling *)

Section LimitFacts.
Context {World : Type}.
Variable decrypt :
  string → string → option (list string) → Z → Z → World → result page * World.
Variable from_list : list row → outcome unit.

(** The eager loop stops as soon as [limit] rows are there. *)
Lemma collect_at_most_limit (limit : Z) : ∀ fuel g w acc rows w',
  Z.of_nat (length acc) < limit →
  collect decrypt fuel (Some limit) g w acc = Some (Ok rows, w') →
  Z.of_nat (length rows) ≤ limit.
Proof.
  induction fuel as [|fuel IH]; intros g w acc rows w' Hacc Hrun; [done|].
  simpl in Hrun.
  destruct (next decrypt fuel g w) as [[[[r| |e] g'] w'']|]; [| | |done].
  - destruct (reached (Some limit) (acc ++ [r])) eqn:Hreached.
    + injection Hrun as <- <-. rewrite length_app. simpl. lia.
    + apply (IH g' w'' (acc ++ [r]) rows w'); [|done].
      unfold reached, truthy_limit in Hreached. simpl in Hreached.
      destruct (limit =? 0) eqn:Hzero; [apply Z.eqb_eq in Hzero; lia|].
      simpl in Hreached. apply Z.leb_gt in Hreached. done.
  - injection Hrun as <- <-. lia.
  - done.
Qed.

(** What comes back as a [Dataset] is what the eager loop collected. *)
Lemma load_dataset_from_api_Dataset (cfg : config) (fuel : nat)
    (dataset_id token : string) (columns : option (list string))
    (limit : option Z) (offset : Z) (w w' : World) (rows : list row) :
  load_dataset_from_api decrypt from_list cfg fuel dataset_id token columns false
    limit offset w = Some (Ok (Dataset rows), w') →
  collect decrypt fuel limit
    (fetch_all_pages dataset_id token columns
       (if truthy_limit limit && (default 0 limit <? DS_DEFAULT_LIMIT cfg)
        then default 0 limit else DS_DEFAULT_LIMIT cfg) offset) w []
  = Some (Ok rows, w').
Proof.
  unfold load_dataset_from_api, Dataset_from_list. cbv zeta.
  destruct (collect _ _ _ _ _ _) as [[[all_rows|e] w'']|]; [|done|done].
  destruct (from_list all_rows); simpl; [|done]. by intros [= <- <-].
Qed.

(** X25.  Whatever the backend answers, an eager download with a positive
    [limit] never returns more than [limit] rows. *)
Theorem download_dataset_at_most_limit
    (cfg : config) (fuel : nat) (dataset_id token : string)
    (opts : DownloadOptions) (w w' : World) (limit : Z) (rows : list row) :
  opt_limit opts = Some limit → 0 < limit →
  download_dataset decrypt from_list cfg fuel dataset_id token (Some opts) w
    = Some (Ok (Dataset rows), w') →
  Z.of_nat (length rows) ≤ limit.
Proof.
  intros Hlimit Hpos. unfold download_dataset.
  change (default (default_options cfg) (Some opts)) with opts.
  rewrite Hlimit. destruct (opt_stream opts); [done|].
  intros Hrun%load_dataset_from_api_Dataset.
  by apply collect_at_most_limit in Hrun.
Qed.

(** X26.  Download, then export: a dataset downloaded eagerly with a positive
    [limit] that is not above [MAX_LOCAL_EXPORT_ROWS], and reporting as its
    [num_rows] the number of rows it was built from, is never refused by the
    export policy. *)
Theorem export_data_after_limited_download
    (dataframe : Type) (cfg : config) (fuel : nat) (dataset_id token : string)
    (opts : DownloadOptions) (w w' : World) (limit : Z) (rows : list row)
    (pd : outcome (pandas dataframe)) (data : exportable dataframe)
    (format path : string) (fs : filesystem) :
  opt_limit opts = Some limit → 0 < limit ≤ MAX_LOCAL_EXPORT_ROWS cfg →
  download_dataset decrypt from_list cfg fuel dataset_id token (Some opts) w
    = Some (Ok (Dataset rows), w') →
  num_rows data = Some (Z.of_nat (length rows)) →
  export_data cfg pd data format path fs = export_paths pd data format path fs ∧
  raised (export_data cfg pd data format path fs).1 ≠ Some PolicyViolation.
Proof.
  intros Hlimit [Hpos Hmax] Hrun Hrows.
  assert (Z.of_nat (length rows) ≤ limit) as Hbound.
  { revert Hrun. unfold download_dataset.
    change (default (default_options cfg) (Some opts)) with opts.
    rewrite Hlimit. destruct (opt_stream opts); [done|].
    intros Hrun%load_dataset_from_api_Dataset.
    by apply collect_at_most_limit in Hrun. }
  assert (export_data cfg pd data format path fs
          = export_paths pd data format path fs) as ->.
  { unfold export_data, enforce_export_policy. rewrite Hrows.
    assert ((MAX_LOCAL_EXPORT_ROWS cfg <? Z.of_nat (length rows)) = false) as ->
      by (apply Z.ltb_ge; lia).
    done. }
  split; [done|].
  by destruct (export_paths_class pd data format path fs) as [-> | ->].
Qed.
End LimitFacts.

Lemma download_dataset_at_most_limit_witness :
  download_dataset (scripted demo_pages) arrow_verdict default_config 10 "ds" "jwt"
    (Some {| opt_stream := false; timeout_sec := 30; max_retries := 3;
             opt_columns := None; opt_limit := Some 1; opt_offset := 0 |}) []
  = Some (Ok (Dataset (take 1 (all_rows demo_pages 1))), [(0, 1)]) ∧
  Z.of_nat (length (take 1 (all_rows demo_pages 1))) ≤ 1.
Proof.
  split; [reflexivity|].
  apply (download_dataset_at_most_limit (scripted demo_pages) arrow_verdict
           default_config 10
           "ds" "jwt"
           {| opt_stream := false; timeout_sec := 30; max_retries := 3;
              opt_columns := None; opt_limit := Some 1; opt_offset := 0 |}
           [] [(0, 1)] 1 (take 1 (all_rows demo_pages 1)));
    [reflexivity|lia|reflexivity].
Defined.

Lemma export_data_after_limited_download_witness :
  raised (export_data demo_config (Returned demo_pandas) demo_csv_only "csv"
            "/tmp/output.csv" ∅).1 ≠ Some PolicyViolation.
Proof.
  apply (export_data_after_limited_download (scripted demo_pages) arrow_verdict
           (list row)
           demo_config 10 "ds" "jwt"
           {| opt_stream := false; timeout_sec := 30; max_retries := 3;
              opt_columns := None; opt_limit := Some 2; opt_offset := 0 |}
           [] [(0, 2)] 2 (all_rows demo_pages 1)
           (Returned demo_pandas) demo_csv_only "csv" "/tmp/output.csv" ∅);
    [reflexivity|split; [lia|reflexivity]|reflexivity|reflexivity].
Defined.

(** ** attestation.py: reading the reply off the socket *)

Lemma starts_with_app sep : ∀ p q,
  starts_with sep p = true → starts_with sep (p ++ q) = true.
Proof.
  induction sep as [|s sep IH]; intros [|x p] q; simpl; try done.
  intros [-> H]%andb_true_iff. simpl. by apply IH.
Qed.

Lemma starts_with_app_long sep : ∀ p q,
  (length sep ≤ length p)%nat → starts_with sep (p ++ q) = starts_with sep p.
Proof.
  induction sep as [|s sep IH]; intros [|x p] q Hlen; simpl in *; try done; [lia|].
  f_equal. apply IH. lia.
Qed.

Lemma starts_with_length sep : ∀ p,
  starts_with sep p = true → (length sep ≤ length p)%nat.
Proof.
  induction sep as [|s sep IH]; intros [|x p]; simpl; try done; try lia.
  intros [_ H]%andb_true_iff. apply IH in H. lia.
Qed.

Lemma bytes_find_bound sep : ∀ p i,
  bytes_find sep p = Some i → (i + length sep ≤ length p)%nat.
Proof.
  induction p as [|x p IH]; intros i.
  - simpl. destruct sep; [|done]. by intros [= <-].
  - change (bytes_find sep (x :: p))
      with (if starts_with sep (x :: p) then Some O
            else S <$> bytes_find sep p).
    destruct (starts_with sep (x :: p)) eqn:Hstart.
    + intros [= <-]. by apply starts_with_length in Hstart.
    + destruct (bytes_find sep p) as [j|]; [|done]. intros [= <-].
      specialize (IH j eq_refl). simpl. lia.
Qed.

(** What is found in a prefix is what is found in the whole. *)
Lemma bytes_find_app sep : ∀ p q i,
  bytes_find sep p = Some i → bytes_find sep (p ++ q) = Some i.
Proof.
  induction p as [|x p IH]; intros q i.
  - simpl. destruct sep; [|done]. intros [= <-]. by destruct q.
  - change (bytes_find sep (x :: p))
      with (if starts_with sep (x :: p) then Some O
            else S <$> bytes_find sep p).
    change (bytes_find sep ((x :: p) ++ q))
      with (if starts_with sep ((x :: p) ++ q) then Some O
            else S <$> bytes_find sep (p ++ q)).
    destruct (starts_with sep (x :: p)) eqn:Hstart.
    + intros [= <-]. by rewrite (starts_with_app _ _ q Hstart).
    + destruct (bytes_find sep p) as [j|] eqn:Hfind; [|done]. intros [= <-].
      pose proof (bytes_find_bound _ _ _ Hfind).
      rewrite starts_with_app_long, Hstart by (simpl; lia).
      by rewrite (IH q j).
Qed.

Lemma recv_segment bufsize sock segment rest :
  arriving sock = segment :: rest → segment ≠ [] → 0 < bufsize →
  ∃ c chunk sock',
    recv bufsize sock = (Ok (c :: chunk), sock') ∧
    (c :: chunk) ++ concat (arriving sock') = concat (arriving sock) ∧
    Z.of_nat (length (c :: chunk)) ≤ bufsize ∧
    (Forall (λ s, s ≠ []) rest → Forall (λ s, s ≠ []) (arriving sock')) ∧
    at_end sock' = at_end sock.
Proof.
  intros Harr Hne Hpos. unfold recv. rewrite Harr. cbv zeta.
  destruct segment as [|c segment]; [done|].
  destruct (length (c :: segment) <=? Z.to_nat bufsize)%nat eqn:Hfit.
  - apply Nat.leb_le in Hfit. exists c, segment, {| arriving := rest; at_end := at_end sock |}.
    split_and!; try done. lia.
  - apply Nat.leb_gt in Hfit.
    destruct (Z.to_nat bufsize) as [|n] eqn:Hn; [lia|].
    exists c, (take n segment),
      {| arriving := drop (S n) (c :: segment) :: rest; at_end := at_end sock |}.
    split_and!; try done.
    + simpl. by rewrite app_assoc, take_drop.
    + simpl length. rewrite length_take. lia.
    + intros Hrest. constructor; [|done]. simpl.
      intros Hnil. apply (f_equal length) in Hnil.
      rewrite length_drop in Hnil. simpl in *. lia.
Qed.

Lemma concat_nil_nonempty (segments : list bytes) :
  Forall (λ s, s ≠ []) segments → concat segments = [] → segments = [].
Proof. intros Hne. destruct Hne as [|[|x s] l Hs Hl]; done. Qed.

(** The header loop stops at the first moment the blank line is there. *)
Lemma read_headers_found : ∀ fuel sock data,
  (length (concat (arriving sock)) < fuel)%nat →
  Forall (λ s, s ≠ []) (arriving sock) →
  bytes_in CRLFCRLF (data ++ concat (arriving sock)) = true →
  ∃ data' sock',
    read_headers fuel sock data = Some (Ok data', sock') ∧
    bytes_in CRLFCRLF data' = true ∧
    data' ++ concat (arriving sock') = data ++ concat (arriving sock) ∧
    Forall (λ s, s ≠ []) (arriving sock') ∧
    at_end sock' = at_end sock ∧
    (length (concat (arriving sock')) < fuel)%nat.
Proof.
  induction fuel as [|fuel IH]; intros sock data Hfuel Hne Hin; [lia|].
  simpl. destruct (bytes_in CRLFCRLF data) eqn:Hhere.
  { exists data, sock. by split_and!. }
  destruct (arriving sock) as [|segment rest] eqn:Harr.
  { simpl in Hin. rewrite app_nil_r in Hin. congruence. }
  apply Forall_cons in Hne as [Hseg Hrest].
  destruct (recv_segment 4096 sock segment rest Harr Hseg)
    as (c & chunk & sock' & -> & Hcat & _ & Hne' & Hend); [lia|].
  rewrite Harr in Hcat.
  destruct (IH sock' (data ++ c :: chunk)) as (data' & sock'' & Hrun & ? & Hcat' & ? & ? & ?).
  - apply (f_equal length) in Hcat. rewrite length_app in Hcat.
    simpl in Hcat, Hfuel. simpl. lia.
  - by apply Hne'.
  - by rewrite <- app_assoc, Hcat.
  - exists data', sock''. split_and!; try done.
    + by rewrite Hcat', <- app_assoc, Hcat.
    + congruence.
    + lia.
Qed.

(** What the header loop leaves for the rest of the function. *)
Lemma read_headers_stage fuel segments ending raw :
  arrives segments raw → bytes_in CRLFCRLF raw = true →
  (length raw < fuel)%nat →
  ∃ data body_rest sock1,
    read_headers fuel {| arriving := segments; at_end := ending |} []
      = Some (Ok data, sock1) ∧
    bytes_partition CRLFCRLF data = (header_of raw, CRLFCRLF, body_rest) ∧
    body_of_reply raw = body_rest ++ concat (arriving sock1) ∧
    Forall (λ s, s ≠ []) (arriving sock1) ∧
    at_end sock1 = ending ∧
    (length (concat (arriving sock1)) < fuel)%nat.
Proof.
  intros [<- Hne] Hin Hfuel.
  destruct (read_headers_found fuel {| arriving := segments; at_end := ending |} [])
    as (data & sock1 & Hrun & Hfound & Hcat & Hne1 & Hend & Hfuel1); try done.
  simpl in Hcat.
  exists data, (drop (default O (bytes_find CRLFCRLF data) + 4) data), sock1.
  split_and!; try done.
  - unfold header_of, bytes_partition, bytes_in in *.
    destruct (bytes_find CRLFCRLF data) as [i|] eqn:Hfind; [|done].
    rewrite <- Hcat, (bytes_find_app _ _ _ _ Hfind). simpl.
    pose proof (bytes_find_bound _ _ _ Hfind).
    by rewrite take_app_le by lia.
  - unfold body_of_reply, bytes_partition, bytes_in in *.
    destruct (bytes_find CRLFCRLF data) as [i|] eqn:Hfind; [|done].
    rewrite <- Hcat, (bytes_find_app _ _ _ _ Hfind). simpl.
    pose proof (bytes_find_bound _ _ _ Hfind) as Hbound. simpl in Hbound.
    by rewrite drop_app_le by lia.
Qed.

(** The body loop when exactly what it waits for is on its way. *)
Lemma read_body_all : ∀ fuel sock need chunks,
  (length (concat (arriving sock)) < fuel)%nat →
  Forall (λ s, s ≠ []) (arriving sock) →
  need = Z.of_nat (length (concat (arriving sock))) →
  ∃ chunks',
    read_body fuel sock need chunks
      = Some (Ok chunks', {| arriving := []; at_end := at_end sock |}) ∧
    concat chunks' = concat chunks ++ concat (arriving sock).
Proof.
  induction fuel as [|fuel IH]; intros sock need chunks Hfuel Hne Hneed; [lia|].
  simpl. destruct (0 <? need) eqn:Hpos.
  - apply Z.ltb_lt in Hpos.
    destruct (arriving sock) as [|segment rest] eqn:Harr; [simpl in Hneed; lia|].
    apply Forall_cons in Hne as [Hseg Hrest].
    destruct (recv_segment (Z.min 4096 need) sock segment rest Harr Hseg)
      as (c & chunk & sock' & -> & Hcat & _ & Hne' & Hend); [lia|].
    rewrite Harr in Hcat.
    assert (length (concat (segment :: rest))
            = S (length chunk + length (concat (arriving sock')))) as Hlen.
    { by rewrite <- Hcat, length_app. }
    destruct (IH sock' (need - Z.of_nat (length (c :: chunk)))
                (chunks ++ [c :: chunk])) as (chunks' & Hrun & Hall).
    + lia.
    + by apply Hne'.
    + cbn [length]. lia.
    + exists chunks'. rewrite Hrun, Hend. split; [done|].
      rewrite Hall, concat_app, <- app_assoc. simpl concat at 2.
      by rewrite app_nil_r, Hcat.
  - apply Z.ltb_ge in Hpos.
    assert (concat (arriving sock) = []) as Hnil.
    { apply length_zero_iff_nil. lia. }
    pose proof (concat_nil_nonempty _ Hne Hnil) as Harr.
    exists chunks. rewrite Hnil, app_nil_r. split; [|done].
    destruct sock as [arr e]. simpl in *. by subst.
Qed.

(** The body loop when less than it waits for is on its way: it reads on
    until the peer closes, or until [recv] raises. *)
Lemma read_body_short : ∀ fuel sock need chunks,
  (length (concat (arriving sock)) < fuel)%nat →
  Forall (λ s, s ≠ []) (arriving sock) →
  Z.of_nat (length (concat (arriving sock))) < need →
  ∃ chunks',
    concat chunks' = concat chunks ++ concat (arriving sock) ∧
    read_body fuel sock need chunks
    = Some (match at_end sock with
            | Closed => Ok chunks'
            | Silent e => Raise e
            end, {| arriving := []; at_end := at_end sock |}).
Proof.
  induction fuel as [|fuel IH]; intros sock need chunks Hfuel Hne Hneed; [lia|].
  simpl. assert ((0 <? need) = true) as -> by (apply Z.ltb_lt; lia).
  destruct (arriving sock) as [|segment rest] eqn:Harr.
  - exists chunks. simpl. rewrite app_nil_r. split; [done|].
    unfold recv. rewrite Harr. destruct sock as [arr e]. simpl in *. subst.
    by destruct e.
  - apply Forall_cons in Hne as [Hseg Hrest].
    destruct (recv_segment (Z.min 4096 need) sock segment rest Harr Hseg)
      as (c & chunk & sock' & -> & Hcat & Hsize & Hne' & Hend); [lia|].
    rewrite Harr in Hcat.
    assert (length (concat (segment :: rest))
            = S (length chunk + length (concat (arriving sock')))) as Hlen.
    { by rewrite <- Hcat, length_app. }
    destruct (IH sock' (need - Z.of_nat (length (c :: chunk)))
                (chunks ++ [c :: chunk])) as (chunks' & Hall & Hrun).
    + lia.
    + by apply Hne'.
    + cbn [length]. lia.
    + exists chunks'. rewrite Hrun, Hend. split; [|done].
      rewrite Hall, concat_app, <- app_assoc. simpl concat at 2.
      by rewrite app_nil_r, Hcat.
Qed.

Lemma read_to_close_all : ∀ fuel sock chunks,
  (length (concat (arriving sock)) < fuel)%nat →
  Forall (λ s, s ≠ []) (arriving sock) →
  ∃ chunks',
    concat chunks' = concat chunks ++ concat (arriving sock) ∧
    read_to_close fuel sock chunks
    = Some (match at_end sock with
            | Closed => Ok chunks'
            | Silent e => Raise e
            end, {| arriving := []; at_end := at_end sock |}).
Proof.
  induction fuel as [|fuel IH]; intros sock chunks Hfuel Hne; [lia|].
  simpl. destruct (arriving sock) as [|segment rest] eqn:Harr.
  - exists chunks. simpl. rewrite app_nil_r. split; [done|].
    unfold recv. rewrite Harr. destruct sock as [arr e]. simpl in *. subst.
    by destruct e.
  - apply Forall_cons in Hne as [Hseg Hrest].
    destruct (recv_segment 4096 sock segment rest Harr Hseg)
      as (c & chunk & sock' & -> & Hcat & Hsize & Hne' & Hend); [lia|].
    rewrite Harr in Hcat.
    assert (length (concat (segment :: rest))
            = S (length chunk + length (concat (arriving sock')))) as Hlen.
    { by rewrite <- Hcat, length_app. }
    destruct (IH sock' (chunks ++ [c :: chunk])) as (chunks' & Hall & Hrun).
    + lia.
    + by apply Hne'.
    + exists chunks'. rewrite Hrun, Hend. split; [|done].
      rewrite Hall, concat_app, <- app_assoc. simpl concat at 2.
      by rewrite app_nil_r, Hcat.
Qed.

(** X27.  A reply whose [Content-Length] is the length of its body is read
    to the end of that body and no further, in whatever pieces it arrives:
    the function returns the decoded body and does not wait for the peer to
    close the connection. *)
Theorem _read_http_response_content_length_framing
    (py_int : string → option Z) (decode_utf8 : bytes → result string)
    (segments : list bytes) (ending : ending) (raw : bytes) (fuel : nat) :
  arrives segments raw →
  bytes_in CRLFCRLF raw = true →
  announced py_int raw = Some (Z.of_nat (length (body_of_reply raw))) →
  (length raw < fuel)%nat →
  _read_http_response py_int decode_utf8 fuel
    {| arriving := segments; at_end := ending |}
  = Some (decode_utf8 (body_of_reply raw), {| arriving := []; at_end := ending |}).
Proof.
  intros Harrives Hin Hlen Hfuel.
  destruct (read_headers_stage fuel segments ending raw Harrives Hin Hfuel)
    as (data & body_rest & sock1 & Hrun & Hpart & Hbody & Hne & Hend & Hfuel1).
  unfold _read_http_response. rewrite Hrun, Hpart. cbv zeta.
  unfold announced in Hlen. rewrite Hlen.
  destruct (read_body_all fuel sock1
              (Z.of_nat (length (body_of_reply raw)) - Z.of_nat (length body_rest))
              [body_rest] Hfuel1 Hne) as (chunks & -> & Hall).
  { rewrite Hbody, length_app. lia. }
  rewrite Hall, Hend. simpl. by rewrite app_nil_r, Hbody.
Qed.

Lemma _read_http_response_content_length_framing_witness :
  _read_http_response demo_int demo_decode 100
    {| arriving := demo_reply_segments;
       at_end := Silent (ForeignError "socket.timeout" "timed out") |}
  = Some (Ok "attested",
          {| arriving := [];
             at_end := Silent (ForeignError "socket.timeout" "timed out") |}).
Proof.
  apply (_read_http_response_content_length_framing demo_int demo_decode
           demo_reply_segments (Silent (ForeignError "socket.timeout" "timed out"))
           (concat demo_reply_segments) 100).
  - split; [reflexivity|]. repeat constructor; discriminate.
  - reflexivity.
  - reflexivity.
  - vm_compute. lia.
Defined.

(** X28.  Without a [Content-Length] that [int] accepts, and also when fewer
    bytes arrive than were announced, the function reads on until the peer
    closes the connection: it then returns what came after the blank line,
    a body cut short included, without an error; and when the peer keeps the
    connection open instead, the exception of [recv] comes out. *)
Theorem _read_http_response_reads_until_close
    (py_int : string → option Z) (decode_utf8 : bytes → result string)
    (segments : list bytes) (ending : ending) (raw : bytes) (fuel : nat) :
  arrives segments raw →
  bytes_in CRLFCRLF raw = true →
  (announced py_int raw = None ∨
   ∃ n, announced py_int raw = Some n ∧ Z.of_nat (length (body_of_reply raw)) < n) →
  (length raw < fuel)%nat →
  _read_http_response py_int decode_utf8 fuel
    {| arriving := segments; at_end := ending |}
  = Some (match ending with
          | Closed => decode_utf8 (body_of_reply raw)
          | Silent e => Raise e
          end, {| arriving := []; at_end := ending |}).
Proof.
  intros Harrives Hin Hlen Hfuel.
  destruct (read_headers_stage fuel segments ending raw Harrives Hin Hfuel)
    as (data & body_rest & sock1 & Hrun & Hpart & Hbody & Hne & Hend & Hfuel1).
  unfold _read_http_response. rewrite Hrun, Hpart. cbv zeta.
  unfold announced in Hlen.
  destruct Hlen as [->|(n & -> & Hshort)].
  - destruct (read_to_close_all fuel sock1 [body_rest] Hfuel1 Hne)
      as (chunks & Hall & ->).
    rewrite Hend. destruct ending; [|done].
    rewrite Hall. simpl. by rewrite app_nil_r, Hbody.
  - destruct (read_body_short fuel sock1 (n - Z.of_nat (length body_rest))
                [body_rest] Hfuel1 Hne) as (chunks & Hall & ->).
    { rewrite Hbody, length_app in Hshort. lia. }
    rewrite Hend. destruct ending; [|done].
    rewrite Hall. simpl. by rewrite app_nil_r, Hbody.
Qed.

Lemma _read_http_response_reads_until_close_witness :
  _read_http_response demo_int demo_decode 100
    {| arriving := demo_reply_unframed;
       at_end := Silent (ForeignError "socket.timeout" "timed out") |}
  = Some (Raise (ForeignError "socket.timeout" "timed out"),
          {| arriving := [];
             at_end := Silent (ForeignError "socket.timeout" "timed out") |}) ∧
  _read_http_response demo_int demo_decode 100
    {| arriving := demo_reply_short; at_end := Closed |}
  = Some (Ok "attested", {| arriving := []; at_end := Closed |}).
Proof.
  split.
  - apply (_read_http_response_reads_until_close demo_int demo_decode
             demo_reply_unframed
             (Silent (ForeignError "socket.timeout" "timed out"))
             (concat demo_reply_unframed) 100).
    + split; [reflexivity|]. repeat constructor; discriminate.
    + reflexivity.
    + left. reflexivity.
    + vm_compute. lia.
  - apply (_read_http_response_reads_until_close demo_int demo_decode
             demo_reply_short Closed (concat demo_reply_short) 100).
    + split; [reflexivity|]. repeat constructor; discriminate.
    + reflexivity.
    + right. exists 20. split; reflexivity.
    + vm_compute. lia.
Defined.
